(** * RealtimeClient: a shallow embedding of [lib/client.ts]

    The client (the "Session/Response Orchestrator") owns the session
    configuration, the tool registry and the input audio buffer, and
    drives the transport ([RealtimeAPI]) and the conversation
    ([RealtimeConversation]).  Its methods are embedded as computations
    over the client state that either return a value or throw, the state
    reached so far being kept in both cases, as in JavaScript.

    Collaborators whose code lives in other files of the repository
    (transport, conversation, codec utilities) enter through the
    interface the client uses. *)

From Stdlib Require Import ZArith List String Ascii Bool Lia.
From Stdlib Require Import Floats.SpecFloat.
From stdpp Require Import gmap strings.

Set Warnings "-register-all".

Import ListNotations.
Local Open Scope string_scope.
Local Open Scope list_scope.
Local Open Scope Z_scope.

(* ================================================================== *)
(** * JavaScript numbers                                               *)
(* ================================================================== *)

(** A JavaScript [number] is an IEEE 754 binary64 value.  [spec_float]
    with precision 53 and maximal exponent 1024 is the Standard
    Library's executable specification of that format. *)
Module Number.

Definition prec : Z := 53.
Definition emax : Z := 1024.

Definition number : Type := spec_float.

(** The number denoted by an integer literal. *)
Definition of_Z (z : Z) : number := binary_normalize prec emax z 0 false.

(** [x / y] and [x * y], rounded to nearest, ties to even. *)
Definition div (x y : number) : number := SFdiv prec emax x y.
Definition mul (x y : number) : number := SFmul prec emax x y.

(** [Math.floor]: the largest integral number not above [x]; zeros,
    infinities and NaN are returned as they are. *)
Definition Math_floor (x : number) : number :=
  match x with
  | S754_finite s m e =>
      if 0 <=? e then x
      else
        let q := Z.pos m / 2 ^ (- e) in
        let r := Z.pos m mod 2 ^ (- e) in
        let n := if s then (if r =? 0 then q else q + 1) else q in
        if n =? 0 then S754_zero s
        else binary_normalize prec emax (if s then - n else n) 0 false
  | _ => x
  end.

(** The integer a sign and a mantissa stand for. *)
Definition signed (s : bool) (m : positive) : Z :=
  if s then Z.neg m else Z.pos m.

(** The integral number [n]; the zero keeps the sign [s]. *)
Definition integral (s : bool) (n : Z) : number :=
  if n =? 0 then S754_zero s else of_Z n.

(** [r] is the floor of [x].  A finite [x] with a negative exponent
    [e] is the fraction [signed s m / 2 ^ (- e)], whose floor is the
    integer [n] with [n <= signed s m / 2 ^ (- e) < n + 1]; every other
    [x] (a zero, an infinity, NaN, a finite number without fractional
    bits) is its own floor. *)
Definition is_floor (x r : number) : Prop :=
  match x with
  | S754_finite s m e =>
      if 0 <=? e then r = x
      else exists n : Z,
             r = integral s n /\
             n * 2 ^ (- e) <= signed s m < (n + 1) * 2 ^ (- e)
  | _ => r = x
  end.

End Number.

Abbreviation number := Number.number.

(* ================================================================== *)
(** * JavaScript values, completions                                   *)
(* ================================================================== *)

(** The values that cross the client's boundary: parsed JSON, the
    results of tool handlers and whatever a handler may throw.
    [JSError m] is an [Error] instance ([new Error(m)], or one of the
    built-in [SyntaxError], [TypeError]) with [message] [m]. *)
Inductive JSValue : Type :=
| JSUndefined
| JSNull
| JSBoolean (b : bool)
| JSNumber (x : number)
| JSString (s : string)
| JSArray (elements : list JSValue)
| JSObject (props : list (string * JSValue))
| JSError (message : string).

(** How a call completes: normally with a value, or abruptly with the
    thrown value. *)
Inductive Completion (A : Type) : Type :=
| Returns (a : A)
| Throws (e : JSValue).

Arguments Returns {A} a.
Arguments Throws {A} e.

(** The double quote character of the template strings. *)
Definition dq : string := String "034"%char EmptyString.

(** V8's message for reading a property of [undefined] or [null]. *)
Definition cannot_read_properties (of_ prop : string) : string :=
  ("Cannot read properties of " ++ of_ ++ " (reading '" ++ prop ++ "')")%string.

(** Lookup of an own property in the property list of an object. *)
Fixpoint own_property (props : list (string * JSValue)) (k : string) : option JSValue :=
  match props with
  | [] => None
  | (k', v) :: rest => if String.eqb k' k then Some v else own_property rest k
  end.

(** [e.message]: reading a property of [undefined] or [null] throws a
    [TypeError]; an [Error] instance gives its message; any other value
    gives its own [message] property when it is an object that has one,
    and [undefined] otherwise. *)
Definition get_message (e : JSValue) : Completion JSValue :=
  match e with
  | JSUndefined => Throws (JSError (cannot_read_properties "undefined" "message"))
  | JSNull => Throws (JSError (cannot_read_properties "null" "message"))
  | JSError m => Returns (JSString m)
  | JSObject props =>
      Returns (match own_property props "message" with Some v => v | None => JSUndefined end)
  | _ => Returns JSUndefined
  end.

(* ================================================================== *)
(** * Plain objects used as dictionaries                               *)
(* ================================================================== *)

(** [this.tools] is an object literal [{}] keyed by tool name.  Its own
    properties are kept in creation order; the members it inherits from
    [Object.prototype] are visible to [obj[k]] as well, and [delete]
    and [Object.keys] see own properties only. *)
Module Dict.

Definition t (V : Type) : Type := list (string * V).

Definition empty {V} : t V := [].

(** The property names every object literal inherits. *)
Definition inherited : list string :=
  [ "constructor"; "__defineGetter__"; "__defineSetter__"; "hasOwnProperty";
    "__lookupGetter__"; "__lookupSetter__"; "isPrototypeOf";
    "propertyIsEnumerable"; "toString"; "valueOf"; "__proto__";
    "toLocaleString" ].

Definition is_inherited (k : string) : bool :=
  existsb (String.eqb k) inherited.

Fixpoint get_own {V} (o : t V) (k : string) : option V :=
  match o with
  | [] => None
  | (k', v) :: rest => if String.eqb k' k then Some v else get_own rest k
  end.

(** What [o[k]] evaluates to. *)
Inductive Lookup (V : Type) : Type :=
| Own (v : V)
| Inherited
| Absent.

Arguments Own {V} v.
Arguments Inherited {V}.
Arguments Absent {V}.

Definition get {V} (o : t V) (k : string) : Lookup V :=
  match get_own o k with
  | Some v => Own v
  | None => if is_inherited k then Inherited else Absent
  end.

(** Truthiness of [o[k]]: the stored values are objects and the
    inherited members are functions (or the prototype itself), all
    truthy; an absent property reads as [undefined]. *)
Definition truthy {V} (o : t V) (k : string) : bool :=
  match get o k with
  | Absent => false
  | _ => true
  end.

(** [o[k] = v] for a key that is not inherited: an existing own
    property keeps its place, a new one goes last. *)
Fixpoint set {V} (o : t V) (k : string) (v : V) : t V :=
  match o with
  | [] => [(k, v)]
  | (k', v') :: rest =>
      if String.eqb k' k then (k', v) :: rest else (k', v') :: set rest k v
  end.

(** [delete o[k]]: removes the own property, if any. *)
Fixpoint delete {V} (o : t V) (k : string) : t V :=
  match o with
  | [] => []
  | (k', v') :: rest =>
      if String.eqb k' k then delete rest k else (k', v') :: delete rest k
  end.

(** Array indices: the canonical decimal numerals below 2^32 - 1. *)
Definition digit (a : ascii) : option N :=
  let n := N_of_ascii a in
  if ((48 <=? n) && (n <=? 57))%N then Some (n - 48)%N else None.

Fixpoint digits (acc : N) (s : string) : option N :=
  match s with
  | EmptyString => Some acc
  | String a rest =>
      match digit a with
      | Some d => digits (10 * acc + d)%N rest
      | None => None
      end
  end.

Definition array_index (k : string) : option N :=
  match k with
  | EmptyString => None
  | String a rest =>
      if Ascii.eqb a "0"%char then
        match rest with EmptyString => Some 0%N | _ => None end
      else
        match digits 0 k with
        | Some n => if (n <=? 4294967294)%N then Some n else None
        | None => None
        end
  end.

Fixpoint insert_index (i : N) (k : string) (l : list (N * string)) : list (N * string) :=
  match l with
  | [] => [(i, k)]
  | (j, k') :: rest =>
      if (i <=? j)%N then (i, k) :: l else (j, k') :: insert_index i k rest
  end.

Fixpoint index_keys {V} (o : t V) : list (N * string) :=
  match o with
  | [] => []
  | (k, _) :: rest =>
      match array_index k with
      | Some i => insert_index i k (index_keys rest)
      | None => index_keys rest
      end
  end.

Fixpoint name_keys {V} (o : t V) : list string :=
  match o with
  | [] => []
  | (k, _) :: rest =>
      match array_index k with
      | Some _ => name_keys rest
      | None => k :: name_keys rest
      end
  end.

(** [Object.keys(o)]: array indices in ascending order, then the other
    names in creation order. *)
Definition keys {V} (o : t V) : list string :=
  List.map snd (index_keys o) ++ name_keys o.

End Dict.

(* ================================================================== *)
(** * Audio data                                                       *)
(* ================================================================== *)

Definition Int16Array : Type := list Z.
Definition ArrayBuffer : Type := list Byte.byte.

(** What the audio entry points accept: an [Int16Array] or an
    [ArrayBuffer]. *)
Inductive BinaryData : Type :=
| samples_of (samples : Int16Array)
| bytes_of (bytes : ArrayBuffer).

Definition byteLength (b : BinaryData) : Z :=
  match b with
  | samples_of s => 2 * Z.of_nat (length s)
  | bytes_of bs => Z.of_nat (length bs)
  end.

(** The [audio] member of a content part: absent, a base64 string, or
    raw binary. *)
Inductive AudioPayload : Type :=
| no_audio
| base64_audio (s : string)
| raw_audio (b : BinaryData).

(* ================================================================== *)
(** * Items                                                            *)
(* ================================================================== *)

Inductive ContentKind : Type := input_text | input_audio | text | audio.

(** One content part ([InputTextContentType], [InputAudioContentType],
    [TextContentType], [AudioContentType]), tagged by [type]. *)
Record ContentType : Type := {
  part_type : ContentKind;
  part_text : option string;
  part_audio : AudioPayload;
  part_transcript : option string
}.

Inductive ItemKind : Type := message | function_call | function_call_output.
Inductive Role : Type := system | user | assistant.
Inductive ItemStatusType : Type := in_progress | completed | incomplete.

Record FormattedToolType : Type := {
  ft_type : string;
  ft_name : string;
  ft_call_id : string;
  ft_arguments : string
}.

Record FormattedPropertyType : Type := {
  formatted_audio : option Int16Array;
  formatted_text : option string;
  formatted_transcript : option string;
  formatted_tool : option FormattedToolType;
  formatted_output : option string
}.

Record ItemType : Type := {
  item_id : string;
  item_type : ItemKind;
  item_role : option Role;
  item_status : option ItemStatusType;
  item_content : list ContentType;
  item_formatted : FormattedPropertyType
}.

Definition ContentKind_eqb (a b : ContentKind) : bool :=
  match a, b with
  | input_text, input_text | input_audio, input_audio
  | text, text | audio, audio => true
  | _, _ => false
  end.

Definition is_message (k : ItemKind) : bool :=
  match k with message => true | _ => false end.

Definition is_assistant (r : option Role) : bool :=
  match r with Some assistant => true | _ => false end.

Definition is_completed (s : option ItemStatusType) : bool :=
  match s with Some completed => true | _ => false end.

(** [Array.prototype.findIndex]: the index of the first element that
    satisfies [p], or -1. *)
Fixpoint findIndex {A} (p : A -> bool) (l : list A) : Z :=
  match l with
  | [] => -1
  | x :: rest =>
      if p x then 0
      else let i := findIndex p rest in if i =? -1 then -1 else i + 1
  end.

(* ================================================================== *)
(** * Session configuration                                            *)
(* ================================================================== *)

Inductive AudioFormatType : Type := pcm16 | g711_ulaw | g711_alaw.
Inductive VoiceType : Type := alloy | shimmer | echo.

Record AudioTranscriptionType : Type := { transcription_model : string }.

Record TurnDetectionServerVadType : Type := {
  vad_type : string;
  threshold : option number;
  prefix_padding_ms : option number;
  silence_duration_ms : option number
}.

(** A tool definition.  [tool_type] and [tool_name] are [None] when the
    property is missing. *)
Record ToolDefinitionType : Type := {
  tool_type : option string;
  tool_name : option string;
  tool_description : string;
  tool_parameters : JSValue
}.

Inductive ToolChoiceType : Type :=
| choice_auto
| choice_none
| choice_required
| choice_function (name : string).

Inductive MaxTokensType : Type := max_tokens (n : number) | max_inf.

(** [SessionResourceType].  Every member is optional: [None] is
    [undefined] (what [void 0] evaluates to); for the two nullable
    members [Some None] is [null]. *)
Module Session.

Record t : Type := {
  model : option string;
  modalities : option (list string);
  instructions : option string;
  voice : option VoiceType;
  input_audio_format : option AudioFormatType;
  output_audio_format : option AudioFormatType;
  input_audio_transcription : option (option AudioTranscriptionType);
  turn_detection : option (option TurnDetectionServerVadType);
  tools : option (list ToolDefinitionType);
  tool_choice : option ToolChoiceType;
  temperature : option number;
  max_response_output_tokens : option MaxTokensType
}.

(** The object [{}]. *)
Definition empty : t :=
  {| model := None; modalities := None; instructions := None; voice := None;
     input_audio_format := None; output_audio_format := None;
     input_audio_transcription := None; turn_detection := None;
     tools := None; tool_choice := None; temperature := None;
     max_response_output_tokens := None |}.

(** [session.tools = ts]. *)
Definition set_tools (s : t) (ts : list ToolDefinitionType) : t :=
  {| model := model s; modalities := modalities s;
     instructions := instructions s; voice := voice s;
     input_audio_format := input_audio_format s;
     output_audio_format := output_audio_format s;
     input_audio_transcription := input_audio_transcription s;
     turn_detection := turn_detection s;
     tools := Some ts; tool_choice := tool_choice s;
     temperature := temperature s;
     max_response_output_tokens := max_response_output_tokens s |}.

End Session.

Abbreviation SessionResourceType := Session.t.

(** [x !== void 0 && (target = x)]: the stored member after the
    guarded assignment. *)
Definition assign {A} (x : option A) (target : option A) : option A :=
  match x with
  | Some v => Some v
  | None => target
  end.

(* ================================================================== *)
(** * Transport                                                        *)
(* ================================================================== *)

(** The item of a [conversation.item.create] command. *)
Inductive CreatedItem : Type :=
| user_message (content : list ContentType)
| function_output (call_id : string) (output : option string).

(** The commands the client hands to [RealtimeAPI.send(name, data)]. *)
Inductive Command : Type :=
| session_update (session : SessionResourceType)
| input_audio_buffer_append (audio_data : string)
| input_audio_buffer_commit
| response_create
| response_cancel
| conversation_item_create (item : CreatedItem)
| conversation_item_delete (item_id : string)
| conversation_item_truncate (item_id : string) (content_index : Z)
    (audio_end_ms : number).

Definition event_name (c : Command) : string :=
  match c with
  | session_update _ => "session.update"
  | input_audio_buffer_append _ => "input_audio_buffer.append"
  | input_audio_buffer_commit => "input_audio_buffer.commit"
  | response_create => "response.create"
  | response_cancel => "response.cancel"
  | conversation_item_create _ => "conversation.item.create"
  | conversation_item_delete _ => "conversation.item.delete"
  | conversation_item_truncate _ _ _ => "conversation.item.truncate"
  end.

(** Modelled from the spec: [RealtimeAPI], the transport of [lib/api.ts].
    The core needs [send(eventType, payload)] and a connection-state
    query (spec 1).  The model keeps the connection flag and, in order,
    every command the transport took (spec 6: commands are forwarded
    to the transport verbatim).  What the transport does with a command
    it took is its own business and is not part of the client. *)
Record RealtimeAPI : Type := {
  connected : bool;
  sent : list Command
}.

Module API.

Definition isConnected (r : RealtimeAPI) : bool := connected r.

(** The record of a command the transport took. *)
Definition log (cmd : Command) (r : RealtimeAPI) : RealtimeAPI :=
  {| connected := connected r; sent := sent r ++ [cmd] |}.

(** Modelled from the spec: the error that refuses a command while the
    transport is not connected (spec 7 (d): a synchronous error that
    identifies the violated precondition). *)
Definition not_connected : JSValue := JSError "RealtimeAPI is not connected".

(** Modelled from the spec: [send(eventName, data)].  A transport that
    is not connected refuses the command with a synchronous error
    (spec 7 (d)), [None] here; a connected one takes it. *)
Definition send (cmd : Command) (r : RealtimeAPI) : option RealtimeAPI :=
  if connected r then Some (log cmd r) else None.

Definition connect (r : RealtimeAPI) : RealtimeAPI :=
  {| connected := true; sent := sent r |}.

Definition disconnect (r : RealtimeAPI) : RealtimeAPI :=
  {| connected := false; sent := sent r |}.

End API.

(* ================================================================== *)
(** * Conversation                                                     *)
(* ================================================================== *)

(** Modelled from the spec: [RealtimeConversation] of
    [lib/conversation.ts], as far as the client reads or writes it: an
    ordered sequence of items plus a lookup by id, the queued input
    audio, and the fixed sample rate (spec 3, 4.1, 6). *)
Record RealtimeConversation : Type := {
  defaultFrequency : number;
  itemLookup : gmap string ItemType;
  items : list ItemType;
  queuedInputAudio : list Int16Array
}.

Module Conversation.

(** Modelled from the spec: [getItem(id)], the lookup by id. *)
Definition getItem (id : string) (c : RealtimeConversation) : option ItemType :=
  itemLookup c !! id.

(** Modelled from the spec: [queueInputAudio(samples)] appends to the
    queued input audio. *)
Definition queueInputAudio (samples : Int16Array) (c : RealtimeConversation)
  : RealtimeConversation :=
  {| defaultFrequency := defaultFrequency c; itemLookup := itemLookup c;
     items := items c; queuedInputAudio := queuedInputAudio c ++ [samples] |}.

(** Modelled from the spec: [clear()] empties collection and lookup. *)
Definition clear (c : RealtimeConversation) : RealtimeConversation :=
  {| defaultFrequency := defaultFrequency c; itemLookup := ∅;
     items := []; queuedInputAudio := queuedInputAudio c |}.

End Conversation.

(* ================================================================== *)
(** * Tools                                                            *)
(* ================================================================== *)

(** How the promise of an awaited handler call settles. *)
Inductive Settlement : Type :=
| fulfilled (value : JSValue)
| rejected (reason : JSValue).

(** What calling a tool handler does: it throws before returning, or
    it returns a value or a promise; [awaited None] is a promise that
    never settles, and a returned plain value [v] is
    [awaited (Some (fulfilled v))]. *)
Inductive HandlerResult : Type :=
| threw (e : JSValue)
| awaited (s : option Settlement).

(** A handler, as far as [callTool] depends on it: a function of the
    parsed arguments.  What a handler does to the client on its own
    account is an operation of its own. *)
Definition Handler : Type := JSValue -> HandlerResult.

(** The second argument of [addTool]: a function, or anything else. *)
Inductive HandlerArgument : Type :=
| a_function (f : Handler)
| not_a_function (v : JSValue).

(** An entry of the tool registry. *)
Record ToolConfig : Type := {
  definition : ToolDefinitionType;
  handler : Handler
}.

(** [{ type: 'function', ...toolDefinition }]. *)
Definition function_tool (d : ToolDefinitionType) : ToolDefinitionType :=
  {| tool_type := match tool_type d with Some ty => Some ty | None => Some "function" end;
     tool_name := tool_name d;
     tool_description := tool_description d;
     tool_parameters := tool_parameters d |}.

(** A possibly missing name used as a property key or inside a
    template string. *)
Definition name_string (n : option string) : string :=
  match n with
  | Some s => s
  | None => "undefined"
  end.

(* ================================================================== *)
(** * The client                                                       *)
(* ================================================================== *)

(** What [processEvent] returns: [{ item, delta }]. *)
Record DeltaType : Type := {
  delta_transcript : option string;
  delta_text : option string;
  delta_audio : option Int16Array;
  delta_arguments : option string
}.

(** The events the client dispatches to the application. *)
Inductive ClientEvent : Type :=
| conversation_updated (item : ItemType) (delta : option DeltaType)
| conversation_item_appended (item : option ItemType)
| conversation_item_completed (item : ItemType)
| conversation_interrupted.

(** The mutable fields of the class the methods below read or write,
    with the two collaborator objects, and the trace of what the client
    dispatched on its own event bus ([dispatched] is not a field of the
    class).  [defaultSessionConfig] and [defaultServerVadConfig] are
    set once by the constructor and are constants here. *)
Record RealtimeClient : Type := {
  sessionConfig : SessionResourceType;
  sessionCreated : bool;
  tools : Dict.t ToolConfig;
  inputAudioBuffer : Int16Array;
  realtime : RealtimeAPI;
  conversation : RealtimeConversation;
  dispatched : list ClientEvent
}.

Definition set_sessionConfig (v : SessionResourceType) (c : RealtimeClient) : RealtimeClient :=
  {| sessionConfig := v; sessionCreated := sessionCreated c; tools := tools c;
     inputAudioBuffer := inputAudioBuffer c; realtime := realtime c;
     conversation := conversation c; dispatched := dispatched c |}.

Definition set_sessionCreated (v : bool) (c : RealtimeClient) : RealtimeClient :=
  {| sessionConfig := sessionConfig c; sessionCreated := v; tools := tools c;
     inputAudioBuffer := inputAudioBuffer c; realtime := realtime c;
     conversation := conversation c; dispatched := dispatched c |}.

Definition set_tools (v : Dict.t ToolConfig) (c : RealtimeClient) : RealtimeClient :=
  {| sessionConfig := sessionConfig c; sessionCreated := sessionCreated c; tools := v;
     inputAudioBuffer := inputAudioBuffer c; realtime := realtime c;
     conversation := conversation c; dispatched := dispatched c |}.

Definition set_inputAudioBuffer (v : Int16Array) (c : RealtimeClient) : RealtimeClient :=
  {| sessionConfig := sessionConfig c; sessionCreated := sessionCreated c; tools := tools c;
     inputAudioBuffer := v; realtime := realtime c;
     conversation := conversation c; dispatched := dispatched c |}.

Definition set_realtime (v : RealtimeAPI) (c : RealtimeClient) : RealtimeClient :=
  {| sessionConfig := sessionConfig c; sessionCreated := sessionCreated c; tools := tools c;
     inputAudioBuffer := inputAudioBuffer c; realtime := v;
     conversation := conversation c; dispatched := dispatched c |}.

Definition set_conversation (v : RealtimeConversation) (c : RealtimeClient) : RealtimeClient :=
  {| sessionConfig := sessionConfig c; sessionCreated := sessionCreated c; tools := tools c;
     inputAudioBuffer := inputAudioBuffer c; realtime := realtime c;
     conversation := v; dispatched := dispatched c |}.

Definition set_dispatched (v : list ClientEvent) (c : RealtimeClient) : RealtimeClient :=
  {| sessionConfig := sessionConfig c; sessionCreated := sessionCreated c; tools := tools c;
     inputAudioBuffer := inputAudioBuffer c; realtime := realtime c;
     conversation := conversation c; dispatched := v |}.

(** ** Methods as state-passing computations that may throw *)

Definition Method (A : Type) : Type :=
  RealtimeClient -> Completion A * RealtimeClient.

Definition ret {A} (a : A) : Method A :=
  fun c => (Returns a, c).

Definition bind {A B} (m : Method A) (k : A -> Method B) : Method B :=
  fun c =>
    match m c with
    | (Returns a, c') => k a c'
    | (Throws e, c') => (Throws e, c')
    end.

Declare Scope method_scope.
Delimit Scope method_scope with method.
Bind Scope method_scope with Method.

Notation "x <- m ;; k" := (bind m (fun x => k))
  (at level 100, m at next level, k at level 200, right associativity) : method_scope.
Notation "m ;; k" := (bind m (fun _ => k))
  (at level 100, k at level 200, right associativity) : method_scope.

Local Open Scope method_scope.

Definition read {A} (f : RealtimeClient -> A) : Method A :=
  fun c => (Returns (f c), c).

Definition modify (f : RealtimeClient -> RealtimeClient) : Method unit :=
  fun c => (Returns tt, f c).

(** [throw new Error(message)]. *)
Definition throw_Error {A} (message : string) : Method A :=
  fun c => (Throws (JSError message), c).

Definition throw {A} (e : JSValue) : Method A :=
  fun c => (Throws e, c).

(** [try { body } catch (e) { handle e }]. *)
Definition try_catch {A} (body : Method A) (handle : JSValue -> Method A) : Method A :=
  fun c =>
    match body c with
    | (Returns a, c') => (Returns a, c')
    | (Throws e, c') => handle e c'
    end.

(** [if (b) { m }]. *)
Definition when (b : bool) (m : Method unit) : Method unit :=
  if b then m else ret tt.

(** [list.map(f)] where [f] may throw: elements are visited in order
    and the first exception ends the traversal. *)
Fixpoint map_throwing {A B} (f : A -> Method B) (l : list A) : Method (list B) :=
  match l with
  | [] => ret []
  | x :: rest =>
      y <- f x ;;
      ys <- map_throwing f rest ;;
      ret (y :: ys)
  end.

(** The state a call leaves behind and how it completed. *)
Definition state_after {A} (m : Method A) (c : RealtimeClient) : RealtimeClient :=
  snd (m c).

Definition completion {A} (m : Method A) (c : RealtimeClient) : Completion A :=
  fst (m c).

(** [this.realtime.send(name, data)]. *)
Definition send (cmd : Command) : Method unit :=
  fun c =>
    match API.send cmd (realtime c) with
    | Some r => (Returns tt, set_realtime r c)
    | None => (Throws API.not_connected, c)
    end.

(** [this.dispatch(name, event)]. *)
Definition dispatch (ev : ClientEvent) : Method unit :=
  modify (fun c => set_dispatched (dispatched c ++ [ev]) c).

(** The commands a call handed to the transport. *)
Definition outbox (c : RealtimeClient) : list Command := sent (realtime c).

(** The state after a [send] the transport took. *)
Definition sending (cmd : Command) (c : RealtimeClient) : RealtimeClient :=
  set_realtime (API.log cmd (realtime c)) c.

(** A default parameter value, [x = d]. *)
Definition default_to {A} (d : A) (x : option A) : A :=
  match x with
  | Some v => v
  | None => d
  end.

Ltac run_method :=
  unfold state_after, completion, outbox, bind, ret, read, modify, send, dispatch,
    when, throw_Error, throw, try_catch in *;
  simpl in *.

(** ** Collaborators outside the client *)

(** [RealtimeUtils] of [lib/utils.ts]: the base64 encoder, and the view
    of an [ArrayBuffer] as 16-bit samples that [mergeInt16Arrays]
    takes. *)
Class Codec : Type := {
  arrayBufferToBase64 : BinaryData -> string;
  int16View : ArrayBuffer -> Int16Array
}.

(** Modelled from the spec: [RealtimeUtils.mergeInt16Arrays(left, right)],
    the concatenation of two sample sequences into one. *)
Definition mergeInt16Arrays `{Codec} (left : Int16Array) (right : BinaryData) : Int16Array :=
  left ++ match right with
          | samples_of s => s
          | bytes_of bs => int16View bs
          end.

(** The built-in [JSON] object.  [JSON_parse] throws a [SyntaxError] on
    malformed text; [JSON_stringify] gives [None] where
    [JSON.stringify] gives [undefined].  The values of [JSValue] are
    finite trees of plain data, on which [JSON.stringify] does not
    throw. *)
Class JSONBuiltins : Type := {
  JSON_parse : string -> Completion JSValue;
  JSON_stringify : JSValue -> option string
}.

(** ** Constructor data *)

(** The literal [0.8]: the binary64 number nearest to 4/5. *)
Definition default_temperature : number :=
  Number.div (Number.of_Z 4) (Number.of_Z 5).

Definition defaultSessionConfig : SessionResourceType :=
  {| Session.model := None;
     Session.modalities := Some ["text"; "audio"];
     Session.instructions := Some "";
     Session.voice := Some alloy;
     Session.input_audio_format := Some pcm16;
     Session.output_audio_format := Some pcm16;
     Session.input_audio_transcription := Some None;
     Session.turn_detection := Some None;
     Session.tools := Some [];
     Session.tool_choice := Some choice_auto;
     Session.temperature := Some default_temperature;
     Session.max_response_output_tokens := Some (max_tokens (Number.of_Z 4096)) |}.

Definition defaultServerVadConfig : TurnDetectionServerVadType :=
  {| vad_type := "server_vad";
     threshold := Some (Number.div (Number.of_Z 1) (Number.of_Z 2));
     prefix_padding_ms := Some (Number.of_Z 300);
     silence_duration_ms := Some (Number.of_Z 200) |}.

(** ** Methods of [RealtimeClient] *)

(** [_resetConfig()].  [JSON.parse(JSON.stringify(d))] of the default
    configuration is a copy equal to it. *)
Definition _resetConfig : Method bool :=
  modify (set_sessionCreated false);;
  modify (set_tools Dict.empty);;
  modify (set_sessionConfig defaultSessionConfig);;
  modify (set_inputAudioBuffer []);;
  ret true.

Definition isConnected : Method bool :=
  read (fun c => API.isConnected (realtime c)).

(** [disconnect()]. *)
Definition disconnect : Method unit :=
  modify (set_sessionCreated false);;
  isc <- isConnected ;;
  when isc (modify (fun c => set_realtime (API.disconnect (realtime c)) c));;
  modify (fun c => set_conversation (Conversation.clear (conversation c)) c).

(** [getTurnDetectionType()]:
    [this.sessionConfig.turn_detection?.type || null]. *)
Definition turnDetectionType (s : SessionResourceType) : option string :=
  match Session.turn_detection s with
  | Some (Some td) => if String.eqb (vad_type td) "" then None else Some (vad_type td)
  | _ => None
  end.

Definition getTurnDetectionType : Method (option string) :=
  read (fun c => turnDetectionType (sessionConfig c)).

(** [x === null]. *)
Definition is_null {A} (x : option A) : bool :=
  match x with
  | None => true
  | Some _ => false
  end.

(** The guarded assignments at the head of [updateSession]: the stored
    configuration [s] after them.  [model] is not among the members
    the method takes from its argument. *)
Definition merge_session (p s : SessionResourceType) : SessionResourceType :=
  {| Session.model := Session.model s;
     Session.modalities := assign (Session.modalities p) (Session.modalities s);
     Session.instructions := assign (Session.instructions p) (Session.instructions s);
     Session.voice := assign (Session.voice p) (Session.voice s);
     Session.input_audio_format :=
       assign (Session.input_audio_format p) (Session.input_audio_format s);
     Session.output_audio_format :=
       assign (Session.output_audio_format p) (Session.output_audio_format s);
     Session.input_audio_transcription :=
       assign (Session.input_audio_transcription p) (Session.input_audio_transcription s);
     Session.turn_detection :=
       assign (Session.turn_detection p) (Session.turn_detection s);
     Session.tools := assign (Session.tools p) (Session.tools s);
     Session.tool_choice := assign (Session.tool_choice p) (Session.tool_choice s);
     Session.temperature := assign (Session.temperature p) (Session.temperature s);
     Session.max_response_output_tokens :=
       assign (Session.max_response_output_tokens p)
              (Session.max_response_output_tokens s) |}.

(** [tools || []]. *)
Definition inline_tools (p : SessionResourceType) : list ToolDefinitionType :=
  match Session.tools p with
  | Some ts => ts
  | None => []
  end.

(** [Object.keys(this.tools).map((key) => ({ type: 'function',
    ...this.tools[key].definition }))]. *)
Definition registered_tools (registry : Dict.t ToolConfig) : list ToolDefinitionType :=
  omap (fun key => (fun cfg => function_tool (definition cfg)) <$> Dict.get_own registry key)
       (Dict.keys registry).

(** The message of the error [updateSession] throws for an inline tool
    whose name is taken. *)
Definition already_defined (name : string) : string :=
  ("Tool " ++ dq ++ name ++ dq ++ " has already been defined")%string.

(** The function [updateSession] maps over the inline tools. *)
Definition inline_tool (registry : Dict.t ToolConfig) (toolDefinition : ToolDefinitionType)
  : Method ToolDefinitionType :=
  let definition := function_tool toolDefinition in
  if Dict.truthy registry (name_string (tool_name definition)) then
    throw_Error (already_defined (name_string (tool_name definition)))
  else ret definition.

(** [updateSession(partial)]. *)
Definition updateSession (p : SessionResourceType) : Method bool :=
  modify (fun c => set_sessionConfig (merge_session p (sessionConfig c)) c);;
  registry <- read tools ;;
  inline <- map_throwing (inline_tool registry) (inline_tools p) ;;
  let useTools := inline ++ registered_tools registry in
  stored <- read sessionConfig ;;
  let session := Session.set_tools stored useTools in
  isc <- isConnected ;;
  when isc (send (session_update session));;
  ret true.

(** [connect()].  Modelled from the spec: awaiting
    [this.realtime.connect()] leaves the transport connected. *)
Definition connect : Method bool :=
  isc <- isConnected ;;
  if isc then throw_Error "Already connected, use .disconnect() first"
  else
    modify (fun c => set_realtime (API.connect (realtime c)) c);;
    updateSession Session.empty;;
    ret true.

(** [reset()].  The handler tables that [clearEventHandlers] and
    [_addAPIEventHandlers] rebuild are the same before and after. *)
Definition reset : Method bool :=
  disconnect;;
  _resetConfig;;
  ret true.

(** The message of the error [addTool] throws for a taken name. *)
Definition already_added (name : string) : string :=
  ("Tool " ++ dq ++ name ++ dq ++ " already added. Please use .removeTool("
   ++ dq ++ name ++ dq ++ ") before trying to add again.")%string.

(** The message of the error [addTool] throws for a handler that is
    not a function. *)
Definition must_be_a_function (name : string) : string :=
  ("Tool " ++ dq ++ name ++ dq ++ " handler must be a function")%string.

(** The message of the error [removeTool] throws. *)
Definition does_not_exist (name : string) : string :=
  ("Tool " ++ dq ++ name ++ dq ++ " does not exist, can not be removed.")%string.

(** [addTool(definition, handler)]; the result is what
    [this.tools[name]] evaluates to at the end. *)
Definition addTool (def : ToolDefinitionType) (h : HandlerArgument)
  : Method (Dict.Lookup ToolConfig) :=
  match tool_name def with
  | None | Some "" => throw_Error "Missing tool name in definition"
  | Some name =>
      registry <- read tools ;;
      if Dict.truthy registry name then
        throw_Error (already_added name)
      else
        match h with
        | not_a_function _ =>
            throw_Error (must_be_a_function name)
        | a_function f =>
            modify (fun c => set_tools
                      (Dict.set (tools c) name {| definition := def; handler := f |}) c);;
            updateSession Session.empty;;
            read (fun c => Dict.get (tools c) name)
        end
  end.

(** [removeTool(name)]. *)
Definition removeTool (name : string) : Method bool :=
  registry <- read tools ;;
  if negb (Dict.truthy registry name) then
    throw_Error (does_not_exist name)
  else
    modify (fun c => set_tools (Dict.delete (tools c) name) c);;
    ret true.

(** [deleteItem(id)]. *)
Definition deleteItem (id : string) : Method bool :=
  send (conversation_item_delete id);;
  ret true.

(** [createResponse()]. *)
Definition createResponse : Method bool :=
  turnDetection <- getTurnDetectionType ;;
  buffer <- read inputAudioBuffer ;;
  when (is_null turnDetection && (0 <? byteLength (samples_of buffer)))
    (send input_audio_buffer_commit;;
     modify (fun c => set_conversation
               (Conversation.queueInputAudio (inputAudioBuffer c) (conversation c)) c);;
     modify (set_inputAudioBuffer []));;
  send response_create;;
  ret true.

(** The loop of [sendUserMessageContent] over one part: raw binary
    audio of an [input_audio] part is replaced by its base64 text. *)
Definition encode_audio `{Codec} (c : ContentType) : ContentType :=
  match part_type c, part_audio c with
  | input_audio, raw_audio b =>
      {| part_type := part_type c; part_text := part_text c;
         part_audio := base64_audio (arrayBufferToBase64 b);
         part_transcript := part_transcript c |}
  | _, _ => c
  end.

(** [sendUserMessageContent(content)]. *)
Definition sendUserMessageContent `{Codec} (content : list ContentType) : Method bool :=
  when (negb (Nat.eqb (length content) 0))
    (send (conversation_item_create (user_message (List.map encode_audio content))));;
  createResponse;;
  ret true.

(** [appendInputAudio(arrayBuffer)]. *)
Definition appendInputAudio `{Codec} (arrayBuffer : BinaryData) : Method bool :=
  when (0 <? byteLength arrayBuffer)
    (send (input_audio_buffer_append (arrayBufferToBase64 arrayBuffer));;
     modify (fun c => set_inputAudioBuffer
               (mergeInt16Arrays (inputAudioBuffer c) arrayBuffer) c));;
  ret true.

(** [(c) => c.type === 'audio']. *)
Definition is_audio (c : ContentType) : bool := ContentKind_eqb (part_type c) audio.

(** [audio_end_ms] of the truncate command:
    [Math.floor((sampleCount / this.conversation.defaultFrequency) * 1000)]. *)
Definition audio_end_ms_of (sampleCount frequency : number) : number :=
  Number.Math_floor (Number.mul (Number.div sampleCount frequency) (Number.of_Z 1000)).

(** [cancelResponse(id, sampleCount = 0)].  [id] is [None] when the
    argument is missing, and an empty string is falsy as well; the
    result is the [item] member of the returned object. *)
Definition cancelResponse (id : option string) (sampleCount : option number)
  : Method (option ItemType) :=
  let sampleCount := default_to (Number.of_Z 0) sampleCount in
  match id with
  | None | Some "" =>
      send response_cancel;;
      ret None
  | Some id =>
      found <- read (fun c => Conversation.getItem id (conversation c)) ;;
      match found with
      | None => throw_Error ("Could not find item " ++ dq ++ id ++ dq)%string
      | Some item =>
          if negb (is_message (item_type item)) then
            throw_Error ("Can only cancelResponse messages with type "
                         ++ dq ++ "message" ++ dq)%string
          else if negb (is_assistant (item_role item)) then
            throw_Error ("Can only cancelResponse messages with role "
                         ++ dq ++ "assistant" ++ dq)%string
          else
            send response_cancel;;
            let audioIndex := findIndex is_audio (item_content item) in
            if audioIndex =? -1 then
              throw_Error "Could not find audio on item to cancel"
            else
              frequency <- read (fun c => defaultFrequency (conversation c)) ;;
              send (conversation_item_truncate id audioIndex
                      (audio_end_ms_of sampleCount frequency));;
              ret (Some item)
      end
  end.

(* ================================================================== *)
(** * Server events and tool calls                                     *)
(* ================================================================== *)

(** The server events the client subscribes to. *)
Inductive ServerEventType : Type :=
| session_created
| response_created
| response_output_item_added
| response_content_part_added
| input_audio_buffer_speech_started
| input_audio_buffer_speech_stopped
| conversation_item_created
| conversation_item_truncated
| conversation_item_deleted
| conversation_item_input_audio_transcription_completed
| response_audio_transcript_delta
| response_audio_delta
| response_text_delta
| response_function_call_arguments_delta
| response_output_item_done
| other_event (name : string).

Record ServerEvent : Type := {
  event_type : ServerEventType;
  event_body : JSValue
}.

(** [this.conversation.processEvent(event, ...args)] of
    [lib/conversation.ts]: it updates the conversation and returns
    [{ item, delta }], or throws; the only extra argument the client
    ever passes is its input audio buffer. *)
Class Assembler : Type := {
  processEvent :
    ServerEvent -> option Int16Array -> RealtimeConversation ->
    Completion (option ItemType * option DeltaType) * RealtimeConversation
}.

(** [handler(event, ...args)] of [_addAPIEventHandlers]. *)
Definition handler_ `{Assembler} (event : ServerEvent) (extra : option Int16Array)
  : Method (option ItemType * option DeltaType) :=
  fun c =>
    let '(r, conv) := processEvent event extra (conversation c) in
    (r, set_conversation conv c).

(** [handlerWithDispatch(event, ...args)]. *)
Definition handlerWithDispatch `{Assembler} (event : ServerEvent) (extra : option Int16Array)
  : Method (option ItemType * option DeltaType) :=
  r <- handler_ event extra ;;
  match fst r with
  | Some item => dispatch (conversation_updated item (snd r))
  | None => ret tt
  end;;
  ret r.

(** [item.status === 'completed'] followed by the dispatch, where
    [item] may be [undefined]. *)
Definition dispatch_if_completed (item : option ItemType) : Method ItemType :=
  match item with
  | None => throw_Error (cannot_read_properties "undefined" "status")
  | Some it =>
      when (is_completed (item_status it)) (dispatch (conversation_item_completed it));;
      ret it
  end.

(** The [catch (e)] block of [callTool]. *)
Definition callTool_catch `{JSONBuiltins} (tool : FormattedToolType) (e : JSValue)
  : Method unit :=
  match get_message e with
  | Throws err => throw err
  | Returns msg =>
      send (conversation_item_create
              (function_output (ft_call_id tool)
                 (JSON_stringify (JSObject [("error", msg)]))))
  end.

(** [callTool(tool)] from its call to the [await]: [Some s] when the
    call is suspended on the handler's promise, which settles as [s]
    says; [None] when it ran to its end. *)
Definition callTool_call `{JSONBuiltins} (tool : FormattedToolType)
  : Method (option (option Settlement)) :=
  r <- try_catch
         (match JSON_parse (ft_arguments tool) with
          | Throws e => throw e
          | Returns jsonArguments =>
              registry <- read tools ;;
              match Dict.get registry (ft_name tool) with
              | Dict.Absent =>
                  throw_Error ("Tool " ++ dq ++ ft_name tool ++ dq
                               ++ " has not been added")%string
              | Dict.Inherited =>
                  throw_Error "toolConfig.handler is not a function"
              | Dict.Own toolConfig =>
                  match handler toolConfig jsonArguments with
                  | threw e => throw e
                  | awaited s => ret (Some s)
                  end
              end
          end)
         (fun e => callTool_catch tool e;; ret None) ;;
  match r with
  | Some s => ret (Some s)
  | None => createResponse;; ret None
  end.

(** [callTool(tool)] from the settlement of the awaited promise to its
    end. *)
Definition callTool_resume `{JSONBuiltins} (tool : FormattedToolType) (s : Settlement)
  : Method unit :=
  try_catch
    (match s with
     | rejected e => throw e
     | fulfilled result =>
         send (conversation_item_create
                 (function_output (ft_call_id tool) (JSON_stringify result)))
     end)
    (callTool_catch tool);;
  createResponse;;
  ret tt.

(** A call whose promise nobody awaits: a rejection stays inside. *)
Definition detached {A} (m : Method A) : Method (option A) :=
  fun c =>
    match m c with
    | (Returns a, c') => (Returns (Some a), c')
    | (Throws _, c') => (Returns None, c')
    end.

(** The tool call a server event leaves suspended, if any. *)
Definition Suspended : Type := option (FormattedToolType * Settlement).

(** The handler of [server.response.output_item.done]. *)
Definition on_output_item_done `{Assembler} `{JSONBuiltins} (event : ServerEvent)
  : Method Suspended :=
  r <- handlerWithDispatch event None ;;
  item <- dispatch_if_completed (fst r) ;;
  match formatted_tool (item_formatted item) with
  | Some tool =>
      called <- detached (callTool_call tool) ;;
      ret (match called with
           | Some (Some (Some s)) => Some (tool, s)
           | _ => None
           end)
  | None => ret None
  end.

(** The handlers [_addAPIEventHandlers] registers, by event.  The
    copies of every event dispatched as [realtime.event] carry the
    wall-clock time and are left out. *)
Definition on_server_event `{Assembler} `{JSONBuiltins} (event : ServerEvent)
  : Method Suspended :=
  match event_type event with
  | session_created =>
      modify (set_sessionCreated true);; ret None
  | response_created | response_output_item_added | response_content_part_added =>
      handler_ event None;; ret None
  | input_audio_buffer_speech_started =>
      handler_ event None;; dispatch conversation_interrupted;; ret None
  | input_audio_buffer_speech_stopped =>
      buffer <- read inputAudioBuffer ;;
      handler_ event (Some buffer);; ret None
  | conversation_item_created =>
      r <- handlerWithDispatch event None ;;
      dispatch (conversation_item_appended (fst r));;
      dispatch_if_completed (fst r);; ret None
  | conversation_item_truncated | conversation_item_deleted
  | conversation_item_input_audio_transcription_completed
  | response_audio_transcript_delta | response_audio_delta
  | response_text_delta | response_function_call_arguments_delta =>
      handlerWithDispatch event None;; ret None
  | response_output_item_done => on_output_item_done event
  | other_event _ => ret None
  end.

(** The command that reports a tool call. *)
Definition report (tool : FormattedToolType) (output : option string) : Command :=
  conversation_item_create (function_output (ft_call_id tool) output).

(** What the synchronous part of [callTool] comes to: an exception for
    the [catch] block, or the [await] of the handler's promise. *)
Inductive Started : Type :=
| failed_with (e : JSValue)
| awaiting (s : option Settlement).

Definition start_of `{JSONBuiltins} (tool : FormattedToolType) (registry : Dict.t ToolConfig)
  : Started :=
  match JSON_parse (ft_arguments tool) with
  | Throws e => failed_with e
  | Returns jsonArguments =>
      match Dict.get registry (ft_name tool) with
      | Dict.Absent =>
          failed_with (JSError ("Tool " ++ dq ++ ft_name tool ++ dq
                                ++ " has not been added")%string)
      | Dict.Inherited => failed_with (JSError "toolConfig.handler is not a function")
      | Dict.Own toolConfig =>
          match handler toolConfig jsonArguments with
          | threw e => failed_with e
          | awaited s => awaiting s
          end
      end
  end.

(** The [output] of the [function_call_output] item for an exception
    caught by [callTool]; evaluating it may throw in turn. *)
Definition error_output `{JSONBuiltins} (e : JSValue) : Completion (option string) :=
  match get_message e with
  | Throws err => Throws err
  | Returns msg => Returns (JSON_stringify (JSObject [("error", msg)]))
  end.

(** The [output] for a settled handler call. *)
Definition settled_output `{JSONBuiltins} (s : Settlement) : Completion (option string) :=
  match s with
  | fulfilled result => Returns (JSON_stringify result)
  | rejected e => error_output e
  end.

(** ** The client as a transition system *)

(** What can happen to a client: a call of one of its methods, the
    delivery of a server event, or the settlement of a suspended tool
    call.  The getters ([isConnected], [getTurnDetectionType]) and the
    wait helpers change nothing and have no operation here. *)
Inductive Operation : Type :=
| call_reset
| call_connect
| call_disconnect
| call_addTool (def : ToolDefinitionType) (h : HandlerArgument)
| call_removeTool (name : string)
| call_deleteItem (id : string)
| call_updateSession (p : SessionResourceType)
| call_sendUserMessageContent (content : list ContentType)
| call_appendInputAudio (arrayBuffer : BinaryData)
| call_createResponse
| call_cancelResponse (id : option string) (sampleCount : option number)
| server_event (event : ServerEvent)
| tool_settled (tool : FormattedToolType) (s : Settlement).

(** The state an operation leaves, whether it returned or threw. *)
Definition run `{Codec} `{JSONBuiltins} `{Assembler} (op : Operation)
  : RealtimeClient -> RealtimeClient :=
  match op with
  | call_reset => state_after reset
  | call_connect => state_after connect
  | call_disconnect => state_after disconnect
  | call_addTool def h => state_after (addTool def h)
  | call_removeTool name => state_after (removeTool name)
  | call_deleteItem id => state_after (deleteItem id)
  | call_updateSession p => state_after (updateSession p)
  | call_sendUserMessageContent content => state_after (sendUserMessageContent content)
  | call_appendInputAudio arrayBuffer => state_after (appendInputAudio arrayBuffer)
  | call_createResponse => state_after createResponse
  | call_cancelResponse id sampleCount => state_after (cancelResponse id sampleCount)
  | server_event event => state_after (on_server_event event)
  | tool_settled tool s => state_after (callTool_resume tool s)
  end.

(** Whether [createResponse] commits the staged audio in a state. *)
Definition commits (c : RealtimeClient) : bool :=
  is_null (turnDetectionType (sessionConfig c))
  && (0 <? byteLength (samples_of (inputAudioBuffer c))).

(** ** Vocabulary of the statements *)

(** The state after handing several commands to the transport. *)
Definition sending_all (cmds : list Command) (c : RealtimeClient) : RealtimeClient :=
  fold_left (fun c cmd => sending cmd c) cmds c.

(** The operations through which [createResponse] runs: the method
    itself, [sendUserMessageContent], and [callTool], which a
    [response.output_item.done] event starts and a settlement ends. *)
Definition runs_createResponse (op : Operation) : bool :=
  match op with
  | call_createResponse | call_sendUserMessageContent _ | tool_settled _ _ => true
  | server_event event =>
      match event_type event with
      | response_output_item_done => true
      | _ => false
      end
  | _ => false
  end.

(** [c'] comes from [c] by commands handed to the transport, none of
    them a commit, with the session configuration, the connection flag
    and the input audio buffer as they were. *)
Definition kept (c c' : RealtimeClient) : Prop :=
  sessionConfig c' = sessionConfig c /\
  connected (realtime c') = connected (realtime c) /\
  inputAudioBuffer c' = inputAudioBuffer c /\
  exists new,
    outbox c' = outbox c ++ new /\
    ~ In input_audio_buffer_commit new.

(** The same, or else a commit was among the commands: then [c] was
    connected and a state in which [createResponse] commits, and the
    buffer of [c'] is empty. *)
Definition committed_or_kept (c c' : RealtimeClient) : Prop :=
  sessionConfig c' = sessionConfig c /\
  connected (realtime c') = connected (realtime c) /\
  exists new,
    outbox c' = outbox c ++ new /\
    ((~ In input_audio_buffer_commit new /\
      inputAudioBuffer c' = inputAudioBuffer c) \/
     (In input_audio_buffer_commit new /\
      commits c = true /\ connected (realtime c) = true /\
      inputAudioBuffer c' = [])).

(** A computation that sends no commit and leaves the staged audio
    alone. *)
Definition keeps_audio {A} (m : Method A) : Prop :=
  forall c, kept c (state_after m c).

(** A computation that leaves the staged audio alone unless it commits
    it. *)
Definition may_commit {A} (m : Method A) : Prop :=
  forall c, committed_or_kept c (state_after m c).

(** The name of the first inline tool that [this.tools] already
    answers to, if any. *)
Fixpoint first_taken (registry : Dict.t ToolConfig) (ts : list ToolDefinitionType)
  : option string :=
  match ts with
  | [] => None
  | t :: rest =>
      if Dict.truthy registry (name_string (tool_name t)) then
        Some (name_string (tool_name t))
      else first_taken registry rest
  end.

(** A stored member [after] a guarded assignment of [x] over [before]:
    written when [x] is not [undefined], untouched otherwise. *)
Definition written_iff_set {A} (x before after : option A) : Prop :=
  match x with
  | Some v => after = Some v
  | None => after = before
  end.

(** A computation that leaves an observation [f] of the client as it
    was, whether it returns or throws. *)
Definition preserves {A B} (f : RealtimeClient -> B) (m : Method A) : Prop :=
  forall c, f (state_after m c) = f c.

(** The samples [mergeInt16Arrays] appends for a piece of audio. *)
Definition data_samples `{Codec} (data : BinaryData) : Int16Array :=
  match data with
  | samples_of s => s
  | bytes_of bs => int16View bs
  end.

(** [appendInputAudio] called on each chunk in turn. *)
Definition append_chunks `{Codec} (chunks : list BinaryData) (c : RealtimeClient)
  : RealtimeClient :=
  fold_left (fun c chunk => state_after (appendInputAudio chunk) c) chunks c.

(** The chunks [appendInputAudio] does not skip. *)
Definition non_empty_chunks (chunks : list BinaryData) : list BinaryData :=
  List.filter (fun d => 0 <? byteLength d) chunks.

(** The registry as [addTool] and [removeTool] keep it: every own
    property is keyed by the name of its definition, a non-empty string
    that is no member of [Object.prototype], and no key occurs twice. *)
Definition registry_wf (registry : Dict.t ToolConfig) : Prop :=
  NoDup (List.map fst registry) /\
  forall key cfg, In (key, cfg) registry ->
    tool_name (definition cfg) = Some key /\ key <> "" /\ Dict.is_inherited key = false.

(** The state after a sequence of operations. *)
Definition runs `{Codec} `{JSONBuiltins} `{Assembler} (ops : list Operation)
  (c : RealtimeClient) : RealtimeClient :=
  fold_left (fun c op => run op c) ops c.

(* ================================================================== *)
(** * Sample data                                                      *)
(* ================================================================== *)

(** A conversation without items, at the 24 kHz rate of the protocol's
    pcm16 format. *)
Definition sample_conversation : RealtimeConversation :=
  {| defaultFrequency := Number.of_Z 24000; itemLookup := ∅; items := [];
     queuedInputAudio := [] |}.

(** The client as its constructor leaves it: the default configuration,
    no tools, no staged audio, not connected. *)
Definition new_client : RealtimeClient :=
  {| sessionConfig := defaultSessionConfig; sessionCreated := false;
     tools := Dict.empty; inputAudioBuffer := [];
     realtime := {| connected := false; sent := [] |};
     conversation := sample_conversation; dispatched := [] |}.

Definition text_part (s : string) : ContentType :=
  {| part_type := text; part_text := Some s; part_audio := no_audio;
     part_transcript := None |}.

Definition audio_part (transcript : string) : ContentType :=
  {| part_type := audio; part_text := None; part_audio := base64_audio "AQACAA==";
     part_transcript := Some transcript |}.

Definition no_formatted : FormattedPropertyType :=
  {| formatted_audio := None; formatted_text := None; formatted_transcript := None;
     formatted_tool := None; formatted_output := None |}.

(** An assistant message with a text part followed by an audio part. *)
Definition spoken_reply : ItemType :=
  {| item_id := "item_A"; item_type := message; item_role := Some assistant;
     item_status := Some in_progress;
     item_content := [text_part "Hello"; audio_part "Hello"];
     item_formatted := no_formatted |}.

(** An assistant message with text only. *)
Definition written_reply : ItemType :=
  {| item_id := "item_B"; item_type := message; item_role := Some assistant;
     item_status := Some completed;
     item_content := [text_part "Hello"];
     item_formatted := no_formatted |}.

(** A user message and a function call. *)
Definition user_question : ItemType :=
  {| item_id := "item_C"; item_type := message; item_role := Some user;
     item_status := Some completed;
     item_content :=
       [{| part_type := input_text; part_text := Some "Hi"; part_audio := no_audio;
           part_transcript := None |}];
     item_formatted := no_formatted |}.

Definition weather_request : ItemType :=
  {| item_id := "item_D"; item_type := function_call; item_role := None;
     item_status := Some completed; item_content := [];
     item_formatted := no_formatted |}.

(** A connected client with two samples of staged audio whose
    conversation holds the four items. *)
Definition talking_client : RealtimeClient :=
  {| sessionConfig := defaultSessionConfig; sessionCreated := true;
     tools := Dict.empty; inputAudioBuffer := [1; 2];
     realtime := {| connected := true; sent := [] |};
     conversation :=
       {| defaultFrequency := Number.of_Z 24000;
          itemLookup :=
            <["item_A" := spoken_reply]>
              (<["item_B" := written_reply]>
                 (<["item_C" := user_question]> (<["item_D" := weather_request]> ∅)));
          items := [user_question; spoken_reply; written_reply; weather_request];
          queuedInputAudio := [] |};
     dispatched := [] |}.

(** A partial configuration that sets [model] and nothing else. *)
Definition model_only : SessionResourceType :=
  {| Session.model := Some "gpt-4o-realtime-preview";
     Session.modalities := None; Session.instructions := None; Session.voice := None;
     Session.input_audio_format := None; Session.output_audio_format := None;
     Session.input_audio_transcription := None; Session.turn_detection := None;
     Session.tools := None; Session.tool_choice := None; Session.temperature := None;
     Session.max_response_output_tokens := None |}.

(** A stand-in for [RealtimeUtils]: 16-bit samples are laid out as
    little-endian pairs of bytes, and bytes are encoded in base64 with
    the standard alphabet and padding. *)
Fixpoint little_endian_samples (bs : list Byte.byte) : Int16Array :=
  match bs with
  | lo :: hi :: rest =>
      let u := Z.of_N (Byte.to_N lo) + 256 * Z.of_N (Byte.to_N hi) in
      (if u <? 32768 then u else u - 65536) :: little_endian_samples rest
  | _ => []
  end.

Definition little_endian_bytes (samples : Int16Array) : list N :=
  flat_map (fun s => let u := Z.to_N (s mod 65536) in [(u mod 256)%N; (u / 256)%N]) samples.

Definition base64_digit (n : N) : ascii :=
  match String.get (N.to_nat n)
          "ABCDEFGHIJKLMNOPQRSTUVWXYZabcdefghijklmnopqrstuvwxyz0123456789+/" with
  | Some a => a
  | None => "="%char
  end.

Fixpoint base64 (bs : list N) : string :=
  match bs with
  | [] => EmptyString
  | [a] =>
      String (base64_digit (a / 4))
        (String (base64_digit (a mod 4 * 16)) "==")
  | [a; b] =>
      String (base64_digit (a / 4))
        (String (base64_digit (a mod 4 * 16 + b / 16))
           (String (base64_digit (b mod 16 * 4)) "="))
  | a :: b :: d :: rest =>
      String (base64_digit (a / 4))
        (String (base64_digit (a mod 4 * 16 + b / 16))
           (String (base64_digit (b mod 16 * 4 + d / 64))
              (String (base64_digit (d mod 64)) (base64 rest))))
  end%N.

Definition sample_codec : Codec :=
  {| arrayBufferToBase64 := fun data =>
       base64 match data with
              | samples_of s => little_endian_bytes s
              | bytes_of bs => List.map Byte.to_N bs
              end;
     int16View := little_endian_samples |}.

(** A JSON string literal: quotes and backslashes are escaped. *)
Fixpoint json_escape (s : string) : string :=
  match s with
  | EmptyString => EmptyString
  | String a rest =>
      if Ascii.eqb a "034"%char || Ascii.eqb a "092"%char then
        String "092"%char (String a (json_escape rest))
      else String a (json_escape rest)
  end.

Definition json_quote (s : string) : string :=
  (dq ++ json_escape s ++ dq)%string.

(** A stand-in for the built-in [JSON] that knows the few texts and
    shapes of value the examples use. *)
Definition sample_json : JSONBuiltins :=
  {| JSON_parse := fun text =>
       if String.eqb text "{}" then Returns (JSObject [])
       else Throws (JSError "Unexpected end of JSON input");
     JSON_stringify := fun v =>
       match v with
       | JSUndefined => None
       | JSObject [] => Some "{}"
       | JSObject [(k, JSString s)] =>
           Some ("{" ++ json_quote k ++ ":" ++ json_quote s ++ "}")%string
       | JSObject [(_, JSUndefined)] => Some "{}"
       | _ => Some "null"
       end |}.

Definition weather_call : FormattedToolType :=
  {| ft_type := "function"; ft_name := "get_weather"; ft_call_id := "call_1";
     ft_arguments := "{}" |}.

Definition echo_handler : Handler := fun arguments => awaited (Some (fulfilled arguments)).

Definition tool_named (name : string) : ToolDefinitionType :=
  {| tool_type := None; tool_name := Some name; tool_description := "";
     tool_parameters := JSObject [] |}.

(** A stand-in for the conversation's [processEvent]: the event body
    names the item the event is about, and an event about an unknown
    item yields no item. *)
Definition sample_assembler : Assembler :=
  {| processEvent := fun event extra conv =>
       match event_body event with
       | JSString id => (Returns (itemLookup conv !! id, None), conv)
       | _ => (Returns (None, None), conv)
       end |}.

(** A call of the tool [get_weather], as the formatted view of a
    completed function call item carries it. *)
Definition weather_request_done : ItemType :=
  {| item_id := "item_E"; item_type := function_call; item_role := None;
     item_status := Some completed; item_content := [];
     item_formatted :=
       {| formatted_audio := None; formatted_text := None; formatted_transcript := None;
          formatted_tool := Some weather_call; formatted_output := None |} |}.

(** A connected client without staged audio that has the tool
    [get_weather] registered and the function call in its
    conversation. *)
Definition tooled_client : RealtimeClient :=
  {| sessionConfig := defaultSessionConfig; sessionCreated := true;
     tools := [("get_weather",
                {| definition := tool_named "get_weather"; handler := echo_handler |})];
     inputAudioBuffer := [];
     realtime := {| connected := true; sent := [] |};
     conversation :=
       {| defaultFrequency := Number.of_Z 24000;
          itemLookup := <["item_E" := weather_request_done]> (<["item_B" := written_reply]> ∅);
          items := [written_reply; weather_request_done];
          queuedInputAudio := [] |};
     dispatched := [] |}.

(** The talking client after [disconnect()]: its audio is still
    staged, its transport is not connected and its conversation is
    empty. *)
Definition hung_up_client : RealtimeClient :=
  {| sessionConfig := defaultSessionConfig; sessionCreated := false;
     tools := Dict.empty; inputAudioBuffer := [1; 2];
     realtime := {| connected := false; sent := [] |};
     conversation :=
       {| defaultFrequency := Number.of_Z 24000; itemLookup := ∅;
          items := []; queuedInputAudio := [] |};
     dispatched := [] |}.

(** The talking client after the connection was closed from the
    other side: everything but the connection flag is as it was. *)
Definition cut_off_client : RealtimeClient :=
  set_realtime {| connected := false; sent := [] |} talking_client.

Definition event_about (ty : ServerEventType) (id : string) : ServerEvent :=
  {| event_type := ty; event_body := JSString id |}.

(** A call of [get_weather] whose arguments are no JSON text. *)
Definition weather_call_cut_short : FormattedToolType :=
  {| ft_type := "function"; ft_name := "get_weather"; ft_call_id := "call_2";
     ft_arguments := "{" |}.

(** A handler that throws [undefined]. *)
Definition careless_handler : Handler := fun _ => threw JSUndefined.

(** A new client that has [get_weather] registered with that
    handler. *)
Definition careless_client : RealtimeClient :=
  set_tools [("get_weather",
              {| definition := tool_named "get_weather"; handler := careless_handler |})]
    new_client.

(* ================================================================== *)
(** * Running the methods                                              *)
(* ================================================================== *)

Lemma outbox_sending cmd c : outbox (sending cmd c) = outbox c ++ [cmd].
Proof. reflexivity. Qed.

(** A command is taken by a connected transport and refused by one
    that is not. *)
Lemma send_run (cmd : Command) (c : RealtimeClient) :
  send cmd c =
  if connected (realtime c) then (Returns tt, sending cmd c)
  else (Throws API.not_connected, c).
Proof.
  unfold send, API.send, sending. destruct (connected (realtime c)); reflexivity.
Qed.

Lemma createResponse_run (c : RealtimeClient) :
  createResponse c =
  if connected (realtime c) then
    (Returns true,
     if commits c then
       sending response_create
         (set_inputAudioBuffer []
            (set_conversation
               (Conversation.queueInputAudio (inputAudioBuffer c) (conversation c))
               (sending input_audio_buffer_commit c)))
     else sending response_create c)
  else (Throws API.not_connected, c).
Proof.
  unfold createResponse, commits, getTurnDetectionType.
  unfold bind at 1. unfold read at 1. unfold bind at 1. unfold read at 1.
  destruct (is_null _ && _); unfold when.
  - unfold bind at 1. unfold bind at 1. rewrite send_run.
    destruct (connected (realtime c)) eqn:E; [| reflexivity].
    unfold bind, modify. rewrite send_run. simpl. rewrite E. reflexivity.
  - unfold bind at 1. unfold ret at 1. unfold bind. rewrite send_run.
    destruct (connected (realtime c)); reflexivity.
Qed.

Lemma byteLength_positive (buffer : Int16Array) :
  (0 <? byteLength (samples_of buffer)) = true <-> buffer <> [].
Proof.
  destruct buffer as [|x rest]; simpl.
  - split; [discriminate | congruence].
  - split; [discriminate | intros _; apply Z.ltb_lt; lia].
Qed.

Lemma commits_true (c : RealtimeClient) :
  commits c = true <->
  turnDetectionType (sessionConfig c) = None /\ inputAudioBuffer c <> [].
Proof.
  unfold commits. rewrite andb_true_iff, byteLength_positive.
  destruct (turnDetectionType (sessionConfig c)); simpl; intuition congruence.
Qed.

Lemma commits_false (c : RealtimeClient) :
  commits c = false <->
  turnDetectionType (sessionConfig c) <> None \/ inputAudioBuffer c = [].
Proof.
  destruct (commits c) eqn:E.
  - apply commits_true in E. intuition congruence.
  - split; [intros _ | reflexivity].
    destruct (turnDetectionType (sessionConfig c)) eqn:T; [left; discriminate |].
    destruct (inputAudioBuffer c) eqn:B; [right; reflexivity |].
    exfalso. assert (commits c = true); [| congruence].
    apply commits_true. rewrite T, B. split; [reflexivity | discriminate].
Qed.

(** C1, as stated, fails: on a client that staged audio and was then
    disconnected, with no turn detection, [createResponse()] does not
    return [true]; the transport refuses the commit, and nothing is
    sent, queued or emptied. *)
Lemma createResponse_refused_when_not_connected :
  completion getTurnDetectionType hung_up_client = Returns None /\
  inputAudioBuffer hung_up_client = [1; 2] /\
  completion createResponse hung_up_client = Throws API.not_connected /\
  outbox (state_after createResponse hung_up_client) = outbox hung_up_client /\
  conversation (state_after createResponse hung_up_client) = conversation hung_up_client /\
  inputAudioBuffer (state_after createResponse hung_up_client) = [1; 2].
Proof. repeat split; reflexivity. Qed.

(** C1, amended: on a client whose transport is connected,
    [createResponse()] returns [true] and sends exactly one
    [response.create].  When the turn-detection mode is [null] and the
    input audio buffer is non-empty, the commands it sends are one
    [input_audio_buffer.commit] followed by the [response.create], the
    buffered samples are passed to the conversation's
    [queueInputAudio], and the buffer is empty afterwards.  When turn
    detection is active or the buffer is empty, [response.create] is
    the only command, and conversation and buffer are left as they
    were.  On a client whose transport is not connected the first
    [send] is refused: the call throws the transport's error and leaves
    the client as it was. *)
Theorem createResponse_commits_staged_audio (c : RealtimeClient) :
  let c' := state_after createResponse c in
  (connected (realtime c) = true ->
     completion createResponse c = Returns true /\
     (completion getTurnDetectionType c = Returns None -> inputAudioBuffer c <> [] ->
        outbox c' = outbox c ++ [input_audio_buffer_commit; response_create] /\
        conversation c' =
          Conversation.queueInputAudio (inputAudioBuffer c) (conversation c) /\
        inputAudioBuffer c' = []) /\
     (completion getTurnDetectionType c <> Returns None \/ inputAudioBuffer c = [] ->
        outbox c' = outbox c ++ [response_create] /\
        conversation c' = conversation c /\
        inputAudioBuffer c' = inputAudioBuffer c)) /\
  (connected (realtime c) = false ->
     createResponse c = (Throws API.not_connected, c)).
Proof.
  assert (T : completion getTurnDetectionType c = Returns None <->
              turnDetectionType (sessionConfig c) = None).
  { unfold completion, getTurnDetectionType, read. simpl.
    split; [intros [= ->] | intros ->]; reflexivity. }
  cbv zeta. rewrite T. unfold state_after, completion. rewrite createResponse_run.
  split; intros ->; [| reflexivity]. simpl.
  split; [reflexivity | split].
  - intros Hnull Hstaged.
    assert (E : commits c = true) by (apply commits_true; auto).
    rewrite E. unfold outbox. simpl. rewrite <- app_assoc. auto.
  - intros Hquiet. apply commits_false in Hquiet. rewrite Hquiet. auto.
Qed.

(* ================================================================== *)
(** * Cancelling a response                                            *)
(* ================================================================== *)

Lemma is_audio_true (c : ContentType) : is_audio c = true <-> part_type c = audio.
Proof. unfold is_audio. destruct (part_type c); simpl; split; congruence. Qed.

Lemma is_audio_false (c : ContentType) : is_audio c = false <-> part_type c <> audio.
Proof. unfold is_audio. destruct (part_type c); simpl; split; congruence. Qed.

Lemma findIndex_none {A} (p : A -> bool) (l : list A) :
  findIndex p l = -1 <-> (forall x, In x l -> p x = false).
Proof.
  induction l as [|x rest IH]; simpl.
  - split; [intros _ x [] | reflexivity].
  - destruct (p x) eqn:Px.
    + split; [discriminate | intros H; specialize (H x (or_introl eq_refl)); congruence].
    + destruct (findIndex p rest =? -1) eqn:E.
      * apply Z.eqb_eq in E. split; [| reflexivity].
        intros _ y [<- | Hy]; [assumption | apply IH; assumption].
      * apply Z.eqb_neq in E. split.
        -- intros H. assert (0 <= findIndex p rest \/ findIndex p rest = -1) as [? | ?]; [| lia | lia].
           clear. induction rest as [|y r IHr]; simpl; [right; reflexivity |].
           destruct (p y); [left; lia |].
           destruct (findIndex p r =? -1); [right; reflexivity | left; lia].
        -- intros H. exfalso. apply E, IH. auto.
Qed.

Lemma findIndex_first {A} (p : A -> bool) (l : list A) :
  findIndex p l <> -1 ->
  exists (i : nat) (x : A),
    findIndex p l = Z.of_nat i /\ l !! i = Some x /\ p x = true /\
    (forall j y, (j < i)%nat -> l !! j = Some y -> p y = false).
Proof.
  induction l as [|x rest IH]; simpl; [congruence |].
  destruct (p x) eqn:Px.
  - intros _. exists 0%nat, x. repeat split; auto. intros j y Hj. lia.
  - destruct (findIndex p rest =? -1) eqn:E; [congruence |].
    apply Z.eqb_neq in E. intros _.
    destruct (IH E) as (i & y & Hi & Hy & Py & Hbefore).
    exists (S i), y. repeat split; auto; [lia |].
    intros [|j] z Hj Hz; simpl in Hz; [congruence |].
    apply (Hbefore j z); [lia | assumption].
Qed.

(** The steps of [cancelResponse] without an id. *)
Lemma cancelResponse_no_id_run (c : RealtimeClient) (id : option string)
  (sampleCount : option number) :
  id = None \/ id = Some "" ->
  cancelResponse id sampleCount c =
  if connected (realtime c) then (Returns None, sending response_cancel c)
  else (Throws API.not_connected, c).
Proof.
  intros [-> | ->]; unfold cancelResponse; cbv zeta; unfold bind; rewrite send_run;
    destruct (connected (realtime c)); reflexivity.
Qed.

(** The steps of [cancelResponse] for an id that is not falsy. *)
Lemma cancelResponse_run (c : RealtimeClient) (id : string) (sampleCount : option number) :
  id <> "" ->
  cancelResponse (Some id) sampleCount c =
  match Conversation.getItem id (conversation c) with
  | None => (Throws (JSError ("Could not find item " ++ dq ++ id ++ dq)%string), c)
  | Some item =>
      if negb (is_message (item_type item)) then
        (Throws (JSError ("Can only cancelResponse messages with type "
                          ++ dq ++ "message" ++ dq)%string), c)
      else if negb (is_assistant (item_role item)) then
        (Throws (JSError ("Can only cancelResponse messages with role "
                          ++ dq ++ "assistant" ++ dq)%string), c)
      else if negb (connected (realtime c)) then
        (Throws API.not_connected, c)
      else if findIndex is_audio (item_content item) =? -1 then
        (Throws (JSError "Could not find audio on item to cancel"),
         sending response_cancel c)
      else
        (Returns (Some item),
         sending (conversation_item_truncate id (findIndex is_audio (item_content item))
                    (audio_end_ms_of (default_to (Number.of_Z 0) sampleCount)
                       (defaultFrequency (conversation c))))
           (sending response_cancel c))
  end.
Proof.
  intros Hid. destruct id as [|a id]; [congruence |].
  unfold cancelResponse. cbv zeta.
  unfold bind at 1. unfold read at 1.
  destruct (Conversation.getItem _ _) as [item|]; [| reflexivity].
  destruct (negb (is_message _)); [reflexivity |].
  destruct (negb (is_assistant _)); [reflexivity |].
  unfold bind at 1. rewrite send_run.
  destruct (connected (realtime c)) eqn:E; [| reflexivity]. simpl.
  destruct (findIndex is_audio (item_content item) =? -1); [reflexivity |].
  unfold bind at 1. unfold read at 1. unfold bind. rewrite send_run. simpl. rewrite E.
  reflexivity.
Qed.

(** [Math.floor] gives the floor. *)
Lemma Math_floor_is_floor (x : number) : Number.is_floor x (Number.Math_floor x).
Proof.
  destruct x as [s | s | | s m e]; try reflexivity.
  unfold Number.is_floor, Number.Math_floor.
  destruct (0 <=? e) eqn:E; [reflexivity |]. apply Z.leb_gt in E.
  assert (Hpow : 0 < 2 ^ (- e)) by (apply Z.pow_pos_nonneg; lia).
  pose proof (Z.div_mod (Z.pos m) (2 ^ (- e)) ltac:(lia)) as Hdm.
  pose proof (Z.mod_pos_bound (Z.pos m) (2 ^ (- e)) Hpow) as Hr.
  set (k := 2 ^ (- e)) in *.
  set (q := Z.pos m / k) in *. set (r := Z.pos m mod k) in *.
  destruct s; cbv zeta.
  - change (Number.signed true m) with (- Z.pos m).
    destruct (r =? 0) eqn:R.
    + apply Z.eqb_eq in R. exists (- q). split.
      * unfold Number.integral, Number.of_Z.
        replace (- q =? 0) with (q =? 0) by (destruct (Z.eqb_spec q 0), (Z.eqb_spec (- q) 0); lia).
        reflexivity.
      * nia.
    + apply Z.eqb_neq in R. exists (- (q + 1)). split.
      * unfold Number.integral, Number.of_Z.
        replace (- (q + 1) =? 0) with (q + 1 =? 0)
          by (destruct (Z.eqb_spec (q + 1) 0), (Z.eqb_spec (- (q + 1)) 0); lia).
        reflexivity.
      * nia.
  - change (Number.signed false m) with (Z.pos m).
    exists q. split; [reflexivity | nia].
Qed.

(** C2, as stated, fails twice.  At 24024 samples and 24000 samples a
    second the quotient is rounded before it is multiplied, the product
    falls below 1001, and the [audio_end_ms] sent is 1000, where
    [floor(24024 / 24000 * 1000)] is 1001.  And on a client whose
    connection was closed the transport refuses [response.cancel]:
    nothing is sent and no item is returned. *)
Lemma cancelResponse_truncates_a_millisecond_early :
  (connected (realtime talking_client) = true /\
   Conversation.getItem "item_A" (conversation talking_client) = Some spoken_reply /\
   defaultFrequency (conversation talking_client) = Number.of_Z 24000 /\
   outbox (state_after (cancelResponse (Some "item_A") (Some (Number.of_Z 24024)))
             talking_client) =
     [response_cancel; conversation_item_truncate "item_A" 1 (Number.of_Z 1000)] /\
   24024 * 1000 / 24000 = 1001 /\
   Number.of_Z 1000 <> Number.of_Z 1001) /\
  (connected (realtime cut_off_client) = false /\
   Conversation.getItem "item_A" (conversation cut_off_client) = Some spoken_reply /\
   cancelResponse (Some "item_A") (Some (Number.of_Z 12000)) cut_off_client =
     (Throws API.not_connected, cut_off_client)).
Proof. vm_compute. repeat split; try reflexivity. discriminate. Qed.

(** C2, amended: for an id that names an existing item of type
    [message] with role [assistant] holding at least one [audio]
    content part, [cancelResponse(id, sampleCount)] on a connected
    client sends [response.cancel] and then
    [conversation.item.truncate] with that id and the index of the
    first audio part as [content_index]; its [audio_end_ms] is the
    floor of the binary64 number [(sampleCount / sampleRate) * 1000],
    the quotient and the product each rounded to nearest.  The call
    changes nothing else and returns the item it looked up.  On a
    client that is not connected the transport refuses
    [response.cancel]: the call throws and changes nothing. *)
Theorem cancelResponse_truncates_at_first_audio
  (c : RealtimeClient) (id : string) (sampleCount : number) (item : ItemType) :
  id <> "" ->
  Conversation.getItem id (conversation c) = Some item ->
  item_type item = message ->
  item_role item = Some assistant ->
  (exists part, In part (item_content item) /\ part_type part = audio) ->
  (connected (realtime c) = true ->
   exists (i : nat) (first : ContentType) (ms : number),
     item_content item !! i = Some first /\
     part_type first = audio /\
     (forall j earlier, (j < i)%nat -> item_content item !! j = Some earlier ->
                        part_type earlier <> audio) /\
     Number.is_floor
       (Number.mul (Number.div sampleCount (defaultFrequency (conversation c)))
                   (Number.of_Z 1000))
       ms /\
     cancelResponse (Some id) (Some sampleCount) c =
     (Returns (Some item),
      sending (conversation_item_truncate id (Z.of_nat i) ms)
        (sending response_cancel c))) /\
  (connected (realtime c) = false ->
   cancelResponse (Some id) (Some sampleCount) c = (Throws API.not_connected, c)).
Proof.
  intros Hid Hitem Hty Hrole (part & Hin & Haudio).
  rewrite (cancelResponse_run c id (Some sampleCount) Hid), Hitem, Hty, Hrole. simpl.
  split; intros ->; [| reflexivity]. simpl.
  assert (Hne : findIndex is_audio (item_content item) <> -1).
  { intros H. pose proof (proj1 (findIndex_none _ _) H part Hin) as Hf.
    apply is_audio_false in Hf. congruence. }
  destruct (findIndex_first _ _ Hne) as (i & first & Hi & Hfirst & Pfirst & Hbefore).
  exists i, first,
    (Number.Math_floor
       (Number.mul (Number.div sampleCount (defaultFrequency (conversation c)))
                   (Number.of_Z 1000))).
  split; [assumption | split; [apply is_audio_true; assumption | split; [| split]]].
  - intros j earlier Hj Hearlier. apply is_audio_false. eauto.
  - apply Math_floor_is_floor.
  - apply Z.eqb_neq in Hne. rewrite Hne, Hi. reflexivity.
Qed.

(** C9, as stated, fails: on a client whose connection was closed,
    [cancelResponse] of the written reply, an assistant message
    without an audio part, throws the transport's refusal and not the
    missing-audio error; [response.cancel] has not been sent, and the
    failure leaves the client exactly as it was. *)
Lemma cancelResponse_refused_before_missing_audio :
  connected (realtime cut_off_client) = false /\
  Conversation.getItem "item_B" (conversation cut_off_client) = Some written_reply /\
  item_type written_reply = message /\
  item_role written_reply = Some assistant /\
  (forall part, In part (item_content written_reply) -> part_type part <> audio) /\
  cancelResponse (Some "item_B") None cut_off_client =
    (Throws API.not_connected, cut_off_client) /\
  API.not_connected <> JSError "Could not find audio on item to cancel" /\
  ~ In response_cancel (outbox (state_after (cancelResponse (Some "item_B") None)
                                  cut_off_client)).
Proof.
  repeat split; try reflexivity.
  - intros part [<- | []]. discriminate.
  - discriminate.
  - vm_compute. intros [].
Qed.

(** C9, amended: when the id names an assistant message without any
    audio content part, the call always throws, and if what it throws
    is the missing-audio error then [response.cancel] has been handed
    to the transport before: the state the failed call leaves differs
    from the state before it by exactly that command.  This is what
    happens on every connected client; on a client that is not
    connected the transport refuses [response.cancel] itself, and the
    call throws that refusal and changes nothing. *)
Theorem cancelResponse_cancel_sent_before_missing_audio
  (c : RealtimeClient) (id : string) (sampleCount : option number) (item : ItemType) :
  id <> "" ->
  Conversation.getItem id (conversation c) = Some item ->
  item_type item = message ->
  item_role item = Some assistant ->
  (forall part, In part (item_content item) -> part_type part <> audio) ->
  let missing_audio := JSError "Could not find audio on item to cancel" in
  (exists e, completion (cancelResponse (Some id) sampleCount) c = Throws e) /\
  (completion (cancelResponse (Some id) sampleCount) c = Throws missing_audio ->
     state_after (cancelResponse (Some id) sampleCount) c = sending response_cancel c /\
     outbox (state_after (cancelResponse (Some id) sampleCount) c) =
       outbox c ++ [response_cancel]) /\
  (connected (realtime c) = true ->
     completion (cancelResponse (Some id) sampleCount) c = Throws missing_audio) /\
  (connected (realtime c) = false ->
     cancelResponse (Some id) sampleCount c = (Throws API.not_connected, c)).
Proof.
  intros Hid Hitem Hty Hrole Hnone. cbv zeta.
  unfold state_after, completion.
  rewrite (cancelResponse_run c id sampleCount Hid), Hitem, Hty, Hrole. simpl.
  assert (H : findIndex is_audio (item_content item) = -1).
  { apply findIndex_none. intros x Hx. apply is_audio_false. auto. }
  rewrite H. simpl.
  destruct (connected (realtime c)); simpl.
  - split; [eexists; reflexivity |]. repeat split; intros; try reflexivity; discriminate.
  - split; [eexists; reflexivity |]. repeat split; intros; try reflexivity; discriminate.
Qed.

(** C4, as stated, fails: on a client that is not connected,
    [cancelResponse()] without an id does not return [{ item: null }];
    the transport refuses [response.cancel] and nothing is sent. *)
Lemma cancelResponse_without_id_refused_when_not_connected :
  connected (realtime hung_up_client) = false /\
  completion (cancelResponse None None) hung_up_client = Throws API.not_connected /\
  outbox (state_after (cancelResponse None None) hung_up_client) = outbox hung_up_client.
Proof. repeat split; reflexivity. Qed.

(** C4, amended: [cancelResponse] without an id (a missing or empty
    argument) on a connected client sends a bare [response.cancel] and
    returns [{ item: null }]; on a client that is not connected the
    transport refuses the command, and the call throws and changes
    nothing.  With an id that names no item, an item that is not of
    type [message], or a message whose role is not [assistant], it
    throws an error whose message names the violated precondition and
    leaves the client as it was: nothing is sent, so no
    [conversation.item.truncate] either. *)
Theorem cancelResponse_without_id_or_on_wrong_item
  (c : RealtimeClient) (sampleCount : option number) :
  (forall id, id = None \/ id = Some "" ->
     (connected (realtime c) = true ->
        cancelResponse id sampleCount c = (Returns None, sending response_cancel c)) /\
     (connected (realtime c) = false ->
        cancelResponse id sampleCount c = (Throws API.not_connected, c))) /\
  (forall id, id <> "" ->
     Conversation.getItem id (conversation c) = None ->
     cancelResponse (Some id) sampleCount c =
     (Throws (JSError ("Could not find item " ++ dq ++ id ++ dq)%string), c)) /\
  (forall id item, id <> "" ->
     Conversation.getItem id (conversation c) = Some item ->
     item_type item <> message ->
     cancelResponse (Some id) sampleCount c =
     (Throws (JSError ("Can only cancelResponse messages with type "
                       ++ dq ++ "message" ++ dq)%string), c)) /\
  (forall id item, id <> "" ->
     Conversation.getItem id (conversation c) = Some item ->
     item_type item = message ->
     item_role item <> Some assistant ->
     cancelResponse (Some id) sampleCount c =
     (Throws (JSError ("Can only cancelResponse messages with role "
                       ++ dq ++ "assistant" ++ dq)%string), c)).
Proof.
  split; [| repeat split].
  - intros id Hid. rewrite (cancelResponse_no_id_run c id sampleCount Hid).
    split; intros ->; reflexivity.
  - intros id Hid Hnone. rewrite (cancelResponse_run c id sampleCount Hid), Hnone. reflexivity.
  - intros id item Hid Hitem Hty.
    rewrite (cancelResponse_run c id sampleCount Hid), Hitem.
    destruct (item_type item); [congruence | reflexivity | reflexivity].
  - intros id item Hid Hitem Hty Hrole.
    rewrite (cancelResponse_run c id sampleCount Hid), Hitem, Hty. simpl.
    destruct (item_role item) as [[]|]; try reflexivity. congruence.
Qed.

(** C2 at a concrete input: 12000 samples into the spoken reply. *)
Lemma cancelResponse_truncates_at_first_audio_witness :
  let id := "item_A" in
  let sampleCount := Number.of_Z 12000 in
  (id <> "" /\
   Conversation.getItem id (conversation talking_client) = Some spoken_reply /\
   item_type spoken_reply = message /\
   item_role spoken_reply = Some assistant /\
   (exists part, In part (item_content spoken_reply) /\ part_type part = audio) /\
   connected (realtime talking_client) = true) /\
  exists (i : nat) (first : ContentType) (ms : number),
    item_content spoken_reply !! i = Some first /\
    part_type first = audio /\
    (forall j earlier, (j < i)%nat -> item_content spoken_reply !! j = Some earlier ->
                       part_type earlier <> audio) /\
    Number.is_floor
      (Number.mul
         (Number.div sampleCount (defaultFrequency (conversation talking_client)))
         (Number.of_Z 1000))
      ms /\
    cancelResponse (Some id) (Some sampleCount) talking_client =
    (Returns (Some spoken_reply),
     sending (conversation_item_truncate id (Z.of_nat i) ms)
       (sending response_cancel talking_client)).
Proof.
  assert (H1 : "item_A" <> "") by discriminate.
  assert (H2 : Conversation.getItem "item_A" (conversation talking_client)
               = Some spoken_reply) by reflexivity.
  assert (H3 : item_type spoken_reply = message) by reflexivity.
  assert (H4 : item_role spoken_reply = Some assistant) by reflexivity.
  assert (H5 : exists part, In part (item_content spoken_reply) /\ part_type part = audio).
  { exists (audio_part "Hello"). simpl. auto. }
  assert (H6 : connected (realtime talking_client) = true) by reflexivity.
  split; [repeat split; assumption |].
  exact (proj1 (cancelResponse_truncates_at_first_audio
                  talking_client "item_A" (Number.of_Z 12000) spoken_reply
                  H1 H2 H3 H4 H5) H6).
Defined.

(** C9 at a concrete input: the written reply has no audio part. *)
Lemma cancelResponse_cancel_sent_before_missing_audio_witness :
  ("item_B" <> "" /\
   Conversation.getItem "item_B" (conversation talking_client) = Some written_reply /\
   item_type written_reply = message /\
   item_role written_reply = Some assistant /\
   (forall part, In part (item_content written_reply) -> part_type part <> audio)) /\
  cancelResponse (Some "item_B") None talking_client =
  (Throws (JSError "Could not find audio on item to cancel"),
   sending response_cancel talking_client) /\
  outbox (state_after (cancelResponse (Some "item_B") None) talking_client) =
  outbox talking_client ++ [response_cancel].
Proof.
  assert (H1 : "item_B" <> "") by discriminate.
  assert (H2 : Conversation.getItem "item_B" (conversation talking_client)
               = Some written_reply) by reflexivity.
  assert (H3 : item_type written_reply = message) by reflexivity.
  assert (H4 : item_role written_reply = Some assistant) by reflexivity.
  assert (H5 : forall part, In part (item_content written_reply) -> part_type part <> audio).
  { intros part [<- | []]. discriminate. }
  split; [repeat split; assumption |].
  destruct (cancelResponse_cancel_sent_before_missing_audio
              talking_client "item_B" None written_reply H1 H2 H3 H4 H5)
    as (_ & Hsent & Hthrown & _).
  specialize (Hthrown eq_refl). destruct (Hsent Hthrown) as [Hstate Hout].
  split; [| exact Hout].
  unfold completion in Hthrown. unfold state_after in Hstate.
  destruct (cancelResponse (Some "item_B") None talking_client) as [r c1].
  simpl in *. congruence.
Defined.

(** The arithmetic of [audio_end_ms] on sample counts at 24 kHz: half a
    second of samples is 500 ms; the quotient is rounded to binary64
    before the multiplication, so 24024 samples give 1000. *)
Example audio_end_ms_12000 :
  audio_end_ms_of (Number.of_Z 12000) (Number.of_Z 24000) = Number.of_Z 500.
Proof. vm_compute. reflexivity. Qed.

Example audio_end_ms_24024 :
  audio_end_ms_of (Number.of_Z 24024) (Number.of_Z 24000) = Number.of_Z 1000.
Proof. vm_compute. reflexivity. Qed.

Example audio_end_ms_default :
  audio_end_ms_of (default_to (Number.of_Z 0) None) (Number.of_Z 24000) = S754_zero false.
Proof. vm_compute. reflexivity. Qed.

(* ================================================================== *)
(** * The tool registry as an object                                   *)
(* ================================================================== *)

Section DictFacts.
Context {V : Type}.
Implicit Types (o : Dict.t V) (k : string) (v : V).

Lemma get_own_set_eq o k v : Dict.get_own (Dict.set o k v) k = Some v.
Proof.
  induction o as [|[k' v'] rest IH]; simpl.
  - rewrite String.eqb_refl. reflexivity.
  - destruct (String.eqb k' k) eqn:E; simpl; rewrite E; auto.
Qed.

Lemma get_own_set_ne o k k' v :
  k <> k' -> Dict.get_own (Dict.set o k v) k' = Dict.get_own o k'.
Proof.
  intros Hne. induction o as [|[k0 v0] rest IH]; simpl.
  - destruct (String.eqb k k') eqn:E; [apply String.eqb_eq in E; congruence | reflexivity].
  - destruct (String.eqb k0 k) eqn:E; simpl.
    + apply String.eqb_eq in E. subst k0.
      destruct (String.eqb k k') eqn:E'; [apply String.eqb_eq in E'; congruence | reflexivity].
    + rewrite IH. reflexivity.
Qed.

Lemma get_own_delete_eq o k : Dict.get_own (Dict.delete o k) k = None.
Proof.
  induction o as [|[k' v'] rest IH]; simpl; [reflexivity |].
  destruct (String.eqb k' k) eqn:E; simpl; [assumption | rewrite E; assumption].
Qed.

Lemma get_own_delete_ne o k k' :
  k <> k' -> Dict.get_own (Dict.delete o k) k' = Dict.get_own o k'.
Proof.
  intros Hne. induction o as [|[k0 v0] rest IH]; simpl; [reflexivity |].
  destruct (String.eqb k0 k) eqn:E; simpl.
  - apply String.eqb_eq in E. subst k0.
    destruct (String.eqb k k') eqn:E'; [apply String.eqb_eq in E'; congruence | assumption].
  - rewrite IH. reflexivity.
Qed.

Lemma delete_absent o k : Dict.get_own o k = None -> Dict.delete o k = o.
Proof.
  induction o as [|[k' v'] rest IH]; simpl; [reflexivity |].
  destruct (String.eqb k' k); [discriminate | intros H; rewrite IH; auto].
Qed.

Lemma get_own_In o k : Dict.get_own o k <> None <-> In k (List.map fst o).
Proof.
  induction o as [|[k' v'] rest IH]; simpl; [tauto |].
  destruct (String.eqb k' k) eqn:E.
  - apply String.eqb_eq in E. split; [auto | discriminate].
  - apply String.eqb_neq in E. rewrite IH. tauto.
Qed.

Lemma In_insert_index i k (l : list (N * string)) x :
  In x (List.map snd (Dict.insert_index i k l)) <-> x = k \/ In x (List.map snd l).
Proof.
  induction l as [|[j k'] rest IH]; simpl; [intuition |].
  destruct (i <=? j)%N; simpl; [intuition |]. rewrite IH. intuition.
Qed.

Lemma In_index_keys o k :
  In k (List.map snd (Dict.index_keys o)) <->
  Dict.array_index k <> None /\ In k (List.map fst o).
Proof.
  induction o as [|[k' v'] rest IH]; simpl; [tauto |].
  destruct (Dict.array_index k') eqn:E.
  - rewrite In_insert_index, IH. split.
    + intros [-> | [H1 H2]]; [split; [congruence | auto] | auto].
    + intros [H1 [-> | H2]]; auto.
  - rewrite IH. split; [tauto |]. intros [H1 [-> | H2]]; [congruence | auto].
Qed.

Lemma In_name_keys o k :
  In k (Dict.name_keys o) <-> Dict.array_index k = None /\ In k (List.map fst o).
Proof.
  induction o as [|[k' v'] rest IH]; simpl; [tauto |].
  destruct (Dict.array_index k') eqn:E; simpl; rewrite IH.
  - split; [tauto |]. intros [H1 [-> | H2]]; [congruence | auto].
  - split; [intros [-> | [H1 H2]]; auto | tauto].
Qed.

(** [Object.keys] lists exactly the own properties. *)
Lemma In_keys o k : In k (Dict.keys o) <-> Dict.get_own o k <> None.
Proof.
  unfold Dict.keys. rewrite in_app_iff, In_index_keys, In_name_keys, get_own_In.
  destruct (Dict.array_index k); intuition congruence.
Qed.

Lemma truthy_own o k v : Dict.get_own o k = Some v -> Dict.truthy o k = true.
Proof. unfold Dict.truthy, Dict.get. intros ->. reflexivity. Qed.

Lemma truthy_inherited o k : Dict.is_inherited k = true -> Dict.truthy o k = true.
Proof.
  unfold Dict.truthy, Dict.get. intros ->. destruct (Dict.get_own o k); reflexivity.
Qed.

Lemma truthy_false o k :
  Dict.truthy o k = false <-> Dict.get_own o k = None /\ Dict.is_inherited k = false.
Proof.
  unfold Dict.truthy, Dict.get.
  destruct (Dict.get_own o k); [intuition discriminate |].
  destruct (Dict.is_inherited k); intuition discriminate.
Qed.

End DictFacts.

(** The tools sent for the registry are those of its own properties. *)
Lemma In_registered_tools (registry : Dict.t ToolConfig) (t : ToolDefinitionType) :
  In t (registered_tools registry) <->
  exists key cfg, Dict.get_own registry key = Some cfg /\ t = function_tool (definition cfg).
Proof.
  unfold registered_tools. rewrite <- list_elem_of_In, list_elem_of_omap. split.
  - intros (key & _ & H). destruct (Dict.get_own registry key) as [cfg|] eqn:E; [| discriminate].
    simpl in H. injection H as <-. eauto.
  - intros (key & cfg & E & ->). exists key. split.
    + apply list_elem_of_In, In_keys. congruence.
    + rewrite E. reflexivity.
Qed.

(* ================================================================== *)
(** * Updating the session                                             *)
(* ================================================================== *)

Lemma map_throwing_inline (registry : Dict.t ToolConfig) (ts : list ToolDefinitionType)
  (c : RealtimeClient) :
  map_throwing (inline_tool registry) ts c =
  match first_taken registry ts with
  | Some name => (Throws (JSError (already_defined name)), c)
  | None => (Returns (List.map function_tool ts), c)
  end.
Proof.
  induction ts as [|t rest IH]; simpl; [reflexivity |].
  unfold bind at 1. unfold inline_tool at 1. simpl.
  destruct (Dict.truthy registry (name_string (tool_name t))); [reflexivity |].
  unfold ret at 1. unfold bind. rewrite IH.
  destruct (first_taken registry rest); reflexivity.
Qed.

Lemma first_taken_none (registry : Dict.t ToolConfig) (ts : list ToolDefinitionType) :
  first_taken registry ts = None <->
  (forall t, In t ts -> Dict.truthy registry (name_string (tool_name t)) = false).
Proof.
  induction ts as [|t rest IH]; simpl; [intuition |].
  destruct (Dict.truthy registry (name_string (tool_name t))) eqn:E.
  - split; [discriminate |]. intros H. rewrite (H t) in E; [discriminate | auto].
  - rewrite IH. split; [intros H x [<- | Hx]; auto | auto].
Qed.

Lemma first_taken_some (registry : Dict.t ToolConfig) (ts : list ToolDefinitionType)
  (name : string) :
  first_taken registry ts = Some name ->
  exists before t after,
    ts = before ++ t :: after /\
    (forall x, In x before -> Dict.truthy registry (name_string (tool_name x)) = false) /\
    name = name_string (tool_name t) /\ Dict.truthy registry name = true.
Proof.
  induction ts as [|t rest IH]; simpl; [discriminate |].
  destruct (Dict.truthy registry (name_string (tool_name t))) eqn:E.
  - intros [= <-]. exists [], t, rest. repeat split; auto. intros x [].
  - intros H. destruct (IH H) as (before & x & after & -> & Hbefore & Hn & Ht).
    exists (t :: before), x, after. repeat split; auto.
    intros y [<- | Hy]; auto.
Qed.

(** The steps of [updateSession]. *)
Lemma updateSession_run (p : SessionResourceType) (c : RealtimeClient) :
  updateSession p c =
  let c1 := set_sessionConfig (merge_session p (sessionConfig c)) c in
  match first_taken (tools c) (inline_tools p) with
  | Some name => (Throws (JSError (already_defined name)), c1)
  | None =>
      (Returns true,
       if connected (realtime c) then
         sending (session_update
                    (Session.set_tools (sessionConfig c1)
                       (List.map function_tool (inline_tools p)
                        ++ registered_tools (tools c)))) c1
       else c1)
  end.
Proof.
  unfold updateSession, isConnected, API.isConnected.
  unfold bind at 1. unfold modify at 1.
  unfold bind at 1. unfold read at 1.
  unfold bind at 1. rewrite map_throwing_inline. simpl.
  destruct (first_taken (tools c) (inline_tools p)); [reflexivity |].
  unfold ret at 1. unfold bind at 1. unfold read at 1.
  unfold bind at 1. unfold read at 1. simpl.
  destruct (connected (realtime c)) eqn:E; unfold when, bind.
  - rewrite send_run. simpl. rewrite E. reflexivity.
  - reflexivity.
Qed.

Lemma merge_session_empty (s : SessionResourceType) : merge_session Session.empty s = s.
Proof. destruct s. reflexivity. Qed.

Lemma set_sessionConfig_same (c : RealtimeClient) : set_sessionConfig (sessionConfig c) c = c.
Proof. destruct c. reflexivity. Qed.

(** [updateSession()] without an argument, as [connect] and [addTool]
    call it: nothing stored changes, and the configuration is sent with
    the registered tools when the transport is connected. *)
Lemma updateSession_empty_run (c : RealtimeClient) :
  updateSession Session.empty c =
  (Returns true,
   if connected (realtime c) then
     sending (session_update
                (Session.set_tools (sessionConfig c) (registered_tools (tools c)))) c
   else c).
Proof.
  rewrite updateSession_run. simpl.
  rewrite merge_session_empty, set_sessionConfig_same. reflexivity.
Qed.

(** The steps of [connect]. *)
Lemma connect_run (c : RealtimeClient) :
  connect c =
  if connected (realtime c) then
    (Throws (JSError "Already connected, use .disconnect() first"), c)
  else
    (Returns true,
     sending (session_update
                (Session.set_tools (sessionConfig c) (registered_tools (tools c))))
       (set_realtime (API.connect (realtime c)) c)).
Proof.
  unfold connect, isConnected, API.isConnected.
  unfold bind at 1. unfold read at 1.
  destruct (connected (realtime c)) eqn:E; [reflexivity |].
  unfold bind at 1. unfold modify at 1.
  unfold bind at 1. rewrite updateSession_empty_run. reflexivity.
Qed.

(** What [updateSession] leaves stored, whether it returns or throws. *)
Lemma updateSession_stored (p : SessionResourceType) (c : RealtimeClient) :
  sessionConfig (state_after (updateSession p) c) = merge_session p (sessionConfig c) /\
  tools (state_after (updateSession p) c) = tools c.
Proof.
  unfold state_after. rewrite updateSession_run. cbv zeta.
  destruct (first_taken _ _); [split; reflexivity |].
  destruct (connected (realtime c)); split; reflexivity.
Qed.

(** C6, as stated, fails: [model] is a member of the partial
    configuration, here it is set, and [updateSession] does not write
    it. *)
Lemma updateSession_does_not_write_model :
  Session.model model_only = Some "gpt-4o-realtime-preview" /\
  completion (updateSession model_only) new_client = Returns true /\
  Session.model (sessionConfig (state_after (updateSession model_only) new_client)) = None.
Proof. repeat split; reflexivity. Qed.

(** C6, amended: [updateSession(partial)] writes into the stored
    configuration exactly those of the eleven members it takes from its
    argument that are not [undefined], and leaves the other members,
    [model] included, and the tool registry as they were.  A name is
    taken when [this.tools[name]] is truthy: when it is an own
    property of the registry, and also when it is a member name of
    [Object.prototype].  When no inline tool bears a taken name, the
    call returns [true] and the tool list of the session it builds is
    the inline tools followed by the registered ones, each with
    [type: 'function'] filled in; that session is sent as one
    [session.update] when the transport is connected and nothing is
    sent otherwise.  In that case the merged configuration stays
    stored, and what a later [connect()] sends is the stored
    configuration with the registered tools as its tool list.  When
    an inline tool bears a taken name, the call throws the error that
    names the first such tool, and sends nothing. *)
Theorem updateSession_merges_set_members (p : SessionResourceType) (c : RealtimeClient) :
  let c' := state_after (updateSession p) c in
  let s := sessionConfig c in
  let s' := sessionConfig c' in
  let useTools := List.map function_tool (inline_tools p) ++ registered_tools (tools c) in
  (written_iff_set (Session.modalities p) (Session.modalities s) (Session.modalities s') /\
   written_iff_set (Session.instructions p) (Session.instructions s) (Session.instructions s') /\
   written_iff_set (Session.voice p) (Session.voice s) (Session.voice s') /\
   written_iff_set (Session.input_audio_format p) (Session.input_audio_format s)
     (Session.input_audio_format s') /\
   written_iff_set (Session.output_audio_format p) (Session.output_audio_format s)
     (Session.output_audio_format s') /\
   written_iff_set (Session.input_audio_transcription p) (Session.input_audio_transcription s)
     (Session.input_audio_transcription s') /\
   written_iff_set (Session.turn_detection p) (Session.turn_detection s)
     (Session.turn_detection s') /\
   written_iff_set (Session.tools p) (Session.tools s) (Session.tools s') /\
   written_iff_set (Session.tool_choice p) (Session.tool_choice s) (Session.tool_choice s') /\
   written_iff_set (Session.temperature p) (Session.temperature s) (Session.temperature s') /\
   written_iff_set (Session.max_response_output_tokens p)
     (Session.max_response_output_tokens s) (Session.max_response_output_tokens s') /\
   Session.model s' = Session.model s /\
   tools c' = tools c) /\
  (forall t, In t useTools <->
     (exists d, In d (inline_tools p) /\ t = function_tool d) \/
     (exists key cfg, Dict.get_own (tools c) key = Some cfg /\
                      t = function_tool (definition cfg))) /\
  ((forall t, In t (inline_tools p) ->
      Dict.truthy (tools c) (name_string (tool_name t)) = false) ->
   completion (updateSession p) c = Returns true /\
   (connected (realtime c) = true ->
      outbox c' = outbox c ++ [session_update (Session.set_tools s' useTools)]) /\
   (connected (realtime c) = false ->
      outbox c' = outbox c /\
      completion connect c' = Returns true /\
      outbox (state_after connect c') =
        outbox c ++ [session_update (Session.set_tools s' (registered_tools (tools c)))])) /\
  (forall name,
     Dict.truthy (tools c) name = true <->
     (exists cfg, Dict.get_own (tools c) name = Some cfg) \/
     Dict.is_inherited name = true) /\
  (forall t, In t (inline_tools p) ->
     Dict.truthy (tools c) (name_string (tool_name t)) = true ->
     (exists before d after,
        inline_tools p = before ++ d :: after /\
        (forall x, In x before ->
           Dict.truthy (tools c) (name_string (tool_name x)) = false) /\
        Dict.truthy (tools c) (name_string (tool_name d)) = true /\
        completion (updateSession p) c =
          Throws (JSError (already_defined (name_string (tool_name d))))) /\
     outbox c' = outbox c).
Proof.
  cbv zeta. destruct (updateSession_stored p c) as [Hs Ht]. rewrite Hs, Ht.
  split; [| split; [| split; [| split]]].
  - unfold written_iff_set, merge_session, assign. simpl.
    repeat split;
      match goal with |- match ?x with _ => _ end => destruct x; reflexivity end.
  - intros t. rewrite in_app_iff, in_map_iff, In_registered_tools.
    split; (intros [(d & H1 & H2) | Hreg]; [left; exists d; auto | right; exact Hreg]).
  - intros Hfree. apply first_taken_none in Hfree.
    unfold state_after, completion. rewrite updateSession_run, Hfree. cbv zeta.
    split; [reflexivity | split].
    + intros ->. reflexivity.
    + intros Hoff. rewrite Hoff, connect_run. simpl. rewrite Hoff. simpl.
      repeat split; reflexivity.
  - intros name. unfold Dict.truthy, Dict.get.
    destruct (Dict.get_own (tools c) name) as [cfg|].
    + split; [intros _; left; eexists; reflexivity | reflexivity].
    + destruct (Dict.is_inherited name).
      * split; [intros _; right; reflexivity | reflexivity].
      * split; [discriminate | intros [[cfg Hc] | Hi]; discriminate].
  - intros t Hin Htaken.
    unfold state_after, completion. rewrite updateSession_run. cbv zeta.
    destruct (first_taken (tools c) (inline_tools p)) as [name|] eqn:E.
    + split; [| reflexivity].
      destruct (first_taken_some _ _ _ E) as (before & d & after & Hsplit & Hbefore & -> & Hd).
      exists before, d, after. auto.
    + exfalso. pose proof (proj1 (first_taken_none _ _) E t Hin) as Hf. congruence.
Qed.

(* ================================================================== *)
(** * Adding and removing tools                                        *)
(* ================================================================== *)

(** The steps of [addTool] for a definition that has a name. *)
Lemma addTool_run (def : ToolDefinitionType) (h : HandlerArgument) (c : RealtimeClient)
  (name : string) :
  tool_name def = Some name -> name <> "" ->
  addTool def h c =
  if Dict.truthy (tools c) name then (Throws (JSError (already_added name)), c)
  else
    match h with
    | not_a_function _ => (Throws (JSError (must_be_a_function name)), c)
    | a_function f =>
        let cfg := {| definition := def; handler := f |} in
        let c1 := set_tools (Dict.set (tools c) name cfg) c in
        (Returns (Dict.Own cfg),
         if connected (realtime c) then
           sending (session_update
                      (Session.set_tools (sessionConfig c) (registered_tools (tools c1)))) c1
         else c1)
    end.
Proof.
  intros Hname Hne. unfold addTool. rewrite Hname.
  destruct name as [|a name]; [congruence |].
  unfold bind at 1. unfold read at 1.
  destruct (Dict.truthy (tools c) (String a name)); [reflexivity |].
  destruct h as [f | v]; [| reflexivity].
  unfold bind at 1. unfold modify at 1.
  unfold bind at 1. rewrite updateSession_empty_run. unfold read. cbv zeta.
  assert (G : Dict.get (Dict.set (tools c) (String a name)
                          {| definition := def; handler := f |}) (String a name) =
              Dict.Own {| definition := def; handler := f |}).
  { unfold Dict.get. rewrite get_own_set_eq. reflexivity. }
  simpl. destruct (connected (realtime c)); simpl; rewrite G; reflexivity.
Qed.

Lemma addTool_without_name (def : ToolDefinitionType) (h : HandlerArgument)
  (c : RealtimeClient) :
  tool_name def = None \/ tool_name def = Some "" ->
  addTool def h c = (Throws (JSError "Missing tool name in definition"), c).
Proof. unfold addTool. intros [-> | ->]; reflexivity. Qed.

(** The steps of [removeTool]. *)
Lemma removeTool_run (name : string) (c : RealtimeClient) :
  removeTool name c =
  if Dict.truthy (tools c) name then
    (Returns true, set_tools (Dict.delete (tools c) name) c)
  else (Throws (JSError (does_not_exist name)), c).
Proof.
  unfold removeTool. run_method. destruct (Dict.truthy (tools c) name); reflexivity.
Qed.

(** X14: for a tool name that is not a member of [Object.prototype] the
    registry behaves as a map from names to tools: a definition
    without a name, a registered name and a handler that is not a
    function are refused and leave the client as it was; otherwise the
    tool is stored under its name and [updateSession()] runs, sending
    the configuration when connected. *)
Lemma addTool_registers (def : ToolDefinitionType) (h : HandlerArgument)
  (c : RealtimeClient) (name : string) :
  tool_name def = Some name -> name <> "" -> Dict.is_inherited name = false ->
  (forall cfg, Dict.get_own (tools c) name = Some cfg ->
     addTool def h c = (Throws (JSError (already_added name)), c)) /\
  (forall v, Dict.get_own (tools c) name = None -> h = not_a_function v ->
     addTool def h c = (Throws (JSError (must_be_a_function name)), c)) /\
  (forall f, Dict.get_own (tools c) name = None -> h = a_function f ->
     let cfg := {| definition := def; handler := f |} in
     let c' := state_after (addTool def h) c in
     completion (addTool def h) c = Returns (Dict.Own cfg) /\
     tools c' = Dict.set (tools c) name cfg /\
     Dict.get_own (tools c') name = Some cfg /\
     outbox c' =
       outbox c ++
       (if connected (realtime c) then
          [session_update (Session.set_tools (sessionConfig c)
                             (registered_tools (Dict.set (tools c) name cfg)))]
        else [])).
Proof.
  intros Hname Hne Hproto. unfold state_after, completion.
  rewrite (addTool_run def h c name Hname Hne).
  assert (Hfree : Dict.get_own (tools c) name = None -> Dict.truthy (tools c) name = false).
  { intros Hown. apply truthy_false. auto. }
  split; [| split].
  - intros cfg Hown. rewrite (truthy_own _ _ _ Hown). reflexivity.
  - intros v Hown ->. rewrite (Hfree Hown). reflexivity.
  - intros f Hown ->. rewrite (Hfree Hown). cbv zeta.
    destruct (connected (realtime c)); simpl; repeat split;
      try apply get_own_set_eq; try reflexivity.
    unfold outbox. simpl. rewrite app_nil_r. reflexivity.
Qed.

(** X15: for a name outside [Object.prototype], [removeTool] of an
    unregistered name throws and changes nothing; of a registered name
    it returns [true], and an [addTool] of that name then succeeds. *)
Lemma removeTool_unregisters (c : RealtimeClient) (name : string) :
  Dict.is_inherited name = false ->
  (Dict.get_own (tools c) name = None ->
     removeTool name c = (Throws (JSError (does_not_exist name)), c)) /\
  (forall cfg, Dict.get_own (tools c) name = Some cfg ->
     let c' := state_after (removeTool name) c in
     completion (removeTool name) c = Returns true /\
     tools c' = Dict.delete (tools c) name /\
     Dict.get_own (tools c') name = None /\
     (name <> "" ->
      forall def f, tool_name def = Some name ->
        completion (addTool def (a_function f)) c' =
        Returns (Dict.Own {| definition := def; handler := f |}))).
Proof.
  intros Hproto. unfold state_after, completion. rewrite removeTool_run. split.
  - intros Hown. rewrite (proj2 (truthy_false (tools c) name) (conj Hown Hproto)). reflexivity.
  - intros cfg Hown. rewrite (truthy_own _ _ _ Hown). simpl.
    repeat split; [apply get_own_delete_eq |].
    intros Hne def f Hname.
    rewrite (addTool_run def (a_function f) _ name Hname Hne). simpl.
    rewrite (proj2 (truthy_false (Dict.delete (tools c) name) name)
               (conj (get_own_delete_eq _ _) Hproto)).
    reflexivity.
Qed.

(** X16: a second [addTool] under a name just registered fails, and fails
    again when repeated: the failed call changes nothing. *)
Lemma addTool_twice_fails (def def2 : ToolDefinitionType) (f : Handler)
  (h2 : HandlerArgument) (c : RealtimeClient) (name : string) :
  tool_name def = Some name -> tool_name def2 = Some name -> name <> "" ->
  Dict.truthy (tools c) name = false ->
  let c1 := state_after (addTool def (a_function f)) c in
  addTool def2 h2 c1 = (Throws (JSError (already_added name)), c1) /\
  addTool def2 h2 (state_after (addTool def2 h2) c1) =
    (Throws (JSError (already_added name)), c1).
Proof.
  intros Hname Hname2 Hne Hfree. cbv zeta.
  assert (Hown : Dict.truthy (tools (state_after (addTool def (a_function f)) c)) name = true).
  { unfold state_after. rewrite (addTool_run def _ c name Hname Hne), Hfree. simpl.
    destruct (connected (realtime c)); simpl;
      apply (truthy_own _ _ {| definition := def; handler := f |}), get_own_set_eq. }
  assert (E : addTool def2 h2 (state_after (addTool def (a_function f)) c) =
              (Throws (JSError (already_added name)),
               state_after (addTool def (a_function f)) c)).
  { rewrite (addTool_run def2 h2 _ name Hname2 Hne), Hown. reflexivity. }
  split; [exact E |]. unfold state_after at 1. rewrite E. simpl. exact E.
Qed.

(** X17: under a member name of [Object.prototype], whatever the registry
    holds, [removeTool] returns [true] and [addTool] reports a
    duplicate. *)
Lemma inherited_name_always_taken (c : RealtimeClient) (name : string)
  (def : ToolDefinitionType) (h : HandlerArgument) :
  Dict.is_inherited name = true -> tool_name def = Some name ->
  completion (removeTool name) c = Returns true /\
  addTool def h c = (Throws (JSError (already_added name)), c).
Proof.
  intros Hproto Hname. split.
  - unfold completion. rewrite removeTool_run, (truthy_inherited _ _ Hproto). reflexivity.
  - assert (Hne : name <> "") by (intros ->; discriminate).
    rewrite (addTool_run def h c name Hname Hne), (truthy_inherited _ _ Hproto).
    reflexivity.
Qed.

(** C5, where the code departs from the claim: [toString] names no
    registered tool of a new client, yet [removeTool] of it returns
    [true] instead of failing, and [addTool] under that name, before or
    after the removal, fails as a duplicate. *)
Theorem inherited_name_passes_for_a_registered_tool :
  Dict.get_own (tools new_client) "toString" = None /\
  removeTool "toString" new_client = (Returns true, new_client) /\
  addTool (tool_named "toString") (a_function echo_handler) new_client =
    (Throws (JSError (already_added "toString")), new_client) /\
  addTool (tool_named "toString") (a_function echo_handler)
    (state_after (removeTool "toString") new_client) =
    (Throws (JSError (already_added "toString")), new_client).
Proof. repeat split; reflexivity. Qed.

(** C10: [removeTool(name)] of a name [this.tools] answers to (every
    registered name does) returns [true] and deletes the registry entry
    of that name and nothing else: the other entries, the stored
    configuration and the command log are as before, so no
    [session.update] is sent.  Of any other name it throws and changes
    nothing.  A successful [addTool] on a connected client, by
    contrast, sends one [session.update].  After a removal the server
    of a connected client is told by the next [updateSession]: the tool
    list that call sends is built from the registry without the
    entry. *)
Theorem removeTool_sends_no_session_update (c : RealtimeClient) (name : string) :
  let c' := state_after (removeTool name) c in
  (Dict.truthy (tools c) name = true ->
     removeTool name c = (Returns true, set_tools (Dict.delete (tools c) name) c) /\
     Dict.get_own (tools c') name = None /\
     (forall other, other <> name ->
        Dict.get_own (tools c') other = Dict.get_own (tools c) other)) /\
  (Dict.truthy (tools c) name = false ->
     removeTool name c = (Throws (JSError (does_not_exist name)), c)) /\
  (forall cfg, Dict.get_own (tools c) name = Some cfg -> Dict.truthy (tools c) name = true) /\
  outbox c' = outbox c /\
  sessionConfig c' = sessionConfig c /\
  (forall def f n,
     tool_name def = Some n -> n <> "" -> Dict.truthy (tools c) n = false ->
     connected (realtime c) = true ->
     exists session,
       outbox (state_after (addTool def (a_function f)) c) =
       outbox c ++ [session_update session]) /\
  (Dict.truthy (tools c) name = true ->
   connected (realtime c) = true ->
   outbox (state_after (updateSession Session.empty) c') =
     outbox c ++
     [session_update (Session.set_tools (sessionConfig c)
                        (registered_tools (Dict.delete (tools c) name)))] /\
   forall t, In t (registered_tools (Dict.delete (tools c) name)) ->
     exists key cfg,
       key <> name /\ Dict.get_own (tools c) key = Some cfg /\
       t = function_tool (definition cfg)).
Proof.
  cbv zeta. unfold state_after. rewrite removeTool_run.
  split; [| split; [| split; [| split; [| split; [| split]]]]].
  - intros ->. simpl. split; [reflexivity |].
    split; [apply get_own_delete_eq | intros other Hother; apply get_own_delete_ne; auto].
  - intros ->. reflexivity.
  - intros cfg Hown. apply (truthy_own _ _ _ Hown).
  - destruct (Dict.truthy (tools c) name); reflexivity.
  - destruct (Dict.truthy (tools c) name); reflexivity.
  - intros def f n Hname Hne Hfree Hconn.
    rewrite (addTool_run def _ c n Hname Hne), Hfree, Hconn. simpl.
    eexists. reflexivity.
  - intros -> Hconn. rewrite updateSession_empty_run. simpl. rewrite Hconn.
    split; [reflexivity |].
    intros t Hin. apply In_registered_tools in Hin.
    destruct Hin as (key & cfg & Hown & ->).
    destruct (string_dec key name) as [-> | Hne].
    + rewrite get_own_delete_eq in Hown. discriminate.
    + exists key, cfg. rewrite get_own_delete_ne in Hown by auto. auto.
Qed.

(* ================================================================== *)
(** * Sending user content                                             *)
(* ================================================================== *)

Section UserContent.
Context `{Codec}.

(** What the loop does to one part. *)
Lemma encode_audio_spec (part : ContentType) :
  part_type (encode_audio part) = part_type part /\
  part_text (encode_audio part) = part_text part /\
  part_transcript (encode_audio part) = part_transcript part /\
  part_audio (encode_audio part) =
    match part_type part, part_audio part with
    | input_audio, raw_audio b => base64_audio (arrayBufferToBase64 b)
    | _, other => other
    end.
Proof.
  unfold encode_audio. destruct part as [ty tx au tr]. simpl.
  destruct ty, au; simpl; auto.
Qed.

(** The steps of [sendUserMessageContent]. *)
Lemma sendUserMessageContent_run (content : list ContentType) (c : RealtimeClient) :
  sendUserMessageContent content c =
  if connected (realtime c) then
    (Returns true,
     state_after createResponse
       match content with
       | [] => c
       | _ :: _ =>
           sending (conversation_item_create (user_message (List.map encode_audio content))) c
       end)
  else (Throws API.not_connected, c).
Proof.
  unfold sendUserMessageContent, state_after.
  unfold bind at 1. destruct content as [|part rest]; simpl.
  - unfold ret at 1. unfold bind. rewrite createResponse_run.
    destruct (connected (realtime c)); reflexivity.
  - rewrite send_run. destruct (connected (realtime c)) eqn:E; [| reflexivity].
    unfold bind. rewrite createResponse_run. simpl. rewrite E. reflexivity.
Qed.

(** C7, amended: on a connected client [sendUserMessageContent(content)]
    returns [true]; it sends one [conversation.item.create] carrying a
    user message exactly when the content list is non-empty, and then
    runs [createResponse] in every case.  In the message sent, every
    part is the part given, in order, except that the raw binary audio
    of an [input_audio] part is replaced by its base64 encoding.  On a
    client that is not connected the transport refuses the first
    command, be it the item or what [createResponse] sends: the call
    throws and nothing is sent. *)
Theorem sendUserMessageContent_encodes_sends_and_responds
  (content : list ContentType) (c : RealtimeClient) :
  let sent_content := List.map encode_audio content in
  let created :=
    match content with
    | [] => []
    | _ :: _ => [conversation_item_create (user_message sent_content)]
    end in
  (connected (realtime c) = true ->
     completion (sendUserMessageContent content) c = Returns true /\
     state_after (sendUserMessageContent content) c =
       state_after createResponse (sending_all created c) /\
     outbox (state_after (sendUserMessageContent content) c) =
       outbox c ++ created
       ++ (if commits c then [input_audio_buffer_commit] else [])
       ++ [response_create]) /\
  (connected (realtime c) = false ->
     sendUserMessageContent content c = (Throws API.not_connected, c)) /\
  length sent_content = length content /\
  (forall i part, content !! i = Some part ->
     exists sent_part,
       sent_content !! i = Some sent_part /\
       part_type sent_part = part_type part /\
       part_text sent_part = part_text part /\
       part_transcript sent_part = part_transcript part /\
       (part_type part = input_audio ->
        forall b, part_audio part = raw_audio b ->
                  part_audio sent_part = base64_audio (arrayBufferToBase64 b)) /\
       (part_type part <> input_audio \/ (forall b, part_audio part <> raw_audio b) ->
        sent_part = part)).
Proof.
  cbv zeta. unfold state_after, completion. rewrite sendUserMessageContent_run.
  split; [| split; [| split; [| ]]].
  - intros Hconn. rewrite Hconn. simpl.
    split; [reflexivity | split].
    + destruct content; reflexivity.
    + unfold state_after. rewrite createResponse_run.
      assert (E : commits match content with
                          | [] => c
                          | _ :: _ =>
                              sending (conversation_item_create
                                         (user_message (List.map encode_audio content))) c
                          end = commits c) by (destruct content; reflexivity).
      assert (E' : connected (realtime match content with
                          | [] => c
                          | _ :: _ =>
                              sending (conversation_item_create
                                         (user_message (List.map encode_audio content))) c
                          end) = true) by (destruct content; exact Hconn).
      rewrite E, E'. destruct content, (commits c); unfold outbox; simpl;
        rewrite <- ?app_assoc; reflexivity.
  - intros ->. reflexivity.
  - apply length_map.
  - intros i part Hi. exists (encode_audio part).
    destruct (encode_audio_spec part) as (Hty & Htx & Htr & Hau).
    split; [rewrite list_lookup_fmap, Hi; reflexivity |].
    repeat split; auto.
    + intros Hin b Hb. rewrite Hau, Hin, Hb. reflexivity.
    + intros Hplain. unfold encode_audio.
      destruct part as [ty tx au tr]. simpl in *.
      destruct ty, au; try reflexivity.
      destruct Hplain as [Hne | Hno]; [congruence | exfalso; eapply Hno; reflexivity].
Qed.

End UserContent.

(** C7, as stated, fails: on a client that is not connected, a call
    with non-empty content sends no [conversation.item.create] and
    requests no response; the transport refuses the item and the call
    throws. *)
Lemma sendUserMessageContent_refused_when_not_connected :
  connected (realtime hung_up_client) = false /\
  completion (@sendUserMessageContent sample_codec (item_content user_question)) hung_up_client =
    Throws API.not_connected /\
  outbox (state_after (@sendUserMessageContent sample_codec (item_content user_question))
            hung_up_client) = outbox hung_up_client.
Proof. repeat split; reflexivity. Qed.

(* ================================================================== *)
(** * The life of the input audio buffer                               *)
(* ================================================================== *)

Create HintDb audio.

Lemma commits_same (c c' : RealtimeClient) :
  sessionConfig c' = sessionConfig c -> inputAudioBuffer c' = inputAudioBuffer c ->
  commits c' = commits c.
Proof. unfold commits. intros -> ->. reflexivity. Qed.

Lemma kept_refl (c : RealtimeClient) : kept c c.
Proof.
  repeat split. exists []. rewrite app_nil_r. split; [reflexivity | intros []].
Qed.

Lemma kept_trans (c c1 c2 : RealtimeClient) : kept c c1 -> kept c1 c2 -> kept c c2.
Proof.
  intros (Hs1 & Hc1 & Hb1 & new1 & Ho1 & Hn1) (Hs2 & Hc2 & Hb2 & new2 & Ho2 & Hn2).
  repeat split; try congruence.
  exists (new1 ++ new2). split.
  - rewrite Ho2, Ho1, app_assoc. reflexivity.
  - rewrite in_app_iff. tauto.
Qed.

Lemma kept_committed_or_kept (c c' : RealtimeClient) : kept c c' -> committed_or_kept c c'.
Proof.
  intros (Hs & Hc & Hb & new & Ho & Hn). repeat split; try assumption.
  exists new. auto.
Qed.

Lemma committed_or_kept_trans (c c1 c2 : RealtimeClient) :
  committed_or_kept c c1 -> committed_or_kept c1 c2 -> committed_or_kept c c2.
Proof.
  intros (Hs1 & Hc1 & new1 & Ho1 & H1) (Hs2 & Hc2 & new2 & Ho2 & H2).
  repeat split; try congruence.
  exists (new1 ++ new2). split; [rewrite Ho2, Ho1, app_assoc; reflexivity |].
  rewrite in_app_iff.
  destruct H1 as [[Hn1 Hb1] | (Hi1 & Hcommits & Hconn & Hb1)].
  - destruct H2 as [[Hn2 Hb2] | (Hi2 & Hcommits & Hconn & Hb2)].
    + left. split; [tauto | congruence].
    + right. rewrite (commits_same c c1 Hs1 Hb1) in Hcommits.
      repeat split; try assumption; [tauto | congruence].
  - right. destruct H2 as [[Hn2 Hb2] | (Hi2 & Hcommits2 & _)].
    + repeat split; try assumption; [tauto | congruence].
    + apply commits_true in Hcommits2. destruct Hcommits2 as [_ Hstaged]. congruence.
Qed.

(** What [committed_or_kept] says about the commands and the buffer. *)
Lemma committed_or_kept_cases (c c' : RealtimeClient) :
  committed_or_kept c c' ->
  exists new,
    outbox c' = outbox c ++ new /\
    (In input_audio_buffer_commit new ->
       inputAudioBuffer c' = [] /\ commits c = true /\ connected (realtime c) = true) /\
    (~ In input_audio_buffer_commit new -> inputAudioBuffer c' = inputAudioBuffer c).
Proof.
  intros (_ & _ & new & Ho & [[Hn Hb] | (Hi & Hcommits & Hconn & Hb)]);
    exists new; (split; [exact Ho |]); split; intros; tauto.
Qed.

Lemma keeps_ret {A} (a : A) : keeps_audio (ret a).
Proof. intros c. apply kept_refl. Qed.

Lemma keeps_throw {A} (e : JSValue) : keeps_audio (throw (A := A) e).
Proof. intros c. apply kept_refl. Qed.

Lemma keeps_throw_Error {A} (msg : string) : keeps_audio (throw_Error (A := A) msg).
Proof. intros c. apply kept_refl. Qed.

Lemma keeps_read {A} (f : RealtimeClient -> A) : keeps_audio (read f).
Proof. intros c. apply kept_refl. Qed.

Lemma kept_sending (cmd : Command) (c : RealtimeClient) :
  cmd <> input_audio_buffer_commit -> kept c (sending cmd c).
Proof.
  intros Hcmd. repeat split. exists [cmd]. split; [reflexivity |].
  intros [Heq | []]. congruence.
Qed.

Lemma keeps_send (cmd : Command) :
  cmd <> input_audio_buffer_commit -> keeps_audio (send cmd).
Proof.
  intros Hcmd c. unfold state_after. rewrite send_run.
  destruct (connected (realtime c)); [apply kept_sending, Hcmd | apply kept_refl].
Qed.

Lemma keeps_dispatch (ev : ClientEvent) : keeps_audio (dispatch ev).
Proof.
  intros c. repeat split. exists []. rewrite app_nil_r. split; [reflexivity | intros []].
Qed.

Lemma keeps_bind {A B} (m : Method A) (k : A -> Method B) :
  keeps_audio m -> (forall a, keeps_audio (k a)) -> keeps_audio (bind m k).
Proof.
  intros Hm Hk c. specialize (Hm c). unfold state_after, bind in *.
  destruct (m c) as [[a | e] c1]; simpl in *; [| assumption].
  apply (kept_trans c c1); [assumption | apply Hk].
Qed.

Lemma keeps_when (b : bool) (m : Method unit) : keeps_audio m -> keeps_audio (when b m).
Proof. destruct b; simpl; [auto | intros _; apply keeps_ret]. Qed.

Lemma keeps_may_commit {A} (m : Method A) : keeps_audio m -> may_commit m.
Proof. intros Hm c. apply kept_committed_or_kept, Hm. Qed.

Lemma may_commit_bind {A B} (m : Method A) (k : A -> Method B) :
  may_commit m -> (forall a, may_commit (k a)) -> may_commit (bind m k).
Proof.
  intros Hm Hk c. specialize (Hm c). unfold state_after, bind in *.
  destruct (m c) as [[a | e] c1]; simpl in *; [| assumption].
  apply (committed_or_kept_trans c c1); [assumption | apply Hk].
Qed.

Lemma may_commit_try_catch {A} (body : Method A) (handle : JSValue -> Method A) :
  may_commit body -> (forall e, may_commit (handle e)) -> may_commit (try_catch body handle).
Proof.
  intros Hm Hk c. specialize (Hm c). unfold state_after, try_catch in *.
  destruct (body c) as [[a | e] c1]; simpl in *; [assumption |].
  apply (committed_or_kept_trans c c1); [assumption | apply Hk].
Qed.

Lemma may_commit_detached {A} (m : Method A) : may_commit m -> may_commit (detached m).
Proof.
  intros Hm c. specialize (Hm c). unfold state_after, detached in *.
  destruct (m c) as [[a | e] c1]; exact Hm.
Qed.

Lemma may_commit_createResponse : may_commit createResponse.
Proof.
  intros c. unfold state_after. rewrite createResponse_run.
  destruct (connected (realtime c)) eqn:Hconn;
    [| apply kept_committed_or_kept, kept_refl].
  simpl. destruct (commits c) eqn:E.
  - repeat split.
    exists [input_audio_buffer_commit; response_create].
    split; [unfold outbox; simpl; rewrite <- app_assoc; reflexivity |].
    right. simpl. auto.
  - apply kept_committed_or_kept, kept_sending. discriminate.
Qed.

#[local] Hint Resolve keeps_ret keeps_throw keeps_throw_Error keeps_read keeps_send
  keeps_dispatch keeps_when keeps_bind : audio.
#[local] Hint Resolve keeps_may_commit may_commit_createResponse may_commit_detached
  may_commit_bind may_commit_try_catch : audio.
#[local] Hint Extern 1 (_ <> input_audio_buffer_commit) => discriminate : audio.

Lemma keeps_handler_ `{Assembler} (event : ServerEvent) (extra : option Int16Array) :
  keeps_audio (handler_ event extra).
Proof.
  intros c. unfold state_after, handler_.
  destruct (processEvent event extra (conversation c)) as [r conv].
  repeat split. exists []. rewrite app_nil_r. split; [reflexivity | intros []].
Qed.

Lemma keeps_handlerWithDispatch `{Assembler} (event : ServerEvent)
  (extra : option Int16Array) :
  keeps_audio (handlerWithDispatch event extra).
Proof.
  unfold handlerWithDispatch. apply keeps_bind; [apply keeps_handler_ |].
  intros [[item|] delta]; simpl; auto 10 with audio.
Qed.

Lemma keeps_dispatch_if_completed (item : option ItemType) :
  keeps_audio (dispatch_if_completed item).
Proof. destruct item; simpl; auto 10 with audio. Qed.

Lemma keeps_callTool_catch `{JSONBuiltins} (tool : FormattedToolType) (e : JSValue) :
  keeps_audio (callTool_catch tool e).
Proof. unfold callTool_catch. destruct (get_message e); auto with audio. Qed.

#[local] Hint Resolve keeps_handler_ keeps_handlerWithDispatch keeps_dispatch_if_completed
  keeps_callTool_catch : audio.

Lemma may_commit_callTool_resume `{JSONBuiltins} (tool : FormattedToolType) (s : Settlement) :
  may_commit (callTool_resume tool s).
Proof.
  unfold callTool_resume.
  apply may_commit_bind; [| auto with audio].
  apply may_commit_try_catch; [destruct s |]; auto with audio.
Qed.

Lemma may_commit_callTool_call `{JSONBuiltins} (tool : FormattedToolType) :
  may_commit (callTool_call tool).
Proof.
  unfold callTool_call. apply may_commit_bind.
  - apply may_commit_try_catch; [| auto 6 with audio].
    destruct (JSON_parse (ft_arguments tool)) as [jsonArguments | e]; [| auto with audio].
    apply may_commit_bind; [auto with audio | intros registry].
    destruct (Dict.get registry (ft_name tool)) as [cfg | |]; auto with audio.
    destruct (handler cfg jsonArguments); auto with audio.
  - intros [s|]; auto 6 with audio.
Qed.

Lemma may_commit_on_output_item_done `{Assembler} `{JSONBuiltins} (event : ServerEvent) :
  may_commit (on_output_item_done event).
Proof.
  unfold on_output_item_done.
  apply may_commit_bind; [auto with audio | intros r].
  apply may_commit_bind; [auto with audio | intros item].
  destruct (formatted_tool (item_formatted item)) as [tool|]; [| auto with audio].
  apply may_commit_bind; [| intros called; auto with audio].
  apply may_commit_detached, may_commit_callTool_call.
Qed.

(** Only [response.output_item.done] can reach [createResponse]. *)
Lemma keeps_on_server_event `{Assembler} `{JSONBuiltins} (event : ServerEvent) :
  event_type event <> response_output_item_done ->
  keeps_audio (on_server_event event).
Proof.
  intros Hdone. unfold on_server_event.
  destruct (event_type event); try congruence; auto 10 with audio.
  apply keeps_bind; [| auto with audio].
  intros c. repeat split. exists []. rewrite app_nil_r. split; [reflexivity | intros []].
Qed.

Lemma keeps_cancelResponse (id : option string) (sampleCount : option number) :
  keeps_audio (cancelResponse id sampleCount).
Proof.
  unfold cancelResponse. cbv zeta.
  destruct id as [[|a id]|]; auto 10 with audio.
  apply keeps_bind; [auto with audio |]. intros [item|]; [| auto with audio].
  destruct (negb _); [auto with audio |].
  destruct (negb _); [auto with audio |].
  apply keeps_bind; [auto with audio |]. intros _.
  destruct (_ =? _); auto 10 with audio.
Qed.

Lemma keeps_deleteItem (id : string) : keeps_audio (deleteItem id).
Proof. unfold deleteItem. auto with audio. Qed.

Lemma may_commit_sendUserMessageContent `{Codec} (content : list ContentType) :
  may_commit (sendUserMessageContent content).
Proof. unfold sendUserMessageContent. auto 8 with audio. Qed.

(** The steps of [appendInputAudio]. *)
Lemma appendInputAudio_run `{Codec} (data : BinaryData) (c : RealtimeClient) :
  appendInputAudio data c =
  if 0 <? byteLength data then
    if connected (realtime c) then
      (Returns true,
       set_inputAudioBuffer (inputAudioBuffer c ++ data_samples data)
         (sending (input_audio_buffer_append (arrayBufferToBase64 data)) c))
    else (Throws API.not_connected, c)
  else (Returns true, c).
Proof.
  unfold appendInputAudio. unfold bind at 1.
  destruct (0 <? byteLength data); simpl; [| reflexivity].
  unfold bind at 1. rewrite send_run.
  destruct (connected (realtime c)); [| reflexivity].
  unfold mergeInt16Arrays, data_samples. destruct data; reflexivity.
Qed.

Lemma inputAudioBuffer_updateSession (p : SessionResourceType) (c : RealtimeClient) :
  inputAudioBuffer (state_after (updateSession p) c) = inputAudioBuffer c.
Proof.
  unfold state_after. rewrite updateSession_run. cbv zeta.
  destruct (first_taken _ _); [reflexivity |].
  destruct (connected (realtime c)); reflexivity.
Qed.

Lemma disconnect_run (c : RealtimeClient) :
  disconnect c =
  (Returns tt,
   set_conversation (Conversation.clear (conversation c))
     (set_realtime {| connected := false; sent := outbox c |}
        (set_sessionCreated false c))).
Proof.
  unfold disconnect, isConnected, API.isConnected, API.disconnect. run_method.
  destruct (connected (realtime c)) eqn:E; simpl; [reflexivity |].
  destruct c as [? ? ? ? [? ?] ? ?]. simpl in *. subst. reflexivity.
Qed.

Lemma reset_run (c : RealtimeClient) :
  reset c =
  (Returns true,
   {| sessionConfig := defaultSessionConfig; sessionCreated := false;
      tools := Dict.empty; inputAudioBuffer := [];
      realtime := {| connected := false; sent := outbox c |};
      conversation := Conversation.clear (conversation c);
      dispatched := dispatched c |}).
Proof.
  unfold reset. unfold bind at 1. rewrite disconnect_run. reflexivity.
Qed.

(** C8, as stated, fails: [disconnect()] on a connected client with
    staged audio leaves the transport disconnected and the staged audio
    in place. *)
Lemma disconnect_keeps_staged_audio :
  connected (realtime talking_client) = true /\
  inputAudioBuffer talking_client = [1; 2] /\
  connected (realtime (state_after disconnect talking_client)) = false /\
  inputAudioBuffer (state_after disconnect talking_client) = [1; 2].
Proof. repeat split; reflexivity. Qed.

Section BufferLifecycle.
Context `{Codec} `{JSONBuiltins} `{Assembler}.

(** The commands and the buffer of an operation that keeps the staged
    audio. *)
Lemma kept_no_commit (c c' : RealtimeClient) :
  kept c c' ->
  exists new,
    outbox c' = outbox c ++ new /\
    ~ In input_audio_buffer_commit new /\
    inputAudioBuffer c' = inputAudioBuffer c.
Proof. intros (_ & _ & Hb & new & Ho & Hn). exists new. auto. Qed.

(** C8, amended: what an operation does to the input audio buffer,
    read off the commands it hands to the transport.  If an
    [input_audio_buffer.commit] is among them, the buffer is empty
    afterwards; that takes an operation through which [createResponse]
    runs, on a connected client with no turn detection and staged
    audio, and [createResponse()] itself always commits there.  If
    none is among them, the buffer afterwards is empty for [reset()],
    the buffer before with the samples appended for an
    [appendInputAudio] of non-empty audio that the transport takes,
    and the buffer before for everything else, [disconnect()]
    included. *)
Theorem inputAudioBuffer_emptied_by_commit_and_reset (op : Operation) (c : RealtimeClient) :
  let before := inputAudioBuffer c in
  let after := inputAudioBuffer (run op c) in
  let committing :=
    completion getTurnDetectionType c = Returns None /\ before <> [] in
  exists new,
    outbox (run op c) = outbox c ++ new /\
    (In input_audio_buffer_commit new ->
       after = [] /\ runs_createResponse op = true /\
       committing /\ connected (realtime c) = true) /\
    (~ In input_audio_buffer_commit new ->
       after = match op with
               | call_reset => []
               | call_appendInputAudio arrayBuffer =>
                   if connected (realtime c) && (0 <? byteLength arrayBuffer)
                   then before ++ data_samples arrayBuffer
                   else before
               | _ => before
               end) /\
    (op = call_createResponse -> committing -> connected (realtime c) = true ->
       new = [input_audio_buffer_commit; response_create]).
Proof.
  assert (committing_iff :
            completion getTurnDetectionType c = Returns None /\ inputAudioBuffer c <> [] <->
            commits c = true).
  { rewrite commits_true. unfold completion, getTurnDetectionType, read. simpl.
    split; (intros [T B]; split; [congruence | assumption]). }
  cbv zeta.
  assert (from_kept : forall c',
            kept c c' ->
            exists new,
              outbox c' = outbox c ++ new /\
              (In input_audio_buffer_commit new ->
                 inputAudioBuffer c' = [] /\ false = true /\
                 (completion getTurnDetectionType c = Returns None /\
                  inputAudioBuffer c <> []) /\
                 connected (realtime c) = true) /\
              (~ In input_audio_buffer_commit new ->
                 inputAudioBuffer c' = inputAudioBuffer c)).
  { intros c' Hk. destruct (kept_no_commit c c' Hk) as (new & Ho & Hn & Hb).
    exists new. split; [exact Ho |]. split; [intros Hi; contradiction | auto]. }
  assert (from_commit : forall c',
            committed_or_kept c c' ->
            exists new,
              outbox c' = outbox c ++ new /\
              (In input_audio_buffer_commit new ->
                 inputAudioBuffer c' = [] /\ true = true /\
                 (completion getTurnDetectionType c = Returns None /\
                  inputAudioBuffer c <> []) /\
                 connected (realtime c) = true) /\
              (~ In input_audio_buffer_commit new ->
                 inputAudioBuffer c' = inputAudioBuffer c)).
  { intros c' Hk. destruct (committed_or_kept_cases c c' Hk) as (new & Ho & Hi & Hn).
    exists new. split; [exact Ho |]. split; [| exact Hn].
    intros Hin. destruct (Hi Hin) as (Hb & Hc & Hconn).
    apply committing_iff in Hc. auto. }
  destruct op as [| | | def h | name | id | p | content | data | | id sampleCount
                 | event | tool s]; simpl.
  - (* reset *)
    exists []. unfold state_after. rewrite reset_run. simpl.
    split; [unfold outbox; simpl; rewrite app_nil_r; reflexivity |].
    split; [intros [] |]. split; [reflexivity | discriminate].
  - (* connect *)
    unfold state_after. rewrite connect_run.
    destruct (connected (realtime c)).
    + exists []. simpl. split; [rewrite app_nil_r; reflexivity |].
      split; [intros [] |]. split; [reflexivity | discriminate].
    + eexists [_]. simpl. split; [reflexivity |].
      split; [intros [Hi | []]; discriminate |]. split; [reflexivity | discriminate].
  - (* disconnect *)
    exists []. unfold state_after. rewrite disconnect_run. simpl.
    split; [unfold outbox; simpl; rewrite app_nil_r; reflexivity |].
    split; [intros [] |]. split; [reflexivity | discriminate].
  - (* addTool *)
    assert (Hcases :
              state_after (addTool def h) c = c \/
              exists registry session,
                state_after (addTool def h) c =
                  (if connected (realtime c)
                   then sending (session_update session) (set_tools registry c)
                   else set_tools registry c)).
    { unfold state_after. destruct (tool_name def) as [name|] eqn:Hname.
      - destruct (string_dec name "") as [-> | Hne].
        + rewrite addTool_without_name by auto. auto.
        + rewrite (addTool_run def h c name Hname Hne).
          destruct (Dict.truthy (tools c) name); [auto |].
          destruct h as [f | v]; [| auto]. right. cbv zeta. simpl. eauto.
      - rewrite addTool_without_name by auto. auto. }
    destruct Hcases as [-> | (registry & session & ->)].
    + exists []. split; [rewrite app_nil_r; reflexivity |].
      split; [intros [] |]. split; [reflexivity | discriminate].
    + destruct (connected (realtime c)).
      * eexists [_]. split; [reflexivity |].
        split; [intros [Hi | []]; discriminate |]. split; [reflexivity | discriminate].
      * exists []. split; [simpl; rewrite app_nil_r; reflexivity |].
        split; [intros [] |]. split; [reflexivity | discriminate].
  - (* removeTool *)
    exists []. unfold state_after. rewrite removeTool_run.
    destruct (Dict.truthy (tools c) name); simpl;
      (split; [unfold outbox; simpl; rewrite app_nil_r; reflexivity |]);
      (split; [intros [] |]); (split; [reflexivity | discriminate]).
  - (* deleteItem *)
    destruct (from_kept _ (keeps_deleteItem id c)) as (new & Ho & Hi & Hn).
    exists new. split; [exact Ho |]. split; [intros Hin; destruct (Hi Hin) as (_ & ? & _); discriminate |].
    split; [exact Hn | discriminate].
  - (* updateSession *)
    unfold state_after. rewrite updateSession_run. cbv zeta.
    destruct (first_taken _ _).
    + exists []. simpl. split; [rewrite app_nil_r; reflexivity |].
      split; [intros [] |]. split; [reflexivity | discriminate].
    + destruct (connected (realtime c)).
      * eexists [_]. split; [reflexivity |].
        split; [intros [Hi | []]; discriminate |]. split; [reflexivity | discriminate].
      * exists []. simpl. split; [rewrite app_nil_r; reflexivity |].
        split; [intros [] |]. split; [reflexivity | discriminate].
  - (* sendUserMessageContent *)
    destruct (from_commit _ (may_commit_sendUserMessageContent content c))
      as (new & Ho & Hi & Hn).
    exists new. split; [exact Ho |]. split; [exact Hi |]. split; [exact Hn | discriminate].
  - (* appendInputAudio *)
    unfold state_after. rewrite appendInputAudio_run.
    destruct (0 <? byteLength data), (connected (realtime c)); simpl.
    + eexists [_]. split; [reflexivity |].
      split; [intros [Hi | []]; discriminate |]. split; [reflexivity | discriminate].
    + exists []. split; [rewrite app_nil_r; reflexivity |].
      split; [intros [] |]. split; [reflexivity | discriminate].
    + exists []. split; [rewrite app_nil_r; reflexivity |].
      split; [intros [] |]. split; [reflexivity | discriminate].
    + exists []. split; [rewrite app_nil_r; reflexivity |].
      split; [intros [] |]. split; [reflexivity | discriminate].
  - (* createResponse *)
    destruct (from_commit _ (may_commit_createResponse c)) as (new & Ho & Hi & Hn).
    exists new. split; [exact Ho |]. split; [exact Hi |]. split; [exact Hn |].
    intros _ Hc Hconn. apply committing_iff in Hc. unfold state_after in Ho.
    rewrite createResponse_run, Hconn, Hc in Ho. simpl in Ho.
    unfold outbox in Ho. simpl in Ho. rewrite <- app_assoc in Ho.
    apply app_inv_head in Ho. symmetry. exact Ho.
  - (* cancelResponse *)
    destruct (from_kept _ (keeps_cancelResponse id sampleCount c)) as (new & Ho & Hi & Hn).
    exists new. split; [exact Ho |]. split; [intros Hin; destruct (Hi Hin) as (_ & ? & _); discriminate |].
    split; [exact Hn | discriminate].
  - (* a server event *)
    destruct (event_type event) eqn:E;
      try (destruct (from_kept _ (keeps_on_server_event event
                                    ltac:(rewrite E; discriminate) c))
             as (new & Ho & Hi & Hn);
           exists new; split; [exact Ho |];
           split; [intros Hin; destruct (Hi Hin) as (_ & ? & _); discriminate |];
           split; [exact Hn | discriminate]).
    assert (Hm : may_commit (on_server_event event)).
    { unfold on_server_event. rewrite E. apply may_commit_on_output_item_done. }
    destruct (from_commit _ (Hm c)) as (new & Ho & Hi & Hn).
    exists new. split; [exact Ho |]. split; [exact Hi |]. split; [exact Hn | discriminate].
  - (* the settlement of a tool call *)
    destruct (from_commit _ (may_commit_callTool_resume tool s c)) as (new & Ho & Hi & Hn).
    exists new. split; [exact Ho |]. split; [exact Hi |]. split; [exact Hn | discriminate].
Qed.

End BufferLifecycle.

(* ================================================================== *)
(** * Tool calls                                                       *)
(* ================================================================== *)

Section ToolCalls.
Context `{JSONBuiltins}.

Lemma then_createResponse {A} (a : A) (c : RealtimeClient) :
  connected (realtime c) = true ->
  (createResponse;; ret a) c = (Returns a, state_after createResponse c).
Proof.
  intros Hconn. unfold bind, state_after. rewrite createResponse_run, Hconn. reflexivity.
Qed.

Lemma callTool_catch_run (tool : FormattedToolType) (e : JSValue) (c : RealtimeClient) :
  callTool_catch tool e c =
  match error_output e with
  | Throws err => (Throws err, c)
  | Returns output =>
      if connected (realtime c) then (Returns tt, sending (report tool output) c)
      else (Throws API.not_connected, c)
  end.
Proof.
  unfold callTool_catch, error_output.
  destruct (get_message e); [| reflexivity]. apply send_run.
Qed.

(** The steps of [callTool] after the [await]. *)
Lemma callTool_resume_run (tool : FormattedToolType) (s : Settlement) (c : RealtimeClient) :
  callTool_resume tool s c =
  match settled_output s with
  | Throws err => (Throws err, c)
  | Returns output =>
      if connected (realtime c) then
        (Returns tt, state_after createResponse (sending (report tool output) c))
      else (Throws API.not_connected, c)
  end.
Proof.
  unfold callTool_resume, settled_output.
  unfold bind at 1. unfold try_catch.
  destruct s as [result | e].
  - rewrite send_run. destruct (connected (realtime c)) eqn:E.
    + apply then_createResponse. exact E.
    + rewrite callTool_catch_run. simpl. rewrite E. reflexivity.
  - unfold throw. rewrite callTool_catch_run.
    destruct (error_output e); [| reflexivity].
    destruct (connected (realtime c)) eqn:E; [| reflexivity].
    apply then_createResponse. exact E.
Qed.

(** An exception in the synchronous part: the [catch] block, then
    [createResponse]. *)
Lemma callTool_caught (tool : FormattedToolType) (e : JSValue) (c : RealtimeClient) :
  (r <- (callTool_catch tool e;; ret (@None (option Settlement))) ;;
   match r with
   | Some s => ret (Some s)
   | None => createResponse;; ret None
   end) c =
  match error_output e with
  | Throws err => (Throws err, c)
  | Returns output =>
      if connected (realtime c) then
        (Returns None, state_after createResponse (sending (report tool output) c))
      else (Throws API.not_connected, c)
  end.
Proof.
  unfold bind at 1. unfold bind at 1. rewrite callTool_catch_run.
  destruct (error_output e); [| reflexivity].
  destruct (connected (realtime c)) eqn:E; [| reflexivity].
  unfold ret at 1. apply then_createResponse. exact E.
Qed.

(** The steps of [callTool] up to the [await]. *)
Lemma callTool_call_run (tool : FormattedToolType) (c : RealtimeClient) :
  callTool_call tool c =
  match start_of tool (tools c) with
  | awaiting s => (Returns (Some s), c)
  | failed_with e =>
      match error_output e with
      | Throws err => (Throws err, c)
      | Returns output =>
          if connected (realtime c) then
            (Returns None, state_after createResponse (sending (report tool output) c))
          else (Throws API.not_connected, c)
      end
  end.
Proof.
  unfold callTool_call, start_of.
  destruct (JSON_parse (ft_arguments tool)) as [jsonArguments | e].
  - destruct (Dict.get (tools c) (ft_name tool)) as [cfg | |] eqn:G.
    + destruct (handler cfg jsonArguments) as [e | s] eqn:E.
      * rewrite <- callTool_caught. unfold bind at 1 3. unfold try_catch, bind at 1, read.
        rewrite G, E. reflexivity.
      * unfold bind at 1. unfold try_catch, bind at 1, read. rewrite G, E. reflexivity.
    + rewrite <- callTool_caught. unfold bind at 1 3. unfold try_catch, bind at 1, read.
      rewrite G. reflexivity.
    + rewrite <- callTool_caught. unfold bind at 1 3. unfold try_catch, bind at 1, read.
      rewrite G. reflexivity.
  - rewrite <- callTool_caught. reflexivity.
Qed.

(** Only [undefined] and [null] have no error output. *)
Lemma error_output_defined (e : JSValue) :
  e <> JSUndefined -> e <> JSNull -> exists output, error_output e = Returns output.
Proof.
  intros Hu Hn. unfold error_output.
  destruct e; simpl; try congruence; eexists; reflexivity.
Qed.

(** The commands of a reported tool call: the [function_call_output]
    item, the commit of staged audio if [createResponse] makes one, and
    one [response.create]. *)
Lemma outbox_reported (tool : FormattedToolType) (output : option string)
  (c : RealtimeClient) :
  connected (realtime c) = true ->
  outbox (state_after createResponse (sending (report tool output) c)) =
  outbox c ++ [report tool output]
  ++ (if commits c then [input_audio_buffer_commit] else [])
  ++ [response_create].
Proof.
  intros Hconn. unfold state_after. rewrite createResponse_run.
  change (commits (sending (report tool output) c)) with (commits c).
  change (connected (realtime (sending (report tool output) c)))
    with (connected (realtime c)).
  rewrite Hconn.
  destruct (commits c); unfold outbox; simpl; rewrite <- !app_assoc; reflexivity.
Qed.

(** X18: a handler call that is fulfilled, or rejected with anything
    but [undefined] or [null], has an output to report.  On a
    connected client it is reported with one [function_call_output]
    item followed by one [response.create], and [callTool] ends
    normally; on a client that is no longer connected the transport
    refuses the report, and [callTool] ends with that refusal, having
    sent nothing. *)
Lemma callTool_resume_reports (tool : FormattedToolType) (s : Settlement)
  (c : RealtimeClient) :
  s <> rejected JSUndefined -> s <> rejected JSNull ->
  exists output,
    settled_output s = Returns output /\
    (connected (realtime c) = true ->
       completion (callTool_resume tool s) c = Returns tt /\
       outbox (state_after (callTool_resume tool s) c) =
         outbox c ++ [report tool output]
         ++ (if commits c then [input_audio_buffer_commit] else [])
         ++ [response_create]) /\
    (connected (realtime c) = false ->
       callTool_resume tool s c = (Throws API.not_connected, c)).
Proof.
  intros Hu Hn.
  assert (Hout : exists output, settled_output s = Returns output).
  { destruct s as [result | e]; simpl; [eexists; reflexivity |].
    apply error_output_defined; congruence. }
  destruct Hout as [output Hout]. exists output.
  unfold completion, state_after at 1. rewrite callTool_resume_run, Hout.
  split; [reflexivity |]. split; intros Hconn; rewrite Hconn; [| reflexivity].
  simpl. split; [reflexivity | apply outbox_reported, Hconn].
Qed.

(** X19: a tool call that fails before the [await] (malformed
    arguments, a tool that was not added, a handler that throws
    anything but [undefined] or [null]) has an error output, which on
    a connected client is reported in the same way, at once; on a
    client that is not connected the report is refused and [callTool]
    ends with that refusal, having sent nothing. *)
Lemma callTool_call_reports_failure (tool : FormattedToolType) (e : JSValue)
  (c : RealtimeClient) :
  start_of tool (tools c) = failed_with e -> e <> JSUndefined -> e <> JSNull ->
  exists output,
    error_output e = Returns output /\
    (connected (realtime c) = true ->
       completion (callTool_call tool) c = Returns None /\
       outbox (state_after (callTool_call tool) c) =
         outbox c ++ [report tool output]
         ++ (if commits c then [input_audio_buffer_commit] else [])
         ++ [response_create]) /\
    (connected (realtime c) = false ->
       callTool_call tool c = (Throws API.not_connected, c)).
Proof.
  intros Hstart Hu Hn.
  destruct (error_output_defined e Hu Hn) as [output Hout]. exists output.
  unfold completion, state_after at 1. rewrite callTool_call_run, Hstart, Hout.
  split; [reflexivity |]. split; intros Hconn; rewrite Hconn; [| reflexivity].
  simpl. split; [reflexivity | apply outbox_reported, Hconn].
Qed.

(** X20: a tool that was not added is reported, on a connected client,
    with the error message that says so. *)
Lemma callTool_call_missing_tool (tool : FormattedToolType) (arguments : JSValue)
  (c : RealtimeClient) :
  connected (realtime c) = true ->
  JSON_parse (ft_arguments tool) = Returns arguments ->
  Dict.get (tools c) (ft_name tool) = Dict.Absent ->
  let msg := ("Tool " ++ dq ++ ft_name tool ++ dq ++ " has not been added")%string in
  completion (callTool_call tool) c = Returns None /\
  outbox (state_after (callTool_call tool) c) =
    outbox c ++ [report tool (JSON_stringify (JSObject [("error", JSString msg)]))]
    ++ (if commits c then [input_audio_buffer_commit] else [])
    ++ [response_create].
Proof.
  intros Hconn Hparse Habsent. cbv zeta.
  unfold completion, state_after at 1. rewrite callTool_call_run.
  unfold start_of. rewrite Hparse, Habsent. simpl. rewrite Hconn. simpl.
  split; [reflexivity | apply outbox_reported, Hconn].
Qed.

(** X21: a call whose synchronous part throws [undefined] ends with
    the [TypeError] of reading [e.message] in the [catch] block, having
    sent nothing. *)
Lemma callTool_call_thrown_undefined (tool : FormattedToolType) (c : RealtimeClient) :
  start_of tool (tools c) = failed_with JSUndefined ->
  callTool_call tool c =
  (Throws (JSError (cannot_read_properties "undefined" "message")), c).
Proof. intros Hstart. rewrite callTool_call_run, Hstart. reflexivity. Qed.

(** C3, where the code departs from the claim: when the handler's
    promise is rejected with [undefined] or [null], or the handler
    throws one of them, reading [e.message] in the [catch] block throws
    a [TypeError]; [callTool] ends there, having sent neither a
    [function_call_output] item nor a [response.create]. *)
Theorem callTool_sends_nothing_for_rejection_without_reason
  (tool : FormattedToolType) (c : RealtimeClient) :
  callTool_resume tool (rejected JSUndefined) c =
    (Throws (JSError (cannot_read_properties "undefined" "message")), c) /\
  callTool_resume tool (rejected JSNull) c =
    (Throws (JSError (cannot_read_properties "null" "message")), c) /\
  outbox (state_after (callTool_resume tool (rejected JSUndefined)) c) = outbox c.
Proof.
  unfold state_after. rewrite !callTool_resume_run. simpl. repeat split; reflexivity.
Qed.

End ToolCalls.

(** A [response.output_item.done] event whose processed item carries a
    tool descriptor starts [callTool] on it, after the dispatch of
    [conversation.updated] and, for a completed item, of
    [conversation.item.completed]. *)
Lemma on_output_item_done_calls_tool `{Assembler} `{JSONBuiltins}
  (event : ServerEvent) (c : RealtimeClient)
  (item : ItemType) (delta : option DeltaType) (conv : RealtimeConversation)
  (tool : FormattedToolType) :
  processEvent event None (conversation c) = (Returns (Some item, delta), conv) ->
  formatted_tool (item_formatted item) = Some tool ->
  let announced :=
    conversation_updated item delta
    :: (if is_completed (item_status item) then [conversation_item_completed item] else []) in
  let c1 := set_dispatched (dispatched c ++ announced) (set_conversation conv c) in
  state_after (on_output_item_done event) c = state_after (callTool_call tool) c1.
Proof.
  intros Hev Htool. cbv zeta.
  unfold state_after, on_output_item_done, handlerWithDispatch, handler_.
  unfold bind at 1. unfold bind at 1. unfold bind at 1. rewrite Hev. simpl.
  unfold bind, when, dispatch, modify, ret, detached.
  destruct (is_completed (item_status item)); simpl; rewrite Htool;
    unfold set_dispatched, set_conversation; simpl; rewrite <- ?app_assoc; simpl;
    match goal with
    | |- context [callTool_call tool ?c1] =>
        destruct (callTool_call tool c1) as [[r | e] c2]; reflexivity
    end.
Qed.

(* ================================================================== *)
(** * Staging audio                                                    *)
(* ================================================================== *)

Section Staging.
Context `{Codec}.

Lemma append_chunks_cons (data : BinaryData) (chunks : list BinaryData) (c : RealtimeClient) :
  append_chunks (data :: chunks) c = append_chunks chunks (state_after (appendInputAudio data) c).
Proof. reflexivity. Qed.

(** What a sequence of appends stages on a connected client. *)
Lemma append_chunks_connected (chunks : list BinaryData) (c : RealtimeClient) :
  connected (realtime c) = true ->
  connected (realtime (append_chunks chunks c)) = true /\
  inputAudioBuffer (append_chunks chunks c) =
    inputAudioBuffer c ++ flat_map data_samples (non_empty_chunks chunks) /\
  outbox (append_chunks chunks c) =
    outbox c ++ List.map (fun d => input_audio_buffer_append (arrayBufferToBase64 d))
                  (non_empty_chunks chunks) /\
  sessionConfig (append_chunks chunks c) = sessionConfig c /\
  conversation (append_chunks chunks c) = conversation c /\
  tools (append_chunks chunks c) = tools c.
Proof.
  revert c. induction chunks as [|data rest IH]; intros c Hconn.
  - simpl. rewrite !app_nil_r. repeat split; auto.
  - rewrite append_chunks_cons.
    assert (Hnext : connected (realtime (state_after (appendInputAudio data) c)) = true).
    { unfold state_after. rewrite appendInputAudio_run, Hconn.
      destruct (0 <? byteLength data); exact Hconn. }
    destruct (IH _ Hnext) as (Hc & Hb & Ho & Hs & Hv & Ht).
    rewrite Hc, Hb, Ho, Hs, Hv, Ht. clear IH Hc Hb Ho Hs Hv Ht Hnext.
    unfold non_empty_chunks. simpl.
    unfold state_after. rewrite appendInputAudio_run, Hconn. unfold outbox.
    destruct (0 <? byteLength data); simpl; rewrite <- ?app_assoc; repeat split; auto.
Qed.

(** X1: on a connected client, audio appended in several calls is
    staged in the order of the calls, one [input_audio_buffer.append]
    per non-empty chunk, and nothing else of the client changes.  With
    no turn detection, the [createResponse] that follows hands all of
    it, the samples staged before included, to the conversation in one
    piece and leaves the buffer empty.  On a client that is not
    connected every append of a non-empty chunk is refused, and the
    calls leave the client as it was. *)
Theorem appendInputAudio_accumulates_until_commit
  (chunks : list BinaryData) (c : RealtimeClient) :
  let staged := non_empty_chunks chunks in
  let c' := append_chunks chunks c in
  (connected (realtime c) = true ->
     inputAudioBuffer c' = inputAudioBuffer c ++ flat_map data_samples staged /\
     outbox c' =
       outbox c ++ List.map (fun d => input_audio_buffer_append (arrayBufferToBase64 d)) staged /\
     sessionConfig c' = sessionConfig c /\
     conversation c' = conversation c /\
     tools c' = tools c /\
     (turnDetectionType (sessionConfig c) = None -> inputAudioBuffer c' <> [] ->
        conversation (state_after createResponse c') =
          Conversation.queueInputAudio
            (inputAudioBuffer c ++ flat_map data_samples staged) (conversation c) /\
        inputAudioBuffer (state_after createResponse c') = [])) /\
  (connected (realtime c) = false -> c' = c).
Proof.
  cbv zeta. split.
  - intros Hconn.
    destruct (append_chunks_connected chunks c Hconn) as (Hc & Hb & Ho & Hs & Hv & Ht).
    repeat (split; [assumption |]).
    intros Hnull Hstaged.
    assert (E : commits (append_chunks chunks c) = true).
    { apply commits_true. rewrite Hs. auto. }
    unfold state_after. rewrite createResponse_run, Hc, E. simpl.
    rewrite Hb, Hv. auto.
  - intros Hconn. induction chunks as [|data rest IH]; [reflexivity |].
    rewrite append_chunks_cons.
    assert (Hsame : state_after (appendInputAudio data) c = c).
    { unfold state_after. rewrite appendInputAudio_run, Hconn.
      destruct (0 <? byteLength data); reflexivity. }
    rewrite Hsame. exact IH.
Qed.

End Staging.

(* ================================================================== *)
(** * Connecting, disconnecting, resetting                             *)
(* ================================================================== *)

(** X2: [connect()] on a connected client throws and changes nothing.
    On a disconnected client it returns [true], leaves the transport
    connected and sends one [session.update] carrying the stored
    configuration with the registered tools as its tool list; the
    stored configuration, the registry and the staged audio are as
    before.  A second [connect()] right after always throws. *)
Theorem connect_sends_stored_configuration_once (c : RealtimeClient) :
  let c' := state_after connect c in
  (connected (realtime c) = true ->
     connect c = (Throws (JSError "Already connected, use .disconnect() first"), c)) /\
  (connected (realtime c) = false ->
     completion connect c = Returns true /\
     outbox c' =
       outbox c ++
       [session_update (Session.set_tools (sessionConfig c) (registered_tools (tools c)))]) /\
  connected (realtime c') = true /\
  sessionConfig c' = sessionConfig c /\
  tools c' = tools c /\
  inputAudioBuffer c' = inputAudioBuffer c /\
  connect c' = (Throws (JSError "Already connected, use .disconnect() first"), c').
Proof.
  cbv zeta. unfold state_after, completion. rewrite connect_run.
  destruct (connected (realtime c)) eqn:E; simpl.
  - repeat split; intros; try discriminate; try assumption; try reflexivity.
    rewrite connect_run, E. reflexivity.
  - repeat split; intros; try discriminate; reflexivity.
Qed.

(** X3: [disconnect()] never throws and sends nothing.  It leaves the
    transport disconnected and [sessionCreated] false, and keeps the
    stored configuration, the registry and the staged audio.  Doing it
    twice is the same as doing it once, and a [connect()] after it
    always succeeds. *)
Theorem disconnect_is_idempotent_and_keeps_settings (c : RealtimeClient) :
  let c' := state_after disconnect c in
  completion disconnect c = Returns tt /\
  connected (realtime c') = false /\
  sessionCreated c' = false /\
  outbox c' = outbox c /\
  sessionConfig c' = sessionConfig c /\
  tools c' = tools c /\
  inputAudioBuffer c' = inputAudioBuffer c /\
  state_after disconnect c' = c' /\
  completion connect c' = Returns true.
Proof.
  cbv zeta. unfold state_after, completion. rewrite !disconnect_run, connect_run. simpl.
  repeat split; reflexivity.
Qed.

(** X4: [reset()] never throws and sends nothing.  Afterwards the
    stored configuration is the default one, no tool is registered, no
    audio is staged, the transport is disconnected and [sessionCreated]
    is false, whatever the client was before.  Doing it twice is the
    same as doing it once, and the [connect()] that follows sends the
    default configuration with an empty tool list. *)
Theorem reset_restores_defaults (c : RealtimeClient) :
  let c' := state_after reset c in
  completion reset c = Returns true /\
  sessionConfig c' = defaultSessionConfig /\
  tools c' = Dict.empty /\
  inputAudioBuffer c' = [] /\
  connected (realtime c') = false /\
  sessionCreated c' = false /\
  outbox c' = outbox c /\
  dispatched c' = dispatched c /\
  state_after reset c' = c' /\
  outbox (state_after connect c') =
    outbox c ++ [session_update (Session.set_tools defaultSessionConfig [])].
Proof.
  cbv zeta. unfold state_after, completion. rewrite !reset_run, connect_run. simpl.
  repeat split; reflexivity.
Qed.

(* ================================================================== *)
(** * Turn detection                                                   *)
(* ================================================================== *)

(** X5: the turn detection passed to [updateSession] decides whether a
    later [createResponse] on a connected client commits the staged
    audio, whether or not [updateSession] itself returned.  With a turn
    detection of a non-empty type, [getTurnDetectionType] returns that
    type and [createResponse] sends [response.create] alone and keeps
    the buffer; with [null], or with an empty type, it returns [null]
    and [createResponse] commits staged audio first; with the member
    missing, the answer is the one from before the call.  On a client
    that is not connected [createResponse] is refused whatever the
    turn detection. *)
Theorem updateSession_turn_detection_decides_commit
  (p : SessionResourceType) (c : RealtimeClient) :
  let c' := state_after (updateSession p) c in
  let c'' := state_after createResponse c' in
  inputAudioBuffer c' = inputAudioBuffer c /\
  connected (realtime c') = connected (realtime c) /\
  (forall td, Session.turn_detection p = Some (Some td) -> vad_type td <> "" ->
     completion getTurnDetectionType c' = Returns (Some (vad_type td)) /\
     (connected (realtime c) = true ->
        outbox c'' = outbox c' ++ [response_create] /\
        inputAudioBuffer c'' = inputAudioBuffer c /\
        conversation c'' = conversation c)) /\
  (Session.turn_detection p = Some None \/
   (exists td, Session.turn_detection p = Some (Some td) /\ vad_type td = "") ->
     completion getTurnDetectionType c' = Returns None /\
     (connected (realtime c) = true -> inputAudioBuffer c <> [] ->
        outbox c'' = outbox c' ++ [input_audio_buffer_commit; response_create] /\
        inputAudioBuffer c'' = [] /\
        conversation c'' =
          Conversation.queueInputAudio (inputAudioBuffer c) (conversation c))) /\
  (Session.turn_detection p = None ->
     completion getTurnDetectionType c' = completion getTurnDetectionType c) /\
  (connected (realtime c) = false ->
     createResponse c' = (Throws API.not_connected, c')).
Proof.
  cbv zeta.
  destruct (updateSession_stored p c) as [Hs _].
  pose proof (inputAudioBuffer_updateSession p c) as Hb.
  assert (Hconv : conversation (state_after (updateSession p) c) = conversation c).
  { unfold state_after. rewrite updateSession_run. cbv zeta.
    destruct (first_taken _ _); [reflexivity |].
    destruct (connected (realtime c)); reflexivity. }
  assert (Hconn : connected (realtime (state_after (updateSession p) c))
                  = connected (realtime c)).
  { unfold state_after. rewrite updateSession_run. cbv zeta.
    destruct (first_taken _ _); [reflexivity |].
    destruct (connected (realtime c)) eqn:E; simpl; [exact E | exact E]. }
  assert (Htype : forall x,
            Session.turn_detection p = Some x ->
            turnDetectionType (sessionConfig (state_after (updateSession p) c)) =
            match x with
            | Some td => if String.eqb (vad_type td) "" then None else Some (vad_type td)
            | None => None
            end).
  { intros x Hx. rewrite Hs. unfold turnDetectionType, merge_session. simpl.
    rewrite Hx. destruct x; reflexivity. }
  set (c1 := state_after (updateSession p) c) in *.
  split; [exact Hb |]. split; [exact Hconn |]. split; [| split; [| split]].
  - intros td Htd Hne. specialize (Htype _ Htd). simpl in Htype.
    apply String.eqb_neq in Hne. rewrite Hne in Htype.
    assert (E : commits c1 = false).
    { apply commits_false. left. rewrite Htype. discriminate. }
    unfold completion, getTurnDetectionType, read. simpl. rewrite Htype.
    split; [reflexivity |]. intros Hon. rewrite Hon in Hconn.
    unfold state_after. rewrite createResponse_run, Hconn, E. simpl.
    rewrite outbox_sending. auto.
  - intros Hnull.
    assert (Hnone : turnDetectionType (sessionConfig c1) = None).
    { destruct Hnull as [Hx | (td & Hx & Hempty)]; rewrite (Htype _ Hx); [reflexivity |].
      simpl. rewrite Hempty. reflexivity. }
    unfold completion, getTurnDetectionType, read. simpl. rewrite Hnone.
    split; [reflexivity |]. intros Hon Hstaged. rewrite Hon in Hconn.
    assert (E : commits c1 = true).
    { apply commits_true. rewrite Hb. auto. }
    unfold state_after. rewrite createResponse_run, Hconn, E. simpl.
    rewrite Hb, Hconv. unfold outbox. simpl. rewrite <- app_assoc. auto.
  - intros Hx. unfold completion, getTurnDetectionType, read. simpl.
    rewrite Hs. unfold turnDetectionType, merge_session. simpl. rewrite Hx. reflexivity.
  - intros Hoff. rewrite Hoff in Hconn. rewrite createResponse_run, Hconn. reflexivity.
Qed.

(* ================================================================== *)
(** * What the handling of events leaves alone                         *)
(* ================================================================== *)

Create HintDb frame.

Section Frame.
Context {B : Type} (f : RealtimeClient -> B).

Lemma preserves_ret {A} (a : A) : preserves f (ret a).
Proof. intros c. reflexivity. Qed.

Lemma preserves_throw {A} (e : JSValue) : preserves f (throw (A := A) e).
Proof. intros c. reflexivity. Qed.

Lemma preserves_throw_Error {A} (msg : string) : preserves f (throw_Error (A := A) msg).
Proof. intros c. reflexivity. Qed.

Lemma preserves_read {A} (g : RealtimeClient -> A) : preserves f (read g).
Proof. intros c. reflexivity. Qed.

Lemma preserves_modify (g : RealtimeClient -> RealtimeClient) :
  (forall c, f (g c) = f c) -> preserves f (modify g).
Proof. intros Hg c. apply Hg. Qed.

Lemma preserves_bind {A A'} (m : Method A) (k : A -> Method A') :
  preserves f m -> (forall a, preserves f (k a)) -> preserves f (bind m k).
Proof.
  intros Hm Hk c. specialize (Hm c). unfold state_after, bind in *.
  destruct (m c) as [[a | e] c1]; simpl in *; [| assumption].
  rewrite <- Hm. apply Hk.
Qed.

Lemma preserves_when (b : bool) (m : Method unit) :
  preserves f m -> preserves f (when b m).
Proof. destruct b; simpl; [auto | intros _; apply preserves_ret]. Qed.

Lemma preserves_try_catch {A} (body : Method A) (handle : JSValue -> Method A) :
  preserves f body -> (forall e, preserves f (handle e)) ->
  preserves f (try_catch body handle).
Proof.
  intros Hm Hk c. specialize (Hm c). unfold state_after, try_catch in *.
  destruct (body c) as [[a | e] c1]; simpl in *; [assumption |].
  rewrite <- Hm. apply Hk.
Qed.

Lemma preserves_detached {A} (m : Method A) : preserves f m -> preserves f (detached m).
Proof.
  intros Hm c. specialize (Hm c). unfold state_after, detached in *.
  destruct (m c) as [[a | e] c1]; exact Hm.
Qed.

#[local] Hint Resolve preserves_ret preserves_throw preserves_throw_Error preserves_read
  preserves_bind preserves_when preserves_try_catch preserves_detached : frame.

(** Observations that do not depend on the conversation or on the
    events dispatched. *)
Hypothesis f_conversation : forall v c, f (set_conversation v c) = f c.
Hypothesis f_dispatched : forall v c, f (set_dispatched v c) = f c.

Lemma preserves_dispatch (ev : ClientEvent) : preserves f (dispatch ev).
Proof. apply preserves_modify. intros c. apply f_dispatched. Qed.

Lemma preserves_handler_ `{Assembler} (event : ServerEvent) (extra : option Int16Array) :
  preserves f (handler_ event extra).
Proof.
  intros c. unfold state_after, handler_.
  destruct (processEvent event extra (conversation c)) as [r conv]. apply f_conversation.
Qed.

#[local] Hint Resolve preserves_dispatch preserves_handler_ : frame.

Lemma preserves_handlerWithDispatch `{Assembler} (event : ServerEvent)
  (extra : option Int16Array) :
  preserves f (handlerWithDispatch event extra).
Proof.
  unfold handlerWithDispatch. apply preserves_bind; [apply preserves_handler_ |].
  intros [[item|] delta]; simpl; auto 10 with frame.
Qed.

Lemma preserves_dispatch_if_completed (item : option ItemType) :
  preserves f (dispatch_if_completed item).
Proof. destruct item; simpl; auto 10 with frame. Qed.

#[local] Hint Resolve preserves_handlerWithDispatch preserves_dispatch_if_completed : frame.

(** The events that only feed the conversation. *)
Lemma preserves_listening `{Assembler} `{JSONBuiltins} (event : ServerEvent) :
  event_type event <> session_created ->
  event_type event <> response_output_item_done ->
  preserves f (on_server_event event).
Proof.
  intros Hcreated Hdone. unfold on_server_event.
  destruct (event_type event); try congruence; auto 10 with frame.
Qed.

(** Observations that do not depend on the commands sent or on the
    input audio buffer either. *)
Hypothesis f_sent : forall cmd c, f (sending cmd c) = f c.
Hypothesis f_inputAudioBuffer : forall v c, f (set_inputAudioBuffer v c) = f c.

Lemma preserves_send (cmd : Command) : preserves f (send cmd).
Proof.
  intros c. unfold state_after. rewrite send_run.
  destruct (connected (realtime c)); [apply f_sent | reflexivity].
Qed.

Lemma preserves_createResponse : preserves f createResponse.
Proof.
  intros c. unfold state_after. rewrite createResponse_run.
  destruct (connected (realtime c)); [| reflexivity]. simpl.
  destruct (commits c); rewrite ?f_sent, ?f_inputAudioBuffer, ?f_conversation, ?f_sent;
    reflexivity.
Qed.

#[local] Hint Resolve preserves_send preserves_createResponse : frame.

Lemma preserves_callTool_catch `{JSONBuiltins} (tool : FormattedToolType) (e : JSValue) :
  preserves f (callTool_catch tool e).
Proof. unfold callTool_catch. destruct (get_message e); auto with frame. Qed.

#[local] Hint Resolve preserves_callTool_catch : frame.

Lemma preserves_callTool_resume `{JSONBuiltins} (tool : FormattedToolType) (s : Settlement) :
  preserves f (callTool_resume tool s).
Proof.
  unfold callTool_resume.
  apply preserves_bind; [| auto with frame].
  apply preserves_try_catch; [destruct s |]; auto with frame.
Qed.

Lemma preserves_callTool_call `{JSONBuiltins} (tool : FormattedToolType) :
  preserves f (callTool_call tool).
Proof.
  unfold callTool_call. apply preserves_bind.
  - apply preserves_try_catch; [| auto 6 with frame].
    destruct (JSON_parse (ft_arguments tool)) as [jsonArguments | e]; [| auto with frame].
    apply preserves_bind; [auto with frame | intros registry].
    destruct (Dict.get registry (ft_name tool)) as [cfg | |]; auto with frame.
    destruct (handler cfg jsonArguments); auto with frame.
  - intros [s|]; auto 6 with frame.
Qed.

Lemma preserves_on_output_item_done `{Assembler} `{JSONBuiltins} (event : ServerEvent) :
  preserves f (on_output_item_done event).
Proof.
  unfold on_output_item_done.
  apply preserves_bind; [auto with frame | intros r].
  apply preserves_bind; [auto with frame | intros item].
  destruct (formatted_tool (item_formatted item)) as [tool|]; [| auto with frame].
  apply preserves_bind; [| intros called; auto with frame].
  apply preserves_detached, preserves_callTool_call.
Qed.

(** Every event but [session.created]. *)
Lemma preserves_after_session_created `{Assembler} `{JSONBuiltins} (event : ServerEvent) :
  event_type event <> session_created -> preserves f (on_server_event event).
Proof.
  intros Hcreated.
  destruct (event_type event) eqn:E; try congruence;
    try (apply preserves_listening; congruence).
  unfold on_server_event. rewrite E. apply preserves_on_output_item_done.
Qed.

Lemma preserves_cancelResponse (id : option string) (sampleCount : option number) :
  preserves f (cancelResponse id sampleCount).
Proof.
  unfold cancelResponse. cbv zeta.
  destruct id as [[|a id]|]; auto 10 with frame.
  apply preserves_bind; [auto with frame |]. intros [item|]; [| auto with frame].
  destruct (negb _); [auto with frame |].
  destruct (negb _); [auto with frame |].
  apply preserves_bind; [auto with frame |]. intros _.
  destruct (_ =? _); auto 10 with frame.
Qed.

(** Observations that do not depend on [sessionCreated] either. *)
Hypothesis f_sessionCreated : forall v c, f (set_sessionCreated v c) = f c.

Lemma preserves_on_server_event `{Assembler} `{JSONBuiltins} (event : ServerEvent) :
  preserves f (on_server_event event).
Proof.
  destruct (event_type event) eqn:E;
    try (apply preserves_after_session_created; congruence).
  unfold on_server_event. rewrite E. apply preserves_bind; [| auto with frame].
  apply preserves_modify. intros c. apply f_sessionCreated.
Qed.

End Frame.

Lemma session_created_run `{Assembler} `{JSONBuiltins} (event : ServerEvent)
  (c : RealtimeClient) :
  event_type event = session_created ->
  on_server_event event c = (Returns None, set_sessionCreated true c).
Proof. intros E. unfold on_server_event. rewrite E. reflexivity. Qed.

(** X6: what a server event can do to the client.  No event changes
    the tool registry, the stored configuration or the connection
    flag.  Only [response.output_item.done] can send commands or empty
    the input audio buffer; [session.created] sets [sessionCreated]
    and nothing else, and no other event changes that flag; an event
    the client has no handler for changes nothing at all (it is still
    logged as [realtime.event], which [on_server_event] leaves out). *)
Theorem server_events_leave_the_settings `{Assembler} `{JSONBuiltins}
  (event : ServerEvent) (c : RealtimeClient) :
  let c' := state_after (on_server_event event) c in
  tools c' = tools c /\
  sessionConfig c' = sessionConfig c /\
  connected (realtime c') = connected (realtime c) /\
  (event_type event <> response_output_item_done ->
     realtime c' = realtime c /\ inputAudioBuffer c' = inputAudioBuffer c) /\
  (event_type event <> session_created -> sessionCreated c' = sessionCreated c) /\
  (event_type event = session_created -> c' = set_sessionCreated true c) /\
  (forall name, event_type event = other_event name -> c' = c).
Proof.
  cbv zeta.
  split; [apply (preserves_on_server_event tools); reflexivity |].
  split; [apply (preserves_on_server_event sessionConfig); reflexivity |].
  split; [apply (preserves_on_server_event (fun c => connected (realtime c))); reflexivity |].
  split; [| split; [| split]].
  - intros Hdone.
    destruct (event_type event) eqn:E; try congruence;
      try (split; apply preserves_listening; try reflexivity; congruence).
    unfold state_after. rewrite (session_created_run event c E). split; reflexivity.
  - intros Hcreated. apply preserves_after_session_created; auto.
  - intros E. unfold state_after. rewrite (session_created_run event c E). reflexivity.
  - intros name E. unfold state_after, on_server_event. rewrite E. reflexivity.
Qed.

(** X7: what the settlement of a tool call can do to the client: it
    may send commands and, through [createResponse], commit the staged
    audio to the conversation; it never changes the tool registry, the
    stored configuration, the connection flag or [sessionCreated], and
    it dispatches no conversation event.  The same holds of the part
    of [callTool] before the [await]. *)
Theorem callTool_leaves_the_settings `{JSONBuiltins}
  (tool : FormattedToolType) (s : Settlement) (c : RealtimeClient) :
  let unchanged (c' : RealtimeClient) :=
    tools c' = tools c /\
    sessionConfig c' = sessionConfig c /\
    connected (realtime c') = connected (realtime c) /\
    sessionCreated c' = sessionCreated c /\
    dispatched c' = dispatched c in
  unchanged (state_after (callTool_resume tool s) c) /\
  unchanged (state_after (callTool_call tool) c).
Proof.
  cbv zeta. split.
  - repeat split;
      [ apply (preserves_callTool_resume tools)
      | apply (preserves_callTool_resume sessionConfig)
      | apply (preserves_callTool_resume (fun c => connected (realtime c)))
      | apply (preserves_callTool_resume sessionCreated)
      | apply (preserves_callTool_resume dispatched) ]; reflexivity.
  - repeat split;
      [ apply (preserves_callTool_call tools)
      | apply (preserves_callTool_call sessionConfig)
      | apply (preserves_callTool_call (fun c => connected (realtime c)))
      | apply (preserves_callTool_call sessionCreated)
      | apply (preserves_callTool_call dispatched) ]; reflexivity.
Qed.

(* ================================================================== *)
(** * Events about items                                               *)
(* ================================================================== *)

(** X8: an event for which [processEvent] yields no item.  The
    handlers that are [handlerWithDispatch] itself dispatch nothing
    and return; the handler of [conversation.item.created] dispatches
    [conversation.item.appended] without an item and then throws on
    reading its status; the handler of [response.output_item.done],
    an [async] function, fails at the same place, having dispatched
    nothing and started no tool call.  In each case the conversation
    is the one [processEvent] left and nothing is sent. *)
Theorem events_without_an_item `{Assembler} `{JSONBuiltins}
  (event : ServerEvent) (c : RealtimeClient)
  (delta : option DeltaType) (conv : RealtimeConversation) :
  processEvent event None (conversation c) = (Returns (None, delta), conv) ->
  let c1 := set_conversation conv c in
  (In (event_type event)
      [conversation_item_truncated; conversation_item_deleted;
       conversation_item_input_audio_transcription_completed;
       response_audio_transcript_delta; response_audio_delta;
       response_text_delta; response_function_call_arguments_delta] ->
     on_server_event event c = (Returns None, c1)) /\
  (event_type event = conversation_item_created ->
     (exists e, completion (on_server_event event) c = Throws e) /\
     state_after (on_server_event event) c =
       set_dispatched (dispatched c ++ [conversation_item_appended None]) c1) /\
  (event_type event = response_output_item_done ->
     (exists e, completion (on_server_event event) c = Throws e) /\
     state_after (on_server_event event) c = c1).
Proof.
  intros Hev. cbv zeta.
  assert (Hwd : handlerWithDispatch event None c =
                (Returns (None, delta), set_conversation conv c)).
  { unfold handlerWithDispatch, handler_, bind. rewrite Hev. reflexivity. }
  split; [| split].
  - intros Hin. unfold on_server_event. simpl in Hin.
    repeat (destruct Hin as [E | Hin]; [rewrite <- E; unfold bind; rewrite Hwd; reflexivity |]).
    destruct Hin.
  - intros E. unfold completion, state_after, on_server_event. rewrite E.
    unfold bind. rewrite Hwd. simpl. split; [eexists |]; reflexivity.
  - intros E. unfold completion, state_after, on_server_event. rewrite E.
    unfold on_output_item_done, bind. rewrite Hwd. simpl. split; [eexists |]; reflexivity.
Qed.

(** X8 at concrete inputs: an event about an item the conversation
    does not hold. *)
Lemma events_without_an_item_witness :
  let event := event_about conversation_item_created "item_Z" in
  @processEvent sample_assembler event None (conversation talking_client) =
    (Returns (None, None), conversation talking_client) /\
  (exists e,
     completion (@on_server_event sample_assembler sample_json event) talking_client =
     Throws e) /\
  dispatched (state_after (@on_server_event sample_assembler sample_json event)
                talking_client) =
    [conversation_item_appended None].
Proof.
  assert (Hev : @processEvent sample_assembler
                  (event_about conversation_item_created "item_Z") None
                  (conversation talking_client) =
                (Returns (None, None), conversation talking_client)) by reflexivity.
  split; [exact Hev |].
  destruct (@events_without_an_item sample_assembler sample_json
              (event_about conversation_item_created "item_Z") talking_client None
              (conversation talking_client) Hev) as (_ & Hcreated & _).
  destruct (Hcreated eq_refl) as [Hthrows Hstate].
  split; [exact Hthrows |]. rewrite Hstate. reflexivity.
Defined.

(** X9: the whole of a tool call.  A [response.output_item.done]
    event whose item carries no tool descriptor is announced and
    nothing is sent.  When it carries one whose arguments parse and
    whose name is registered, the handler is called with the parsed
    arguments and, while its promise is pending, nothing has been
    sent and no audio committed; once the promise is fulfilled, a
    connected client sends the [function_call_output] item holding
    [JSON.stringify] of the result under the call id of the
    descriptor, commits staged audio if [createResponse] finds any,
    and sends [response.create].  If the client is no longer
    connected by then, the transport refuses the item and [callTool]
    ends with that refusal, having sent nothing. *)
Theorem tool_call_round_trip `{Assembler} `{JSONBuiltins}
  (event : ServerEvent) (c : RealtimeClient)
  (item : ItemType) (delta : option DeltaType) (conv : RealtimeConversation) :
  event_type event = response_output_item_done ->
  processEvent event None (conversation c) = (Returns (Some item, delta), conv) ->
  let announced :=
    conversation_updated item delta
    :: (if is_completed (item_status item) then [conversation_item_completed item] else []) in
  let c1 := set_dispatched (dispatched c ++ announced) (set_conversation conv c) in
  (formatted_tool (item_formatted item) = None ->
     on_server_event event c = (Returns None, c1)) /\
  (forall tool arguments cfg s,
     formatted_tool (item_formatted item) = Some tool ->
     JSON_parse (ft_arguments tool) = Returns arguments ->
     Dict.get_own (tools c) (ft_name tool) = Some cfg ->
     handler cfg arguments = awaited (Some s) ->
     on_server_event event c = (Returns (Some (tool, s)), c1) /\
     forall result, s = fulfilled result ->
       (connected (realtime c) = true ->
          completion (callTool_resume tool s) c1 = Returns tt /\
          outbox (state_after (callTool_resume tool s) c1) =
            outbox c ++ [report tool (JSON_stringify result)]
            ++ (if commits c then [input_audio_buffer_commit] else [])
            ++ [response_create]) /\
       (connected (realtime c) = false ->
          callTool_resume tool s c1 = (Throws API.not_connected, c1))).
Proof.
  intros E Hev. cbv zeta. split.
  - intros Htool. unfold on_server_event. rewrite E.
    unfold on_output_item_done, handlerWithDispatch, handler_.
    unfold bind at 1. unfold bind at 1. unfold bind at 1. rewrite Hev. simpl.
    unfold bind, when, dispatch, modify, ret.
    destruct (is_completed (item_status item)); simpl; rewrite Htool;
      unfold set_dispatched, set_conversation; simpl; rewrite <- ?app_assoc; reflexivity.
  - intros tool arguments cfg s Htool Hparse Hown Hcall. split.
    + unfold on_server_event. rewrite E.
      unfold on_output_item_done, handlerWithDispatch, handler_.
      unfold bind at 1. unfold bind at 1. unfold bind at 1. rewrite Hev. simpl.
      unfold bind, when, dispatch, modify, ret, detached.
      destruct (is_completed (item_status item)); simpl; rewrite Htool;
        rewrite callTool_call_run; unfold start_of, Dict.get; simpl;
        rewrite Hparse, Hown, Hcall;
        unfold set_dispatched, set_conversation; simpl; rewrite <- ?app_assoc; reflexivity.
    + intros result ->. unfold completion, state_after at 1.
      rewrite callTool_resume_run. simpl.
      split; intros Hconn; rewrite Hconn; [| reflexivity]. simpl.
      split; [reflexivity |]. rewrite outbox_reported by exact Hconn. reflexivity.
Qed.

(** X9 at concrete inputs: the call of [get_weather] on a client that
    has the tool. *)
Lemma tool_call_round_trip_witness :
  let event := event_about response_output_item_done "item_E" in
  (event_type event = response_output_item_done /\
   @processEvent sample_assembler event None (conversation tooled_client) =
     (Returns (Some weather_request_done, None), conversation tooled_client) /\
   connected (realtime tooled_client) = true) /\
  completion (@on_server_event sample_assembler sample_json event) tooled_client =
    Returns (Some (weather_call, fulfilled (JSObject []))) /\
  outbox (state_after
            (@callTool_resume sample_json weather_call (fulfilled (JSObject [])))
            (state_after (@on_server_event sample_assembler sample_json event)
               tooled_client)) =
    [conversation_item_create (function_output "call_1" (Some "{}")); response_create].
Proof.
  assert (E : event_type (event_about response_output_item_done "item_E")
              = response_output_item_done) by reflexivity.
  assert (Hev : @processEvent sample_assembler
                  (event_about response_output_item_done "item_E") None
                  (conversation tooled_client) =
                (Returns (Some weather_request_done, None), conversation tooled_client))
    by reflexivity.
  split; [repeat split; assumption |].
  destruct (@tool_call_round_trip sample_assembler sample_json
              (event_about response_output_item_done "item_E") tooled_client
              weather_request_done None (conversation tooled_client) E Hev)
    as [_ Hcall].
  destruct (Hcall weather_call (JSObject [])
              {| definition := tool_named "get_weather"; handler := echo_handler |}
              (fulfilled (JSObject [])) eq_refl eq_refl eq_refl eq_refl)
    as [Hrun Hsettled].
  destruct (proj1 (Hsettled (JSObject []) eq_refl) eq_refl) as [_ Hout].
  unfold completion, state_after at 2. rewrite Hrun. simpl.
  split; [reflexivity | exact Hout].
Defined.

(* ================================================================== *)
(** * The registry along a run                                         *)
(* ================================================================== *)

Section RegistryFacts.
Context {V : Type}.
Implicit Types (o : Dict.t V) (k : string) (v : V).

Lemma set_fresh o k v : Dict.get_own o k = None -> Dict.set o k v = o ++ [(k, v)].
Proof.
  induction o as [|[k' v'] o IH]; simpl; [reflexivity |].
  destruct (String.eqb k' k); [discriminate |].
  intros Hnone. rewrite IH by assumption. reflexivity.
Qed.

Lemma In_delete o k k' v : In (k', v) (Dict.delete o k) -> In (k', v) o.
Proof.
  induction o as [|[k1 v1] o IH]; simpl; [tauto |].
  destruct (String.eqb k1 k); simpl; intuition.
Qed.

Lemma In_fst_delete o k k' :
  In k' (List.map fst (Dict.delete o k)) -> In k' (List.map fst o).
Proof.
  induction o as [|[k1 v1] o IH]; simpl; [tauto |].
  destruct (String.eqb k1 k); simpl; intuition.
Qed.

Lemma NoDup_delete o k :
  NoDup (List.map fst o) -> NoDup (List.map fst (Dict.delete o k)).
Proof.
  induction o as [|[k1 v1] o IH]; simpl; [auto |].
  intros Hnd. inversion Hnd as [| ? ? Hnotin Hrest]; subst.
  destruct (String.eqb k1 k); simpl; [auto |].
  constructor; [| auto]. intros Hin. apply Hnotin.
  apply list_elem_of_In. apply list_elem_of_In in Hin. apply (In_fst_delete _ _ _ Hin).
Qed.

Lemma NoDup_snoc {A} (l : list A) (x : A) : NoDup l -> ~ In x l -> NoDup (l ++ [x]).
Proof.
  intros Hnd Hnotin. apply NoDup_app. split; [exact Hnd |]. split.
  - intros y Hy Hx. apply list_elem_of_In in Hx. destruct Hx as [<- | []].
    apply Hnotin, list_elem_of_In, Hy.
  - apply NoDup_singleton.
Qed.

Lemma get_own_Some_In o k v : Dict.get_own o k = Some v -> In (k, v) o.
Proof.
  induction o as [|[k1 v1] o IH]; simpl; [discriminate |].
  destruct (String.eqb k1 k) eqn:E; [| auto].
  apply String.eqb_eq in E. subst. intros [= ->]. auto.
Qed.

Lemma insert_index_perm i k (l : list (N * string)) :
  Permutation (List.map snd (Dict.insert_index i k l)) (k :: List.map snd l).
Proof.
  induction l as [|[j k'] l IH]; simpl; [reflexivity |].
  destruct (i <=? j)%N; simpl; [reflexivity |].
  rewrite IH. apply perm_swap.
Qed.

(** [Object.keys] lists every own property once. *)
Lemma keys_perm o : Permutation (Dict.keys o) (List.map fst o).
Proof.
  unfold Dict.keys. induction o as [|[k v] o IH]; simpl; [reflexivity |].
  destruct (Dict.array_index k); simpl.
  - rewrite insert_index_perm. simpl. constructor. exact IH.
  - rewrite <- IH. symmetry. apply Permutation_middle.
Qed.

End RegistryFacts.

Lemma registry_wf_empty : registry_wf Dict.empty.
Proof. split; [constructor | intros key cfg []]. Qed.

Lemma registry_wf_delete (registry : Dict.t ToolConfig) (name : string) :
  registry_wf registry -> registry_wf (Dict.delete registry name).
Proof.
  intros [Hnd Hnames]. split; [apply NoDup_delete, Hnd |].
  intros key cfg Hin. apply Hnames, (In_delete _ _ _ _ Hin).
Qed.

Lemma registry_wf_set (registry : Dict.t ToolConfig) (name : string)
  (def : ToolDefinitionType) (f : Handler) :
  registry_wf registry -> tool_name def = Some name -> name <> "" ->
  Dict.truthy registry name = false ->
  registry_wf (Dict.set registry name {| definition := def; handler := f |}).
Proof.
  intros [Hnd Hnames] Hname Hne Hfree.
  apply truthy_false in Hfree. destruct Hfree as [Hown Hproto].
  rewrite (set_fresh _ _ _ Hown). split.
  - rewrite map_app. simpl. apply NoDup_snoc; [exact Hnd |].
    intros Hin. apply get_own_In in Hin. congruence.
  - intros key cfg Hin. apply in_app_iff in Hin. destruct Hin as [Hin | [[= <- <-] | []]].
    + apply Hnames, Hin.
    + simpl. auto.
Qed.

Section RegistryInvariant.
Context `{Codec} `{JSONBuiltins} `{Assembler}.

(** Every operation keeps the registry well formed: only [reset],
    [addTool] and [removeTool] write it. *)
Lemma registry_wf_run (op : Operation) (c : RealtimeClient) :
  registry_wf (tools c) -> registry_wf (tools (run op c)).
Proof.
  intros Hwf.
  destruct op as [| | | def h | name | id | p | content | data | | id sampleCount
                 | event | tool s]; simpl.
  - unfold state_after. rewrite reset_run. apply registry_wf_empty.
  - unfold state_after. rewrite connect_run.
    destruct (connected (realtime c)); exact Hwf.
  - unfold state_after. rewrite disconnect_run. exact Hwf.
  - destruct (tool_name def) as [name|] eqn:Hname.
    + destruct (string_dec name "") as [-> | Hne].
      * unfold state_after. rewrite addTool_without_name by auto. exact Hwf.
      * unfold state_after. rewrite (addTool_run def h c name Hname Hne).
        destruct (Dict.truthy (tools c) name) eqn:Hfree; [exact Hwf |].
        destruct h as [f | v]; [| exact Hwf]. cbv zeta.
        destruct (connected (realtime c)); simpl;
          apply registry_wf_set; assumption.
    + unfold state_after. rewrite addTool_without_name by auto. exact Hwf.
  - unfold state_after. rewrite removeTool_run.
    destruct (Dict.truthy (tools c) name); [| exact Hwf].
    simpl. apply registry_wf_delete, Hwf.
  - unfold state_after, deleteItem, bind. rewrite send_run.
    destruct (connected (realtime c)); exact Hwf.
  - rewrite (proj2 (updateSession_stored p c)). exact Hwf.
  - unfold state_after. rewrite sendUserMessageContent_run.
    destruct (connected (realtime c)); [| exact Hwf]. simpl.
    rewrite (preserves_createResponse tools) by reflexivity.
    destruct content; exact Hwf.
  - unfold state_after. rewrite appendInputAudio_run.
    destruct (0 <? byteLength data), (connected (realtime c)); exact Hwf.
  - rewrite (preserves_createResponse tools) by reflexivity. exact Hwf.
  - rewrite (preserves_cancelResponse tools) by reflexivity. exact Hwf.
  - rewrite (preserves_on_server_event tools) by reflexivity. exact Hwf.
  - rewrite (preserves_callTool_resume tools) by reflexivity. exact Hwf.
Qed.

Lemma registry_wf_runs (ops : list Operation) (c : RealtimeClient) :
  registry_wf (tools c) -> registry_wf (tools (runs ops c)).
Proof.
  revert c. induction ops as [|op ops IH]; intros c Hwf; [exact Hwf |].
  apply IH, registry_wf_run, Hwf.
Qed.

End RegistryInvariant.

Lemma registered_tools_names (registry : Dict.t ToolConfig) :
  registry_wf registry ->
  List.map tool_name (registered_tools registry) = List.map Some (Dict.keys registry).
Proof.
  intros [_ Hnames]. unfold registered_tools.
  assert (Hkeys : forall key, In key (Dict.keys registry) ->
            exists cfg, Dict.get_own registry key = Some cfg /\
                        tool_name (definition cfg) = Some key).
  { intros key Hin. apply In_keys in Hin.
    destruct (Dict.get_own registry key) as [cfg|] eqn:E; [| congruence].
    exists cfg. split; [reflexivity |].
    apply (Hnames key cfg), get_own_Some_In, E. }
  induction (Dict.keys registry) as [|key keys IH]; [reflexivity |].
  destruct (Hkeys key (or_introl eq_refl)) as (cfg & E & Hname).
  simpl. rewrite E. simpl. rewrite Hname. f_equal.
  apply IH. intros key' Hin. apply Hkeys. right. exact Hin.
Qed.

(** X10: however a client whose registry starts empty is used, through
    any sequence of method calls, server events and tool settlements,
    its registry holds each tool under the name of its definition, a
    non-empty string that is no member of [Object.prototype], and no
    name twice.  The tool list [updateSession] builds from it
    therefore names every registered tool exactly once, in the order
    of [Object.keys], and each tool in that list is the one [callTool]
    finds under its name. *)
Theorem registry_names_each_tool_once `{Codec} `{JSONBuiltins} `{Assembler}
  (ops : list Operation) (c : RealtimeClient) :
  tools c = Dict.empty ->
  let registry := tools (runs ops c) in
  registry_wf registry /\
  List.map tool_name (registered_tools registry) = List.map Some (Dict.keys registry) /\
  NoDup (Dict.keys registry) /\
  length (registered_tools registry) = length registry /\
  (forall t, In t (registered_tools registry) ->
     exists cfg, Dict.get registry (name_string (tool_name t)) = Dict.Own cfg /\
                 t = function_tool (definition cfg)).
Proof.
  intros Hempty. cbv zeta.
  assert (Hwf : registry_wf (tools (runs ops c))).
  { apply registry_wf_runs. rewrite Hempty. apply registry_wf_empty. }
  pose proof (registered_tools_names _ Hwf) as Hnames.
  split; [exact Hwf |]. split; [exact Hnames |]. split; [| split].
  - destruct Hwf as [Hnd _]. rewrite keys_perm. exact Hnd.
  - apply (f_equal (@length _)) in Hnames. rewrite !length_map in Hnames.
    rewrite Hnames, (Permutation_length (keys_perm _)). apply length_map.
  - intros t Hin. apply In_registered_tools in Hin.
    destruct Hin as (key & cfg & Hown & ->). exists cfg. split; [| reflexivity].
    destruct Hwf as [_ Hkeys].
    destruct (Hkeys key cfg (get_own_Some_In _ _ _ Hown)) as (Hname & _ & _).
    simpl. rewrite Hname. simpl. unfold Dict.get. rewrite Hown. reflexivity.
Qed.

(** X10 at concrete inputs: two tools added to a new client, one of
    them under an array-index name, around a [connect()] and a tool
    call. *)
Lemma registry_names_each_tool_once_witness :
  let ops :=
    [ call_addTool (tool_named "get_weather") (a_function echo_handler);
      call_connect;
      call_addTool (tool_named "7") (a_function echo_handler);
      call_addTool (tool_named "get_weather") (a_function echo_handler);
      tool_settled weather_call (fulfilled JSNull);
      call_removeTool "toString" ] in
  let registry := tools (@runs sample_codec sample_json sample_assembler ops new_client) in
  tools new_client = Dict.empty /\
  Dict.keys registry = ["7"; "get_weather"] /\
  List.map tool_name (registered_tools registry) = List.map Some (Dict.keys registry) /\
  NoDup (Dict.keys registry).
Proof.
  cbv zeta. split; [reflexivity |]. split; [reflexivity |].
  destruct (@registry_names_each_tool_once sample_codec sample_json sample_assembler
              [ call_addTool (tool_named "get_weather") (a_function echo_handler);
                call_connect;
                call_addTool (tool_named "7") (a_function echo_handler);
                call_addTool (tool_named "get_weather") (a_function echo_handler);
                tool_settled weather_call (fulfilled JSNull);
                call_removeTool "toString" ]
              new_client eq_refl) as (_ & Hnames & Hnodup & _).
  split; assumption.
Defined.

(* ================================================================== *)
(** * Cancelling, as a whole                                           *)
(* ================================================================== *)

(** X11: whatever its arguments, [cancelResponse] changes nothing of
    the client but the command log, and what it adds to the log is
    nothing, [response.cancel], or [response.cancel] followed by one
    [conversation.item.truncate] for the id given: a truncation is
    never sent without the cancellation before it, and the
    conversation held by the client is not edited.  It returns an
    item only if that item is what the id names in the conversation,
    an assistant message holding an audio part. *)
Theorem cancelResponse_changes_only_the_command_log
  (id : option string) (sampleCount : option number) (c : RealtimeClient) :
  let c' := state_after (cancelResponse id sampleCount) c in
  (c' = c \/
   c' = sending response_cancel c \/
   exists id' index ms,
     id = Some id' /\
     c' = sending (conversation_item_truncate id' index ms) (sending response_cancel c)) /\
  (forall item, completion (cancelResponse id sampleCount) c = Returns (Some item) ->
     exists id',
       id = Some id' /\ id' <> "" /\
       Conversation.getItem id' (conversation c) = Some item /\
       item_type item = message /\
       item_role item = Some assistant /\
       (exists part, In part (item_content item) /\ part_type part = audio) /\
       exists index ms,
         c' = sending (conversation_item_truncate id' index ms) (sending response_cancel c)).
Proof.
  cbv zeta. unfold state_after, completion.
  destruct id as [id|].
  2:{ rewrite (cancelResponse_no_id_run c None sampleCount) by auto.
      destruct (connected (realtime c));
        (split; [auto | intros item Hr; discriminate]). }
  destruct (string_dec id "") as [-> | Hid].
  { rewrite (cancelResponse_no_id_run c (Some "") sampleCount) by auto.
    destruct (connected (realtime c));
      (split; [auto | intros item Hr; discriminate]). }
  rewrite (cancelResponse_run c id sampleCount Hid).
  destruct (Conversation.getItem id (conversation c)) as [found|] eqn:Hitem.
  2:{ split; [left; reflexivity | intros item Hr; discriminate]. }
  destruct (is_message (item_type found)) eqn:Hty; simpl.
  2:{ split; [left; reflexivity | intros item Hr; discriminate]. }
  destruct (is_assistant (item_role found)) eqn:Hrole; simpl.
  2:{ split; [left; reflexivity | intros item Hr; discriminate]. }
  destruct (connected (realtime c)) eqn:Hconn; simpl.
  2:{ split; [left; reflexivity | intros item Hr; discriminate]. }
  destruct (findIndex is_audio (item_content found) =? -1) eqn:Hidx; simpl.
  { split; [right; left; reflexivity | intros item Hr; discriminate]. }
  split.
  - right. right. eexists _, _, _. split; reflexivity.
  - intros item [= <-]. exists id.
    apply Z.eqb_neq in Hidx.
    destruct (findIndex_first _ _ Hidx) as (i & first & _ & Hfirst & Pfirst & _).
    repeat split; auto.
    + destruct (item_type found); [reflexivity | discriminate | discriminate].
    + destruct (item_role found) as [[]|]; try discriminate. reflexivity.
    + exists first. split; [| apply is_audio_true, Pfirst].
      apply list_elem_of_In. apply (list_elem_of_lookup_2 _ i). exact Hfirst.
    + eexists _, _. reflexivity.
Qed.

(** X12: on a connected client [cancelResponse(id)] without a sample
    count truncates at zero milliseconds: for an assistant message
    with audio and a sample rate that is a finite number other than
    zero, the [audio_end_ms] sent is the zero with the sign of the
    rate. *)
Theorem cancelResponse_default_truncates_at_zero
  (c : RealtimeClient) (id : string) (item : ItemType)
  (negative : bool) (m : positive) (e : Z) :
  connected (realtime c) = true ->
  id <> "" ->
  Conversation.getItem id (conversation c) = Some item ->
  item_type item = message ->
  item_role item = Some assistant ->
  findIndex is_audio (item_content item) <> -1 ->
  defaultFrequency (conversation c) = S754_finite negative m e ->
  outbox (state_after (cancelResponse (Some id) None) c) =
    outbox c ++
    [response_cancel;
     conversation_item_truncate id (findIndex is_audio (item_content item))
       (S754_zero negative)].
Proof.
  intros Hconn Hid Hitem Hty Hrole Hidx Hfreq. unfold state_after.
  rewrite (cancelResponse_run c id None Hid), Hitem, Hty, Hrole, Hconn. simpl.
  assert (Hms : audio_end_ms_of (S754_zero false) (S754_finite negative m e)
                = S754_zero negative).
  { destruct negative; reflexivity. }
  apply Z.eqb_neq in Hidx. rewrite Hidx, Hfreq, Hms.
  unfold outbox. simpl. rewrite <- app_assoc. reflexivity.
Qed.

(** X12 at concrete inputs: the spoken reply, at 24 kHz. *)
Lemma cancelResponse_default_truncates_at_zero_witness :
  (connected (realtime talking_client) = true /\
   "item_A" <> "" /\
   Conversation.getItem "item_A" (conversation talking_client) = Some spoken_reply /\
   item_type spoken_reply = message /\
   item_role spoken_reply = Some assistant /\
   findIndex is_audio (item_content spoken_reply) <> -1 /\
   defaultFrequency (conversation talking_client)
     = S754_finite false 6597069766656000 (-38)) /\
  outbox (state_after (cancelResponse (Some "item_A") None) talking_client) =
    [response_cancel; conversation_item_truncate "item_A" 1 (S754_zero false)].
Proof.
  assert (H0 : connected (realtime talking_client) = true) by reflexivity.
  assert (H1 : "item_A" <> "") by discriminate.
  assert (H2 : Conversation.getItem "item_A" (conversation talking_client)
               = Some spoken_reply) by reflexivity.
  assert (H3 : item_type spoken_reply = message) by reflexivity.
  assert (H4 : item_role spoken_reply = Some assistant) by reflexivity.
  assert (H5 : findIndex is_audio (item_content spoken_reply) <> -1) by discriminate.
  assert (H6 : defaultFrequency (conversation talking_client)
               = S754_finite false 6597069766656000 (-38)) by reflexivity.
  split; [repeat split; assumption |].
  exact (cancelResponse_default_truncates_at_zero
           talking_client "item_A" spoken_reply false 6597069766656000 (-38)
           H0 H1 H2 H3 H4 H5 H6).
Defined.

(* ================================================================== *)
(** * Successive session updates                                       *)
(* ================================================================== *)

Lemma merge_session_merge (p q s : SessionResourceType) :
  merge_session q (merge_session p s) = merge_session (merge_session q p) s.
Proof.
  destruct p, q. unfold merge_session, assign. simpl. f_equal;
    repeat match goal with
           | |- context [match ?x with _ => _ end] => is_var x; destruct x
           end;
    reflexivity.
Qed.

(** X13: two calls of [updateSession] store what one call with the
    second argument laid over the first stores, whether or not either
    call returned: per member the later value that is not [undefined]
    wins.  In particular a repeated call stores nothing new, and an
    empty update stores nothing at all. *)
Theorem updateSession_twice_is_one_merged_update
  (p q : SessionResourceType) (c : RealtimeClient) :
  let after (ps : list SessionResourceType) :=
    sessionConfig (fold_left (fun c p => state_after (updateSession p) c) ps c) in
  after [p; q] = after [merge_session q p] /\
  after [p; p] = after [p] /\
  after [Session.empty] = sessionConfig c.
Proof.
  cbv zeta. simpl.
  rewrite !(fun p c => proj1 (updateSession_stored p c)).
  rewrite !merge_session_merge, merge_session_empty.
  split; [reflexivity | split; [| reflexivity]].
  destruct p, q. unfold merge_session, assign. simpl. f_equal;
    repeat match goal with
           | |- context [match ?x with _ => _ end] => is_var x; destruct x
           end;
    reflexivity.
Qed.

(* ================================================================== *)
(** * The registry and tool calls at concrete inputs                   *)
(* ================================================================== *)

(** X14 at concrete inputs: [get_weather] added to a connected client
    without tools. *)
Lemma addTool_registers_witness :
  let def := tool_named "get_weather" in
  let cfg := {| definition := def; handler := echo_handler |} in
  (tool_name def = Some "get_weather" /\ "get_weather" <> "" /\
   Dict.is_inherited "get_weather" = false) /\
  completion (addTool def (a_function echo_handler)) talking_client
    = Returns (Dict.Own cfg) /\
  outbox (state_after (addTool def (a_function echo_handler)) talking_client) =
    [session_update (Session.set_tools defaultSessionConfig [function_tool def])].
Proof.
  cbv zeta.
  assert (H1 : tool_name (tool_named "get_weather") = Some "get_weather") by reflexivity.
  assert (H2 : "get_weather" <> "") by discriminate.
  assert (H3 : Dict.is_inherited "get_weather" = false) by reflexivity.
  split; [repeat split; assumption |].
  destruct (addTool_registers (tool_named "get_weather") (a_function echo_handler)
              talking_client "get_weather" H1 H2 H3) as (_ & _ & Hadd).
  destruct (Hadd echo_handler eq_refl eq_refl) as (Hr & _ & _ & Hout).
  split; [exact Hr | exact Hout].
Defined.

(** X15 at concrete inputs: [get_weather] removed from a client that
    has it, and added again. *)
Lemma removeTool_unregisters_witness :
  Dict.is_inherited "get_weather" = false /\
  completion (removeTool "get_weather") tooled_client = Returns true /\
  tools (state_after (removeTool "get_weather") tooled_client) = Dict.empty /\
  completion (addTool (tool_named "get_weather") (a_function echo_handler))
    (state_after (removeTool "get_weather") tooled_client) =
    Returns (Dict.Own {| definition := tool_named "get_weather"; handler := echo_handler |}).
Proof.
  assert (H1 : Dict.is_inherited "get_weather" = false) by reflexivity.
  split; [exact H1 |].
  destruct (removeTool_unregisters tooled_client "get_weather" H1) as [_ Hremove].
  destruct (Hremove {| definition := tool_named "get_weather"; handler := echo_handler |}
              eq_refl) as (Hr & Htools & _ & Hagain).
  split; [exact Hr |]. split; [exact Htools |].
  apply Hagain; [discriminate | reflexivity].
Defined.

(** X16 at concrete inputs: [get_weather] added twice to a new
    client. *)
Lemma addTool_twice_fails_witness :
  let def := tool_named "get_weather" in
  let c1 := state_after (addTool def (a_function echo_handler)) new_client in
  (tool_name def = Some "get_weather" /\ "get_weather" <> "" /\
   Dict.truthy (tools new_client) "get_weather" = false) /\
  addTool def (a_function echo_handler) c1 =
    (Throws (JSError (already_added "get_weather")), c1).
Proof.
  cbv zeta.
  assert (H1 : tool_name (tool_named "get_weather") = Some "get_weather") by reflexivity.
  assert (H2 : "get_weather" <> "") by discriminate.
  assert (H3 : Dict.truthy (tools new_client) "get_weather" = false) by reflexivity.
  split; [repeat split; assumption |].
  exact (proj1 (addTool_twice_fails (tool_named "get_weather") (tool_named "get_weather")
                  echo_handler (a_function echo_handler) new_client "get_weather"
                  H1 H1 H2 H3)).
Defined.

(** X17 at concrete inputs: [valueOf] on a new client. *)
Lemma inherited_name_always_taken_witness :
  (Dict.is_inherited "valueOf" = true /\
   tool_name (tool_named "valueOf") = Some "valueOf") /\
  completion (removeTool "valueOf") new_client = Returns true /\
  addTool (tool_named "valueOf") (a_function echo_handler) new_client =
    (Throws (JSError (already_added "valueOf")), new_client).
Proof.
  assert (H1 : Dict.is_inherited "valueOf" = true) by reflexivity.
  assert (H2 : tool_name (tool_named "valueOf") = Some "valueOf") by reflexivity.
  split; [split; assumption |].
  exact (inherited_name_always_taken new_client "valueOf" (tool_named "valueOf")
           (a_function echo_handler) H1 H2).
Defined.

(** X18 at concrete inputs: a handler call rejected with an [Error],
    on a connected client. *)
Lemma callTool_resume_reports_witness :
  let s := rejected (JSError "no forecast") in
  (s <> rejected JSUndefined /\ s <> rejected JSNull /\
   connected (realtime tooled_client) = true) /\
  completion (@callTool_resume sample_json weather_call s) tooled_client = Returns tt /\
  exists output,
    @settled_output sample_json s = Returns output /\
    outbox (state_after (@callTool_resume sample_json weather_call s) tooled_client) =
      [report weather_call output; response_create].
Proof.
  cbv zeta.
  assert (H1 : rejected (JSError "no forecast") <> rejected JSUndefined) by discriminate.
  assert (H2 : rejected (JSError "no forecast") <> rejected JSNull) by discriminate.
  assert (H3 : connected (realtime tooled_client) = true) by reflexivity.
  split; [repeat split; assumption |].
  destruct (@callTool_resume_reports sample_json weather_call
              (rejected (JSError "no forecast")) tooled_client H1 H2)
    as (output & Hout & Hon & _).
  destruct (Hon H3) as [Hr Hsent].
  split; [exact Hr |]. exists output. split; [exact Hout | exact Hsent].
Defined.

(** X19 at concrete inputs: a tool call whose arguments are cut
    short, on a connected client. *)
Lemma callTool_call_reports_failure_witness :
  let e := JSError "Unexpected end of JSON input" in
  (@start_of sample_json weather_call_cut_short (tools tooled_client) = failed_with e /\
   e <> JSUndefined /\ e <> JSNull /\
   connected (realtime tooled_client) = true) /\
  completion (@callTool_call sample_json weather_call_cut_short) tooled_client
    = Returns None /\
  exists output,
    @error_output sample_json e = Returns output /\
    outbox (state_after (@callTool_call sample_json weather_call_cut_short) tooled_client) =
      [report weather_call_cut_short output; response_create].
Proof.
  cbv zeta.
  assert (H1 : @start_of sample_json weather_call_cut_short (tools tooled_client)
               = failed_with (JSError "Unexpected end of JSON input")) by reflexivity.
  assert (H2 : JSError "Unexpected end of JSON input" <> JSUndefined) by discriminate.
  assert (H3 : JSError "Unexpected end of JSON input" <> JSNull) by discriminate.
  assert (H4 : connected (realtime tooled_client) = true) by reflexivity.
  split; [repeat split; assumption |].
  destruct (@callTool_call_reports_failure sample_json weather_call_cut_short
              (JSError "Unexpected end of JSON input") tooled_client H1 H2 H3)
    as (output & Hout & Hon & _).
  destruct (Hon H4) as [Hr Hsent].
  split; [exact Hr |]. exists output. split; [exact Hout | exact Hsent].
Defined.

(** X20 at concrete inputs: [get_weather] called on a connected client
    without tools, which has audio staged. *)
Lemma callTool_call_missing_tool_witness :
  (connected (realtime talking_client) = true /\
   @JSON_parse sample_json (ft_arguments weather_call) = Returns (JSObject []) /\
   Dict.get (tools talking_client) (ft_name weather_call) = Dict.Absent) /\
  completion (@callTool_call sample_json weather_call) talking_client = Returns None /\
  outbox (state_after (@callTool_call sample_json weather_call) talking_client) =
    [conversation_item_create
       (function_output "call_1"
          (@JSON_stringify sample_json
             (JSObject [("error",
                         JSString ("Tool " ++ dq ++ "get_weather" ++ dq
                                   ++ " has not been added")%string)])));
     input_audio_buffer_commit;
     response_create].
Proof.
  assert (H0 : connected (realtime talking_client) = true) by reflexivity.
  assert (H1 : @JSON_parse sample_json (ft_arguments weather_call) = Returns (JSObject []))
    by reflexivity.
  assert (H2 : Dict.get (tools talking_client) (ft_name weather_call) = Dict.Absent)
    by reflexivity.
  split; [repeat split; assumption |].
  exact (@callTool_call_missing_tool sample_json weather_call (JSObject []) talking_client
           H0 H1 H2).
Defined.

(** X21 at concrete inputs: a handler that throws [undefined]. *)
Lemma callTool_call_thrown_undefined_witness :
  @start_of sample_json weather_call (tools careless_client) = failed_with JSUndefined /\
  @callTool_call sample_json weather_call careless_client =
    (Throws (JSError (cannot_read_properties "undefined" "message")), careless_client).
Proof.
  assert (H1 : @start_of sample_json weather_call (tools careless_client)
               = failed_with JSUndefined) by reflexivity.
  split; [exact H1 |].
  exact (@callTool_call_thrown_undefined sample_json weather_call careless_client H1).
Defined.
(* ================================================================== *)
(** * Worked examples                                                  *)
(* ================================================================== *)

#[local] Existing Instance sample_codec.
#[local] Existing Instance sample_json.

(** [Object.keys] lists array indices first, in ascending order. *)
Example keys_order :
  Dict.keys [("b", 1%nat); ("10", 2%nat); ("a", 3%nat); ("9", 4%nat); ("01", 5%nat)]
  = ["9"; "10"; "b"; "a"; "01"].
Proof. reflexivity. Qed.

(** Staged audio, no turn detection: commit, then create. *)
Example createResponse_on_staged_audio :
  List.map event_name (outbox (state_after createResponse talking_client))
  = ["input_audio_buffer.commit"; "response.create"]
  /\ queuedInputAudio (conversation (state_after createResponse talking_client)) = [[1; 2]]
  /\ inputAudioBuffer (state_after createResponse talking_client) = [].
Proof. repeat split; reflexivity. Qed.

(** The base64 text of the samples [1, 2] and of the bytes "Man". *)
Example base64_of_samples :
  arrayBufferToBase64 (samples_of [1; 2]) = "AQACAA=="
  /\ arrayBufferToBase64 (bytes_of [Byte.x4d; Byte.x61; Byte.x6e]) = "TWFu"
  /\ arrayBufferToBase64 (bytes_of [Byte.x4d; Byte.x61]) = "TWE=".
Proof. repeat split; reflexivity. Qed.

(** Raw audio in an [input_audio] part goes out as base64 text; the
    message is followed by the commit of the staged audio and the
    request for a response. *)
Example sendUserMessageContent_with_raw_audio :
  outbox
    (state_after
       (sendUserMessageContent
          [ {| part_type := input_audio; part_text := None;
               part_audio := raw_audio (samples_of [1; 2]); part_transcript := None |} ])
       talking_client)
  = [ conversation_item_create
        (user_message
           [ {| part_type := input_audio; part_text := None;
                part_audio := base64_audio "AQACAA=="; part_transcript := None |} ]);
      input_audio_buffer_commit;
      response_create ].
Proof. reflexivity. Qed.

(** Appending an [ArrayBuffer] of four bytes stages two samples. *)
Example appendInputAudio_bytes :
  inputAudioBuffer
    (state_after (appendInputAudio (bytes_of [Byte.x03; Byte.x00; Byte.xff; Byte.xff]))
       talking_client)
  = [1; 2; 3; -1].
Proof. reflexivity. Qed.

(** A tool that was never added: the error goes back as the output of
    the call, and a response is requested, after the commit of the
    staged audio. *)
Example callTool_unknown_tool :
  outbox (state_after (callTool_call weather_call) talking_client) =
  [report weather_call
     (Some ("{" ++ json_quote "error" ++ ":"
            ++ json_quote ("Tool " ++ dq ++ "get_weather" ++ dq ++ " has not been added")
            ++ "}")%string);
   input_audio_buffer_commit;
   response_create].
Proof. reflexivity. Qed.

(** The handler's promise is rejected with an [Error]: one
    [function_call_output], then [response.create]. *)
Example callTool_rejected_with_error :
  outbox (state_after (callTool_resume weather_call (rejected (JSError "boom")))
            tooled_client)
  = [report weather_call (Some ("{" ++ json_quote "error" ++ ":" ++ json_quote "boom" ++ "}")%string);
     response_create].
Proof. reflexivity. Qed.

(** The handler's promise is rejected without a reason: nothing. *)
Example callTool_rejected_without_reason :
  outbox (state_after (callTool_resume weather_call (rejected JSUndefined)) tooled_client)
  = [].
Proof. reflexivity. Qed.

(** The handler's promise is fulfilled after the client was
    disconnected: the report is refused in the [try] block and again
    in the [catch] block, and no response is requested. *)
Example callTool_settled_after_disconnect :
  callTool_resume weather_call (fulfilled (JSObject [])) hung_up_client
  = (Throws API.not_connected, hung_up_client).
Proof. reflexivity. Qed.

(** [cancelResponse] on an unknown id, on a function call and on a
    user message: the three refusals, each before anything is sent. *)
Example cancelResponse_refusals :
  cancelResponse (Some "item_Z") None talking_client
  = (Throws (JSError ("Could not find item " ++ dq ++ "item_Z" ++ dq)%string), talking_client)
  /\ cancelResponse (Some "item_D") None talking_client
  = (Throws (JSError ("Can only cancelResponse messages with type "
                      ++ dq ++ "message" ++ dq)%string), talking_client)
  /\ cancelResponse (Some "item_C") None talking_client
  = (Throws (JSError ("Can only cancelResponse messages with role "
                      ++ dq ++ "assistant" ++ dq)%string), talking_client).
Proof. repeat split; reflexivity. Qed.

(** On a connected client [addTool] sends the configuration with the
    new tool; [removeTool] then sends nothing, and the registry is
    empty again. *)
Example addTool_then_removeTool :
  let added := state_after (addTool (tool_named "get_weather") (a_function echo_handler))
                 talking_client in
  let removed := state_after (removeTool "get_weather") added in
  outbox added
  = [session_update
       (Session.set_tools defaultSessionConfig [function_tool (tool_named "get_weather")])]
  /\ outbox removed = outbox added
  /\ tools removed = Dict.empty.
Proof. repeat split; reflexivity. Qed.

(** [reset()] empties the staged audio; [disconnect()] does not. *)
Example reset_and_disconnect :
  inputAudioBuffer (state_after reset talking_client) = []
  /\ inputAudioBuffer (state_after disconnect talking_client) = [1; 2].
Proof. repeat split; reflexivity. Qed.

(** An inline tool under a registered name is refused; the members of
    the argument have been stored by then. *)
Example updateSession_duplicate_tool :
  let added := state_after (addTool (tool_named "get_weather") (a_function echo_handler))
                 new_client in
  let p := {| Session.model := None; Session.modalities := None;
              Session.instructions := Some "Be brief."; Session.voice := None;
              Session.input_audio_format := None; Session.output_audio_format := None;
              Session.input_audio_transcription := None; Session.turn_detection := None;
              Session.tools := Some [tool_named "get_weather"];
              Session.tool_choice := None; Session.temperature := None;
              Session.max_response_output_tokens := None |} in
  completion (updateSession p) added = Throws (JSError (already_defined "get_weather"))
  /\ Session.instructions (sessionConfig (state_after (updateSession p) added))
     = Some "Be brief."
  /\ outbox (state_after (updateSession p) added) = [].
Proof. repeat split; reflexivity. Qed.
